(** * qc2.ase.dirac: FCIDUMP parsing and spin-block expansion

    A shallow embedding of the two numerical routines of [DIRAC] in
    [qc2/ase/dirac.py]:

    - [DIRAC.get_integrals], which reads the FCIDUMP text file into a core
      energy and three dictionaries keyed by spin-orbital indices;
    - the wavefunction part of [DIRAC.save], which expands the one- and
      two-body dictionaries into dense [numpy] arrays of [float64].

    Python floats are the kernel's binary64 floats, Python ints are [Z],
    dictionaries are [gmap]s, exceptions are an error monad. *)

From Stdlib Require Import ZArith String Ascii List Lia Bool.
From Stdlib Require Import PrimFloat Uint63.
From stdpp Require Import base option gmap strings list.

Set Warnings "-inexact-float".
Local Open Scope string_scope.

(* ===================================================================== *)
(** * Python runtime *)
(* ===================================================================== *)

(** The built-in exceptions the two routines can raise. *)
Inductive py_error : Type :=
| KeyError     (* dict subscript with an absent key *)
| IndexError   (* list subscript out of range *)
| ValueError   (* int() or float() of a malformed literal *)
| TypeError.   (* a complex stored into a float64 array *)

Inductive result (A : Type) : Type :=
| Ok (a : A)
| Raise (e : py_error).
Arguments Ok {A} a.
Arguments Raise {A} e.

Definition bind {A B : Type} (m : result A) (k : A -> result B) : result B :=
  match m with
  | Ok a => k a
  | Raise e => Raise e
  end.

Notation "x <~ m ; k" := (bind m (fun x => k))
  (at level 200, m at level 100, k at level 200, right associativity,
   format "'[v' x  <~  m ; '/' k ']'").

Definition is_ok {A : Type} (m : result A) : bool :=
  match m with Ok _ => true | Raise _ => false end.

(** A Python [float], or a Python [complex] as its two [float] parts. *)
Inductive scalar : Type :=
| PyFloat (x : float)
| PyComplex (re im : float).

(** [e_core] starts as the int literal [0] and is rebound to a parsed
    scalar by the zero-index row. *)
Inductive number : Type :=
| PyInt (n : Z)
| PyScalar (v : scalar).

(** [range(n)]. *)
Definition range (n : nat) : list nat := seq 0 n.

(** [for x in xs: body], where the body may raise. *)
Fixpoint for_each {A S : Type} (xs : list A) (body : A -> S -> result S)
    (s : S) : result S :=
  match xs with
  | [] => Ok s
  | x :: xs' =>
      match body x s with
      | Ok s' => for_each xs' body s'
      | Raise e => Raise e
      end
  end.

(** [d[k]] on a dict. *)
Definition dict_getitem {K V : Type} `{Countable K} (d : gmap K V) (k : K)
    : result V :=
  match d !! k with
  | Some v => Ok v
  | None => Raise KeyError
  end.

(** [if k in d: s = f(d[k], s)]. *)
Definition if_in {K V S : Type} `{Countable K} (d : gmap K V) (k : K)
    (f : V -> S -> result S) (s : S) : result S :=
  match d !! k with
  | Some v => f v s
  | None => Ok s
  end.

(** [l[i]] on a list, for [i >= 0]. *)
Definition list_getitem {A : Type} (l : list A) (i : nat) : result A :=
  match l !! i with
  | Some a => Ok a
  | None => Raise IndexError
  end.

(* ===================================================================== *)
(** * numpy arrays of float64 *)
(* ===================================================================== *)

(** Index tuples of the two array ranks in use. *)
Definition idx2 : Type := nat * nat.
Definition idx4 : Type := nat * nat * nat * nat.

(** An [ndarray] with [dtype=np.float64], read through its index tuple.
    Every subscript the routines compute is drawn from [range(nmo)], so
    the shape is left implicit. *)
Definition ndarray (I : Type) : Type := I -> float.
Definition matrix : Type := ndarray idx2.
Definition tensor : Type := ndarray idx4.

(** [np.zeros(shape, dtype=np.float64)]. *)
Definition np_zeros {I : Type} : ndarray I := fun _ => 0%float.

(** [a[i] = v] on a float64 array.  A Python [float] is stored as it is;
    a Python [complex] is refused by numpy with a [TypeError]. *)
Definition setitem {I : Type} `{EqDecision I} (a : ndarray I) (i : I)
    (v : scalar) : result (ndarray I) :=
  match v with
  | PyFloat x => Ok (fun j => if decide (j = i) then x else a j)
  | PyComplex _ _ => Raise TypeError
  end.

(** [np.conj(v)]: the identity on a real, the sign of the imaginary part
    flipped on a complex. *)
Definition np_conj (v : scalar) : scalar :=
  match v with
  | PyFloat x => PyFloat x
  | PyComplex re im => PyComplex re (- im)%float
  end.

(** [EQ_TOLERANCE = 1e-8]. *)
Definition EQ_TOLERANCE : float := 1e-8%float.

(** [np.abs(x) < EQ_TOLERANCE] on one element. *)
Definition below_tolerance (x : float) : bool :=
  (PrimFloat.abs x <? EQ_TOLERANCE)%float.

(** One element of [a[np.abs(a) < EQ_TOLERANCE] = 0.]. *)
Definition truncate_cell (x : float) : float :=
  if below_tolerance x then 0%float else x.

(** [a[np.abs(a) < EQ_TOLERANCE] = 0.] *)
Definition truncate {I : Type} (a : ndarray I) : ndarray I :=
  fun i => truncate_cell (a i).

(** [a.flatten()] of an [(n, n)] and of an [(n, n, n, n)] array, row-major. *)
Definition flatten2 (n : nat) (a : matrix) : list float :=
  p ← range n; q ← range n; [a (p, q)].

Definition flatten4 (n : nat) (a : tensor) : list float :=
  p ← range n; q ← range n; r ← range n; s ← range n; [a (p, q, r, s)].

(* ===================================================================== *)
(** * DIRAC.save: the wavefunction group *)
(* ===================================================================== *)

(** The index doubling: spatial orbital [p] is spin orbital [2p+1] with
    alpha spin and [2p+2] with beta spin. *)
Definition alpha (p : nat) : Z := 2 * Z.of_nat p + 1.
Definition beta (p : nat) : Z := 2 * Z.of_nat p + 2.

(** Body of the one-body loop nest: the alpha lookup and store, then the
    beta lookup and store. *)
Definition one_body_step (one_body_integrals : gmap (Z * Z) scalar)
    (p q : nat) (st : matrix * matrix) : result (matrix * matrix) :=
  va <~ dict_getitem one_body_integrals (alpha p, alpha q);
  a' <~ setitem (fst st) (p, q) va;
  vb <~ dict_getitem one_body_integrals (beta p, beta q);
  b' <~ setitem (snd st) (p, q) vb;
  Ok (a', b').

(** [one_body_coefficients_a], [one_body_coefficients_b] after the loop
    nest and before truncation. *)
Definition expand_one_body (nmo : nat)
    (one_body_integrals : gmap (Z * Z) scalar) : result (matrix * matrix) :=
  for_each (range nmo) (fun p =>
    for_each (range nmo) (fun q => one_body_step one_body_integrals p q))
    (np_zeros, np_zeros).

(** The four two-body arrays. *)
Record blocks : Type := Blocks {
  two_body_coefficients_aa : tensor;
  two_body_coefficients_bb : tensor;
  two_body_coefficients_ab : tensor;
  two_body_coefficients_ba : tensor
}.

(** The three positions related to [(p,q,r,s)] by permutation symmetry. *)
Definition swap_within (c : idx4) : idx4 :=
  let '(p, q, r, s) := c in (q, p, s, r).
Definition swap_pairs (c : idx4) : idx4 :=
  let '(p, q, r, s) := c in (r, s, p, q).
Definition swap_both (c : idx4) : idx4 :=
  let '(p, q, r, s) := c in (s, r, q, p).

(** The four assignments of one term to one array, as target and value:
    [t[p,q,r,s] = term; t[q,p,s,r] = term;
     t[r,s,p,q] = np.conj(term); t[s,r,q,p] = np.conj(term)]. *)
Definition fill4_stores (c : idx4) (term : scalar) : list (idx4 * scalar) :=
  [ (c, term);
    (swap_within c, term);
    (swap_pairs c, np_conj term);
    (swap_both c, np_conj term) ].

(** The four assignments carried out in order on the array [t].  A complex
    term is refused by the first of them, so no conjugated complex ever
    reaches [setitem]. *)
Definition fill4 (t : tensor) (c : idx4) (term : scalar) : result tensor :=
  for_each (fill4_stores c term) (fun st t' => setitem t' (fst st) (snd st)) t.

(** The four doubled keys tested for a spatial quadruple. *)
Definition aa_key (c : idx4) : Z * Z * Z * Z :=
  let '(p, q, r, s) := c in (alpha p, alpha q, alpha r, alpha s).
Definition bb_key (c : idx4) : Z * Z * Z * Z :=
  let '(p, q, r, s) := c in (beta p, beta q, beta r, beta s).
Definition ab_key (c : idx4) : Z * Z * Z * Z :=
  let '(p, q, r, s) := c in (alpha p, beta q, beta r, alpha s).
Definition ba_key (c : idx4) : Z * Z * Z * Z :=
  let '(p, q, r, s) := c in (beta p, alpha q, alpha r, beta s).

(** The alpha-alpha term goes to [aa], [ba], [ab], [bb], in this order. *)
Definition fill_all (c : idx4) (aa_term : scalar) (st : blocks)
    : result blocks :=
  aa' <~ fill4 (two_body_coefficients_aa st) c aa_term;
  ba' <~ fill4 (two_body_coefficients_ba st) c aa_term;
  ab' <~ fill4 (two_body_coefficients_ab st) c aa_term;
  bb' <~ fill4 (two_body_coefficients_bb st) c aa_term;
  Ok (Blocks aa' bb' ab' ba').

Definition fill_bb (c : idx4) (bb_term : scalar) (st : blocks)
    : result blocks :=
  bb' <~ fill4 (two_body_coefficients_bb st) c bb_term;
  Ok (Blocks (two_body_coefficients_aa st) bb'
             (two_body_coefficients_ab st) (two_body_coefficients_ba st)).

Definition fill_ab (c : idx4) (ab_term : scalar) (st : blocks)
    : result blocks :=
  ab' <~ fill4 (two_body_coefficients_ab st) c ab_term;
  Ok (Blocks (two_body_coefficients_aa st) (two_body_coefficients_bb st)
             ab' (two_body_coefficients_ba st)).

Definition fill_ba (c : idx4) (ba_term : scalar) (st : blocks)
    : result blocks :=
  ba' <~ fill4 (two_body_coefficients_ba st) c ba_term;
  Ok (Blocks (two_body_coefficients_aa st) (two_body_coefficients_bb st)
             (two_body_coefficients_ab st) ba').

(** Body of the two-body loop nest: the four [if key in
    two_body_integrals] blocks, in source order. *)
Definition two_body_step (two_body_integrals : gmap (Z * Z * Z * Z) scalar)
    (c : idx4) (st : blocks) : result blocks :=
  st1 <~ if_in two_body_integrals (aa_key c) (fill_all c) st;
  st2 <~ if_in two_body_integrals (bb_key c) (fill_bb c) st1;
  st3 <~ if_in two_body_integrals (ab_key c) (fill_ab c) st2;
  if_in two_body_integrals (ba_key c) (fill_ba c) st3.

(** The four arrays after the loop nest and before truncation. *)
Definition expand_two_body (nmo : nat)
    (two_body_integrals : gmap (Z * Z * Z * Z) scalar) : result blocks :=
  for_each (range nmo) (fun p =>
    for_each (range nmo) (fun q =>
      for_each (range nmo) (fun r =>
        for_each (range nmo) (fun s =>
          two_body_step two_body_integrals (p, q, r, s)))))
    (Blocks np_zeros np_zeros np_zeros np_zeros).

Definition truncate_blocks (st : blocks) : blocks :=
  Blocks (truncate (two_body_coefficients_aa st))
         (truncate (two_body_coefficients_bb st))
         (truncate (two_body_coefficients_ab st))
         (truncate (two_body_coefficients_ba st)).

(** The six arrays handed to [wavefunction.create_dataset]. *)
Record dense_integrals : Type := Dense {
  one_body_coefficients_a : matrix;
  one_body_coefficients_b : matrix;
  two_body : blocks
}.

(** Section 7 of [save]: one-body loops, one-body truncation, two-body
    loops, two-body truncation. *)
Definition save_wavefunction (nmo : nat)
    (one_body_integrals : gmap (Z * Z) scalar)
    (two_body_integrals : gmap (Z * Z * Z * Z) scalar)
    : result dense_integrals :=
  ob <~ expand_one_body nmo one_body_integrals;
  let a := truncate (fst ob) in
  let b := truncate (snd ob) in
  tb <~ expand_two_body nmo two_body_integrals;
  Ok (Dense a b (truncate_blocks tb)).

(* ===================================================================== *)
(** * Strings *)
(* ===================================================================== *)

(** [needle in line] on two strings. *)
Fixpoint contains (needle line : string) : bool :=
  String.prefix needle line ||
  match line with
  | EmptyString => false
  | String _ rest => contains needle rest
  end.

(** The ASCII characters [str.split()] treats as separators. *)
Definition is_space (c : ascii) : bool :=
  let n := nat_of_ascii c in
  ((9 <=? n) && (n <=? 13) || (28 <=? n) && (n <=? 32))%nat.

(** [split_from tok s]: the tokens of [s], [tok] being the token read so
    far. *)
Fixpoint split_from (tok s : string) : list string :=
  match s with
  | EmptyString => match tok with EmptyString => [] | _ => [tok] end
  | String c s' =>
      if is_space c then
        match tok with
        | EmptyString => split_from EmptyString s'
        | _ => tok :: split_from EmptyString s'
        end
      else split_from (tok ++ String c EmptyString) s'
  end.

(** [line.split()]. *)
Definition split (line : string) : list string := split_from EmptyString line.

(* ===================================================================== *)
(** * DIRAC.get_integrals *)
(* ===================================================================== *)

(** The tuple [(e_core, spinor, one_body_int, two_body_int)]. *)
Record integrals : Type := Integrals {
  e_core : number;
  spinor : gmap Z scalar;
  one_body_int : gmap (Z * Z) scalar;
  two_body_int : gmap (Z * Z * Z * Z) scalar
}.

(** The header loop over the open file: [start_reading] counts the lines
    consumed, the loop breaks after the first line with ["&END"] in it.
    Returns the counter and the lines left for [f.readlines()]. *)
Fixpoint skip_header (f : list string) (start_reading : nat)
    : nat * list string :=
  match f with
  | [] => (start_reading, [])
  | line :: f' =>
      if contains "&END" line then (S start_reading, f')
      else skip_header f' (S start_reading)
  end.

(** The branches on the four indices, shared by the real and the complex
    loop; [value] is the conversion of the value columns, evaluated inside
    the branch taken. *)
Definition store_row (a_1 a_2 a_3 a_4 : Z) (value : result scalar)
    (st : integrals) : result integrals :=
  if (a_4 =? 0)%Z && (a_3 =? 0)%Z then
    if (a_2 =? 0)%Z then
      if (a_1 =? 0)%Z then
        v <~ value;
        Ok (Integrals (PyScalar v) (spinor st) (one_body_int st)
                      (two_body_int st))
      else
        v <~ value;
        Ok (Integrals (e_core st) (<[a_1 := v]> (spinor st))
                      (one_body_int st) (two_body_int st))
    else
      v <~ value;
      Ok (Integrals (e_core st) (spinor st)
                    (<[(a_1, a_2) := v]> (one_body_int st))
                    (two_body_int st))
  else
    v <~ value;
    Ok (Integrals (e_core st) (spinor st) (one_body_int st)
                  (<[(a_1, a_2, a_3, a_4) := v]> (two_body_int st))).

Section Lexers.

(** The built-ins [int()] and [float()] on a token; [None] stands for their
    [ValueError]. *)
Variable py_int : string -> option Z.
Variable py_float : string -> option float.

(** [int(listed_values[row][k])]. *)
Definition int_at (listed_values : list (list string)) (row k : nat)
    : result Z :=
  r <~ list_getitem listed_values row;
  tok <~ list_getitem r k;
  match py_int tok with
  | Some z => Ok z
  | None => Raise ValueError
  end.

(** [float(listed_values[row][k])]. *)
Definition float_at (listed_values : list (list string)) (row k : nat)
    : result float :=
  r <~ list_getitem listed_values row;
  tok <~ list_getitem r k;
  match py_float tok with
  | Some x => Ok x
  | None => Raise ValueError
  end.

(** Body of the loop under [if not complex_int]. *)
Definition real_row (listed_values : list (list string)) (row : nat)
    (st : integrals) : result integrals :=
  a_1 <~ int_at listed_values row 1;
  a_2 <~ int_at listed_values row 2;
  a_3 <~ int_at listed_values row 3;
  a_4 <~ int_at listed_values row 4;
  store_row a_1 a_2 a_3 a_4
    (x <~ float_at listed_values row 0; Ok (PyFloat x)) st.

(** Body of the loop under [if complex_int]. *)
Definition complex_row (listed_values : list (list string)) (row : nat)
    (st : integrals) : result integrals :=
  a_1 <~ int_at listed_values row 2;
  a_2 <~ int_at listed_values row 3;
  a_3 <~ int_at listed_values row 4;
  a_4 <~ int_at listed_values row 5;
  store_row a_1 a_2 a_3 a_4
    (re <~ float_at listed_values row 0;
     im <~ float_at listed_values row 1;
     Ok (PyComplex re im)) st.

(** The rows read after the header: [listed_values]. *)
Definition data_rows (file : list string) : list (list string) :=
  map split (snd (skip_header file 0)).

(** [get_integrals] from the point where FCIDUMP is opened; [file] is the
    list of its lines. *)
Definition get_integrals (file : list string) : result integrals :=
  let num_lines := length file in
  let start_reading := fst (skip_header file 0) in
  let listed_values := data_rows file in
  first <~ list_getitem listed_values 0;
  let complex_int := (length first =? 6)%nat in
  let st0 := Integrals (PyInt 0) ∅ ∅ ∅ in
  st1 <~ (if negb complex_int
          then for_each (range (num_lines - start_reading))
                        (real_row listed_values) st0
          else Ok st0);
  if complex_int
  then for_each (range (num_lines - start_reading))
                (complex_row listed_values) st1
  else Ok st1.

(** ** The same reading, told row by row

    The data rows are the lines after the terminator; each is consumed
    once, in file order, by the loop body of the file's kind. *)

(** The four index columns of one row, [off] value columns before them. *)
Definition row_indices (off : nat) (r : list string)
    : result (Z * Z * Z * Z) :=
  a_1 <~ int_at [r] 0 off;
  a_2 <~ int_at [r] 0 (off + 1);
  a_3 <~ int_at [r] 0 (off + 2);
  a_4 <~ int_at [r] 0 (off + 3);
  Ok (a_1, a_2, a_3, a_4).

(** The value columns of one row as a scalar of the file's kind. *)
Definition row_value (complex_int : bool) (r : list string)
    : result scalar :=
  if complex_int then
    re <~ float_at [r] 0 0;
    im <~ float_at [r] 0 1;
    Ok (PyComplex re im)
  else
    x <~ float_at [r] 0 0;
    Ok (PyFloat x).

(** One row consumed on its own. *)
Definition consume_row (complex_int : bool) (r : list string)
    (st : integrals) : result integrals :=
  if complex_int then complex_row [r] 0 st else real_row [r] 0 st.

(** The kind of a file: complex when its first data row has six tokens. *)
Definition is_complex (rows : list (list string)) : bool :=
  match rows with
  | first :: _ => (length first =? 6)%nat
  | [] => false
  end.

(** All rows consumed in order, the kind fixed by the first row. *)
Definition consume_rows (rows : list (list string)) : result integrals :=
  first <~ list_getitem rows 0;
  for_each rows (consume_row (is_complex rows))
           (Integrals (PyInt 0) ∅ ∅ ∅).

(** Number of value columns, and of columns the loop body reads. *)
Definition value_columns (complex_int : bool) : nat :=
  if complex_int then 2 else 1.
Definition row_width (complex_int : bool) : nat :=
  value_columns complex_int + 4.

(** A row the loop body cannot read: too few tokens, or a token in an
    index column that is no int, or one in a value column that is no
    float. *)
Definition unreadable (complex_int : bool) (r : list string) : Prop :=
  length r < row_width complex_int \/
  (exists k tok, k < 4 /\ r !! (value_columns complex_int + k) = Some tok /\
                 py_int tok = None) \/
  (exists k tok, k < value_columns complex_int /\ r !! k = Some tok /\
                 py_float tok = None).

(** The errors of reading: a missing token or a malformed one. *)
Definition parse_error (e : py_error) : Prop :=
  e = IndexError \/ e = ValueError.

End Lexers.

(* ===================================================================== *)
(** * Sample lexers for plain decimal literals *)
(* ===================================================================== *)

(** The closed examples below need concrete [int()] and [float()].  These
    two accept signed plain decimals, a sublanguage of what Python accepts,
    and return on it what Python returns. *)

Definition digit_of (c : ascii) : option Z :=
  let n := nat_of_ascii c in
  if ((48 <=? n) && (n <=? 57))%nat then Some (Z.of_nat (n - 48)) else None.

Fixpoint digits_value (acc : Z) (s : string) : option Z :=
  match s with
  | EmptyString => Some acc
  | String c s' =>
      match digit_of c with
      | Some d => digits_value (10 * acc + d) s'
      | None => None
      end
  end.

(** [int(tok)] for an optional sign followed by one or more digits. *)
Definition int_of_token (tok : string) : option Z :=
  match tok with
  | EmptyString => None
  | String "-"%char (String _ _ as ds) => Z.opp <$> digits_value 0 ds
  | String "+"%char (String _ _ as ds) => digits_value 0 ds
  | _ => digits_value 0 tok
  end.

(** Mantissa, number of fraction digits and number of digits of an
    unsigned decimal with at most one point. *)
Fixpoint decimal_parts (m : Z) (frac : option nat) (digits : nat)
    (s : string) : option (Z * nat * nat) :=
  match s with
  | EmptyString => Some (m, default 0%nat frac, digits)
  | String c s' =>
      if Ascii.eqb c "."%char then
        match frac with
        | None => decimal_parts m (Some 0%nat) digits s'
        | Some _ => None
        end
      else
        match digit_of c with
        | Some d => decimal_parts (10 * m + d) (S <$> frac) (S digits) s'
        | None => None
        end
  end.

Definition float_of_Z (m : Z) : float := PrimFloat.of_uint63 (Uint63.of_Z m).

(** [m / 10^k] is rounded once, hence correctly, when [m < 2^53] and
    [k <= 18]: both operands are then 63-bit integers that binary64
    represents exactly.  Other literals are not taken. *)
Definition unsigned_float_of_token (s : string) : option float :=
  match decimal_parts 0 None 0 s with
  | Some (m, k, digits) =>
      if ((0 <? digits)%nat && (m <? 2 ^ 53)%Z && (k <=? 18)%nat)%bool
      then Some (float_of_Z m / float_of_Z (10 ^ Z.of_nat k))%float
      else None
  | None => None
  end.

(** [float(tok)] for an optional sign followed by such a decimal. *)
Definition float_of_token (tok : string) : option float :=
  match tok with
  | String "-"%char ds => PrimFloat.opp <$> unsigned_float_of_token ds
  | String "+"%char ds => unsigned_float_of_token ds
  | _ => unsigned_float_of_token tok
  end.

(* ===================================================================== *)
(** * Vocabulary of the properties *)
(* ===================================================================== *)

(** The four blocks by name. *)
Inductive spin_block : Type := AA | BB | AB | BA.

Definition block_of (name : spin_block) (st : blocks) : tensor :=
  match name with
  | AA => two_body_coefficients_aa st
  | BB => two_body_coefficients_bb st
  | AB => two_body_coefficients_ab st
  | BA => two_body_coefficients_ba st
  end.

(** [j] is one of the four positions [fill4] writes for [c]. *)
Definition in_orbit (c j : idx4) : Prop :=
  j = c \/ j = swap_within c \/ j = swap_pairs c \/ j = swap_both c.

#[global] Instance in_orbit_dec (c j : idx4) : Decision (in_orbit c j).
Proof. unfold in_orbit. apply _. Defined.

(** A block that reads the same at the four related positions. *)
Definition symmetric (t : tensor) : Prop :=
  forall j, t (swap_within j) = t j /\ t (swap_pairs j) = t j.

(** A property of all four blocks. *)
Definition all_blocks (P : tensor -> Prop) (st : blocks) : Prop :=
  forall name, P (block_of name st).

(** The four blocks agree at every position. *)
Definition same_blocks (st : blocks) : Prop :=
  forall name j, block_of name st j = two_body_coefficients_aa st j.

(** Spin of a spin-orbital index: odd is alpha, even is beta. *)
Definition is_alpha (i : Z) : bool := (0 <? i)%Z && Z.odd i.
Definition is_beta (i : Z) : bool := (0 <? i)%Z && Z.even i.

(** The three key patterns other than alpha-alpha the expander tests. *)
Definition bb_doubled (k : Z * Z * Z * Z) : bool :=
  let '(a, b, c, d) := k in is_beta a && is_beta b && is_beta c && is_beta d.
Definition ab_doubled (k : Z * Z * Z * Z) : bool :=
  let '(a, b, c, d) := k in is_alpha a && is_beta b && is_beta c && is_alpha d.
Definition ba_doubled (k : Z * Z * Z * Z) : bool :=
  let '(a, b, c, d) := k in is_beta a && is_alpha b && is_alpha c && is_beta d.

(** A two-body map with no beta-beta, alpha-beta or beta-alpha key. *)
Definition restricted (two_body_integrals : gmap (Z * Z * Z * Z) scalar)
    : Prop :=
  map_Forall (fun k _ =>
    bb_doubled k = false /\ ab_doubled k = false /\ ba_doubled k = false)
    two_body_integrals.

(** A map all of whose values are Python floats. *)
Definition real_valued {K : Type} `{Countable K} (d : gmap K scalar) : Prop :=
  map_Forall (fun _ v => exists x, v = PyFloat x) d.

(** A spin-orbital index that [nmo] spatial orbitals can carry. *)
Definition fits (nmo : nat) (i : Z) : bool := (i <=? 2 * Z.of_nat nmo)%Z.
Definition fits2 (nmo : nat) (k : Z * Z) : bool :=
  fits nmo (fst k) && fits nmo (snd k).
Definition fits4 (nmo : nat) (k : Z * Z * Z * Z) : bool :=
  let '(a, b, c, d) := k in
  fits nmo a && fits nmo b && fits nmo c && fits nmo d.

(** The entries of a store that [nmo] spatial orbitals can carry. *)
Definition fitting_one_body (nmo : nat) (d : gmap (Z * Z) scalar)
    : gmap (Z * Z) scalar :=
  filter (fun kv => fits2 nmo (fst kv) = true) d.
Definition fitting_two_body (nmo : nat) (d : gmap (Z * Z * Z * Z) scalar)
    : gmap (Z * Z * Z * Z) scalar :=
  filter (fun kv => fits4 nmo (fst kv) = true) d.

(* ===================================================================== *)
(** * Sample records *)
(* ===================================================================== *)

(** A real record on two spatial orbitals in the restricted layout: all
    same-spin one-body pairs, alpha-alpha two-body keys only. *)
Definition h2_one_body : gmap (Z * Z) scalar :=
  list_to_map
    [ ((1, 1), PyFloat (-1.25));  ((1, 3), PyFloat 0);
      ((3, 1), PyFloat 0);        ((3, 3), PyFloat (-0.47));
      ((2, 2), PyFloat (-1.25));  ((2, 4), PyFloat 0);
      ((4, 2), PyFloat 0);        ((4, 4), PyFloat (-0.47)) ]%Z%float.

Definition h2_two_body : gmap (Z * Z * Z * Z) scalar :=
  list_to_map
    [ ((1, 1, 1, 1), PyFloat 0.675);
      ((1, 1, 3, 3), PyFloat 0.664);
      ((1, 3, 1, 3), PyFloat 0.181);
      ((3, 3, 3, 3), PyFloat 0.698);
      ((1, 3, 3, 3), PyFloat 1e-12) ]%Z%float.

(** A record with one one-body entry. *)
Definition lone_one_body : gmap (Z * Z) scalar :=
  {[ (1, 1)%Z := PyFloat (-1.25) ]}.

(** A complex record with one alpha-beta two-body entry. *)
Definition complex_two_body : gmap (Z * Z * Z * Z) scalar :=
  {[ (1, 2, 2, 1)%Z := PyComplex 0.1 0.2 ]}.

(** A record on one spatial orbital that also mentions spin orbital 3. *)
Definition oversized_one_body : gmap (Z * Z) scalar :=
  list_to_map
    [ ((1, 1), PyFloat (-1.25)); ((2, 2), PyFloat (-1.25));
      ((3, 3), PyFloat (-0.47)) ]%Z%float.

Definition oversized_two_body : gmap (Z * Z * Z * Z) scalar :=
  list_to_map
    [ ((1, 1, 1, 1), PyFloat 0.675); ((3, 3, 3, 3), PyFloat 0.698) ]%Z%float.

(** A record on one spatial orbital with entries below the tolerance. *)
Definition tiny_one_body : gmap (Z * Z) scalar :=
  list_to_map
    [ ((1, 1), PyFloat 5e-9); ((2, 2), PyFloat (-0.5)) ]%Z%float.

Definition tiny_two_body : gmap (Z * Z * Z * Z) scalar :=
  list_to_map
    [ ((1, 1, 1, 1), PyFloat (-3e-9)); ((2, 2, 2, 2), PyFloat 0.25) ]%Z%float.

(* ===================================================================== *)
(** * Sample files *)
(* ===================================================================== *)

(** A real file whose terminator sits in the middle of its line. *)
Definition sample_header : list string :=
  [ "&FCI NORB=2,NELEC=2,MS2=0," ].
Definition sample_terminator : string := " ORBSYM=1,1, &END ISYM=1".
Definition sample_rows : list string :=
  [ " 0.675  1 1 1 1";
    " -1.25  1 1 0 0";
    " -0.47  3 3 0 0";
    " -0.5   1 0 0 0";
    " 0.7    0 0 0 0" ].
Definition sample_file : list string :=
  (sample_header ++ sample_terminator :: sample_rows)%list.

(** A row with a zero first index and a non-zero second one. *)
Definition zero_first_index_file : list string :=
  [ "&END"; "1.5 0 5 0 0" ].

(** A real file whose second row has seven tokens. *)
Definition long_row_file : list string :=
  [ "&END"; "0.5 1 1 0 0"; "0.25 2 2 0 0 7 junk" ].

(** A real file whose second row has four tokens. *)
Definition short_row_file : list string :=
  [ "&END"; "0.5 1 1 0 0"; "0.25 2 2 0" ].

(** A file that ends with its terminator line. *)
Definition header_only_file : list string :=
  [ "&FCI NORB=2,NELEC=2,MS2=0,"; " ORBSYM=1,1, &END" ].

(* ===================================================================== *)
(** * Vocabulary of the further properties *)
(* ===================================================================== *)

(** A position inside an array of shape [(nmo, nmo, nmo, nmo)]. *)
Definition in_shape (nmo : nat) (c : idx4) : Prop :=
  let '(p, q, r, s) := c in p < nmo /\ q < nmo /\ r < nmo /\ s < nmo.

(** The quadruples the four nested loops visit, in the order they visit
    them. *)
Definition quadruples (nmo : nat) : list idx4 :=
  p ← range nmo; q ← range nmo; r ← range nmo; s ← range nmo;
  [(p, q, r, s)].

(** The key whose test writes to one block only. *)
Definition own_key (name : spin_block) (c : idx4) : Z * Z * Z * Z :=
  match name with
  | AA => aa_key c
  | BB => bb_key c
  | AB => ab_key c
  | BA => ba_key c
  end.

(** What a cell holds after [if key in d: cell = d[key]] on a float64
    cell, when the store goes through. *)
Definition term_or (o : option scalar) (old : float) : float :=
  match o with
  | Some (PyFloat x) => x
  | _ => old
  end.

(** The same for a cell [j] that the four stores for [c] may or may not
    reach. *)
Definition put (o : option scalar) (c j : idx4) (old : float) : float :=
  if decide (in_orbit c j) then term_or o old else old.

(** Every value a real, or every value a complex. *)
Definition of_kind (complex_int : bool) (v : scalar) : Prop :=
  match v with
  | PyFloat _ => complex_int = false
  | PyComplex _ _ => complex_int = true
  end.

(** The electron counts of [save]: [nelec = int(sum(nuc_charge)) -
    molecular_charge], [calcinfo_nbeta = nelec // 2], [calcinfo_nalpha =
    nelec - calcinfo_nbeta]; the argument [nuc_charge_sum] is
    [int(sum(nuc_charge))].  Returns [(calcinfo_nalpha, calcinfo_nbeta)]. *)
Definition electron_counts (nuc_charge_sum molecular_charge : Z) : Z * Z :=
  let nelec := (nuc_charge_sum - molecular_charge)%Z in
  let calcinfo_nbeta := (nelec / 2)%Z in
  let calcinfo_nalpha := (nelec - calcinfo_nbeta)%Z in
  (calcinfo_nalpha, calcinfo_nbeta).

(** What the record holds for an index quadruple, read from the part of
    the record that quadruples of this pattern are stored in. *)
Definition entry_of (st : integrals) (idx : Z * Z * Z * Z) : option scalar :=
  let '(a_1, a_2, a_3, a_4) := idx in
  if (a_4 =? 0)%Z && (a_3 =? 0)%Z then
    if (a_2 =? 0)%Z then
      if (a_1 =? 0)%Z then
        match e_core st with
        | PyScalar v => Some v
        | PyInt _ => None
        end
      else spinor st !! a_1
    else one_body_int st !! (a_1, a_2)
  else two_body_int st !! idx.

(** A two-body map with an alpha-alpha and a beta-beta entry for the same
    spatial quadruple. *)
Definition override_two_body : gmap (Z * Z * Z * Z) scalar :=
  list_to_map
    [ ((1, 1, 1, 1), PyFloat 0.675); ((2, 2, 2, 2), PyFloat 0.5) ]%Z%float.

(** A real file that writes the one-body entry [(1, 1)] twice. *)
Definition repeated_key_file : list string :=
  [ "&END"; "0.5 1 1 0 0"; "0.25 2 2 0 0"; "0.75 1 1 0 0" ].

(** A complex file on one spatial orbital. *)
Definition complex_file : list string :=
  [ "&END"; "0.5 0.0 1 1 0 0"; "0.5 0.0 2 2 0 0"; "0.1 0.2 1 2 2 1" ].

(* ===================================================================== *)
(** * DIRAC.get_integrals: the exporter run and the file *)
(* ===================================================================== *)

(** The exceptions of the method as a whole. *)
Inductive call_error : Type :=
| EnvironmentError                  (* Popen raised OSError *)
| CalculationFailed (errorcode : Z) (* the exporter's exit code *)
| OpenError                         (* FCIDUMP cannot be opened or read *)
| ReadingError (e : py_error).      (* raised while the rows are read *)

(** What the method meets outside the program: the code [proc.wait()]
    returns for the exporter, [None] when [subprocess.Popen] raises
    [OSError]; and the lines of the file [FCIDUMP], [None] when opening
    or reading it raises. *)
Record surroundings : Type := Surroundings {
  exporter : option Z;
  fcidump : option (list string)
}.

Section Exporter.

Variable py_int : string -> option Z.
Variable py_float : string -> option float.

(** [get_integrals] from its first line: the exporter is run, a failure
    to start it is raised as [EnvironmentError] and a non-zero exit code
    as [CalculationFailed]; then FCIDUMP is opened and read. *)
Definition DIRAC_get_integrals (env : surroundings)
    : call_error + integrals :=
  match exporter env with
  | None => inl EnvironmentError
  | Some errorcode =>
      if (errorcode =? 0)%Z then
        match fcidump env with
        | None => inl OpenError
        | Some file =>
            match get_integrals py_int py_float file with
            | Ok st => inr st
            | Raise e => inl (ReadingError e)
            end
        end
      else inl (CalculationFailed errorcode)
  end.

End Exporter.

(** The exporter exits with code 1 and leaves a readable file behind. *)
Definition failed_exporter : surroundings :=
  Surroundings (Some 1%Z) (Some sample_file).

(* ===================================================================== *)
(** * Calculator parameters *)
(* ===================================================================== *)

Set Warnings "-register-all".

(** What [self.parameters] holds: option strings and dicts of them, nested
    as the input file is.  A dict is the list of its items in insertion
    order. *)
Inductive pyval : Type :=
| VStr (s : string)
| VDict (items : list (string * pyval)).

(** [d.get(k)], [None] for an absent key. *)
Fixpoint d_get (k : string) (d : list (string * pyval)) : option pyval :=
  match d with
  | [] => None
  | (k', v) :: d' => if String.eqb k' k then Some v else d_get k d'
  end.

(** [k in d] on a dict. *)
Definition d_mem (k : string) (d : list (string * pyval)) : bool :=
  match d_get k d with Some _ => true | None => false end.

(** [d[k] = v]: the value replaced where the key sits, or the item added
    at the end. *)
Fixpoint d_set (k : string) (v : pyval) (d : list (string * pyval))
    : list (string * pyval) :=
  match d with
  | [] => [(k, v)]
  | (k', v') :: d' =>
      if String.eqb k' k then (k', v) :: d' else (k', v') :: d_set k v d'
  end.

(** [k in x]: a key of a dict, a substring of a string. *)
Definition in_value (k : string) (x : pyval) : bool :=
  match x with
  | VDict d => d_mem k d
  | VStr s => contains k s
  end.

(** The exceptions of the parameter handling. *)
Inductive param_error : Type :=
| InputError (key : string)   (* ase: keyword not recognised *)
| ParamKeyError               (* d[k] with k absent *)
| ParamTypeError              (* s[k] or s[k] = v on a string, int(dict) *)
| ParamAttributeError         (* s.update, s.keys on a string *)
| ParamIndexError             (* [][-1] *)
| ParamValueError.            (* int() of a malformed literal *)

Inductive outcome (A : Type) : Type :=
| Done (a : A)
| Abort (e : param_error).
Arguments Done {A} a.
Arguments Abort {A} e.

(** [recognized_key_sections]. *)
Definition recognized_key_sections : list string :=
  [ "dirac"; "general"; "molecule";
    "hamiltonian"; "wave_function"; "analyse"; "properties";
    "visual"; "integrals"; "grid"; "moltra" ].

Definition recognized (key : string) : bool :=
  existsb (String.eqb key) recognized_key_sections.

(** [if key not in self.parameters: self.parameters.update(key=value)]. *)
Definition set_default (key : string) (value : pyval)
    (parameters : list (string * pyval)) : list (string * pyval) :=
  if d_mem key parameters then parameters else d_set key value parameters.

Section CheckAttributes.

(** [_update_dict] of [dirac_io], which puts the DIRAC heading first in
    the dict; it is taken as given. *)
Variable _update_dict :
  list (string * pyval) -> string -> pyval -> list (string * pyval).

(** [if '*charge' not in self.parameters['molecule']:
       self.parameters['molecule']['*charge'] = {'.charge': '0'}]. *)
Definition default_charge (parameters : list (string * pyval))
    : outcome (list (string * pyval)) :=
  match d_get "molecule" parameters with
  | None => Abort ParamKeyError
  | Some molecule =>
      if in_value "*charge" molecule then Done parameters
      else
        match molecule with
        | VDict m =>
            Done (d_set "molecule"
                    (VDict (d_set "*charge" (VDict [(".charge", VStr "0")]) m))
                    parameters)
        | VStr _ => Abort ParamTypeError
        end
  end.

(** [if '.4index' not in self.parameters['dirac']:
       self.parameters['dirac'].update({'.4index': ''})]. *)
Definition default_4index (parameters : list (string * pyval))
    : outcome (list (string * pyval)) :=
  match d_get "dirac" parameters with
  | None => Abort ParamKeyError
  | Some dirac =>
      if in_value ".4index" dirac then Done parameters
      else
        match dirac with
        | VDict d =>
            Done (d_set "dirac" (VDict (d_set ".4index" (VStr "") d))
                    parameters)
        | VStr _ => Abort ParamAttributeError
        end
  end.

(** [if ('.4index' in self.parameters['dirac'] and
         'moltra' not in self.parameters):
       self.parameters.update(moltra={'.active': 'all'})]. *)
Definition default_moltra (parameters : list (string * pyval))
    : outcome (list (string * pyval)) :=
  match d_get "dirac" parameters with
  | None => Abort ParamKeyError
  | Some dirac =>
      if in_value ".4index" dirac && negb (d_mem "moltra" parameters)
      then Done (d_set "moltra" (VDict [(".active", VStr "all")]) parameters)
      else Done parameters
  end.

(** The five [if key not in self.parameters] blocks, in source order. *)
Definition fill_sections (parameters : list (string * pyval))
    : list (string * pyval) :=
  let p1 :=
    if d_mem "dirac" parameters then parameters
    else _update_dict parameters "dirac"
           (VDict [ (".title", VStr "DIRAC-ASE calculation");
                    (".wave function", VStr "") ]) in
  let p2 :=
    set_default "hamiltonian" (VDict [(".levy-leblond", VStr "")]) p1 in
  let p3 := set_default "wave_function" (VDict [(".scf", VStr "")]) p2 in
  let p4 :=
    set_default "molecule"
      (VDict [("*basis", VDict [(".default", VStr "sto-3g")])]) p3 in
  set_default "integrals" (VDict [(".nucmod", VStr "1")]) p4.

(** [check_dirac_attributes]: the new value of [self.parameters], or the
    exception raised. *)
Definition check_dirac_attributes (parameters : list (string * pyval))
    : outcome (list (string * pyval)) :=
  match find (fun key => negb (recognized key)) (map fst parameters) with
  | Some key => Abort (InputError key)
  | None =>
      match default_charge (fill_sections parameters) with
      | Abort e => Abort e
      | Done p6 =>
          match default_4index p6 with
          | Abort e => Abort e
          | Done p7 => default_moltra p7
          end
      end
  end.

End CheckAttributes.

(** The reading of [_update_dict] used for the closed examples: the new
    item in front. *)
Definition update_dict_front (d : list (string * pyval)) (key : string)
    (value : pyval) : list (string * pyval) :=
  (key, value) :: d.

(* ===================================================================== *)
(** * DIRAC.save: what it reads from the parameters *)
(* ===================================================================== *)

(** [x[k]] on a parameter value. *)
Definition v_getitem (x : pyval) (k : string) : outcome pyval :=
  match x with
  | VDict d =>
      match d_get k d with
      | Some v => Done v
      | None => Abort ParamKeyError
      end
  | VStr _ => Abort ParamTypeError
  end.







Section MolecularCharge.

Variable py_int : string -> option Z.

(** [int(self.parameters['molecule']['*charge']['.charge'])]. *)
Definition molecular_charge (parameters : list (string * pyval))
    : outcome Z :=
  match v_getitem (VDict parameters) "molecule" with
  | Abort e => Abort e
  | Done molecule =>
      match v_getitem molecule "*charge" with
      | Abort e => Abort e
      | Done charge =>
          match v_getitem charge ".charge" with
          | Abort e => Abort e
          | Done (VStr s) =>
              match py_int s with
              | Some z => Done z
              | None => Abort ParamValueError
              end
          | Done (VDict _) => Abort ParamTypeError
          end
      end
  end.

End MolecularCharge.

(** The section a key gets when the user gave none. *)
Definition section_default (key : string) : option pyval :=
  if String.eqb key "dirac" then
    Some (VDict [ (".title", VStr "DIRAC-ASE calculation");
                  (".wave function", VStr "") ])
  else if String.eqb key "hamiltonian" then
    Some (VDict [(".levy-leblond", VStr "")])
  else if String.eqb key "wave_function" then
    Some (VDict [(".scf", VStr "")])
  else if String.eqb key "molecule" then
    Some (VDict [("*basis", VDict [(".default", VStr "sto-3g")])])
  else if String.eqb key "integrals" then
    Some (VDict [(".nucmod", VStr "1")])
  else None.

(** A section with one option added unless it has it; a string is left
    alone. *)
Definition with_option (name : string) (value : pyval) (sec : pyval)
    : pyval :=
  match sec with
  | VDict d => if d_mem name d then sec else VDict (d_set name value d)
  | VStr _ => sec
  end.

(** What a key maps to after the check: what the user gave or else the
    default section, with [*charge] added to the molecule, [.4index] to
    the DIRAC heading, and [moltra] set if it was not. *)
Definition checked_get (parameters : list (string * pyval)) (key : string)
    : option pyval :=
  let base :=
    match d_get key parameters with
    | Some v => Some v
    | None => section_default key
    end in
  if String.eqb key "molecule" then
    with_option "*charge" (VDict [(".charge", VStr "0")]) <$> base
  else if String.eqb key "dirac" then
    with_option ".4index" (VStr "") <$> base
  else if String.eqb key "moltra" then
    match base with
    | Some v => Some v
    | None => Some (VDict [(".active", VStr "all")])
    end
  else base.

(** A section value that the two option tests get past: a dict, or a
    string with the option's name in it. *)
Definition accepts (name : string) (sec : option pyval) : Prop :=
  match sec with
  | Some (VStr s) => contains name s = true
  | _ => True
  end.

(** Parameters as a user may give them. *)
Definition user_parameters : list (string * pyval) :=
  [ ("molecule", VDict [("*charge", VDict [(".charge", VStr "1")])]);
    ("wave_function", VDict [(".scf", VStr ""); (".relccsd", VStr "")]) ].


(** A molecule section given as a string. *)
Definition string_molecule_parameters : list (string * pyval) :=
  [ ("molecule", VStr "H 0 0 0; H 0 0 0.74") ].


(* ===================================================================== *)
(** * Loops that may raise *)
(* ===================================================================== *)

Section ForEach.
Context {A S : Type}.
Implicit Types (xs : list A) (body : A -> S -> result S).

(** A property kept by every iteration holds after the loop. *)
Lemma for_each_inv (I : S -> Prop) xs body :
  (forall x s s', x ∈ xs -> I s -> body x s = Ok s' -> I s') ->
  forall s s', I s -> for_each xs body s = Ok s' -> I s'.
Proof.
  induction xs as [|x xs IH]; intros Hstep s s' Hs Hrun; simpl in Hrun.
  - congruence.
  - destruct (body x s) as [s1|e] eqn:Hx; [|discriminate].
    apply (IH (fun y t t' Hy =>
                 Hstep y t t' (list_elem_of_further _ _ _ Hy)) s1);
      [|assumption].
    eapply Hstep; eauto. left.
Qed.

(** A property set up by the iteration at [x] and kept by all iterations
    holds after the loop, when [x] is visited. *)
Lemma for_each_establish (P : S -> Prop) xs body x :
  x ∈ xs ->
  (forall s s', body x s = Ok s' -> P s') ->
  (forall y s s', y ∈ xs -> P s -> body y s = Ok s' -> P s') ->
  forall s s', for_each xs body s = Ok s' -> P s'.
Proof.
  induction xs as [|y xs IH]; intros Hin Hset Hkeep s s' Hrun.
  - inversion Hin.
  - simpl in Hrun. destruct (body y s) as [s1|e] eqn:Hy; [|discriminate].
    assert (Hkeep' : forall z t t', z ∈ xs -> P t -> body z t = Ok t' -> P t')
      by (intros z t t' Hz; apply Hkeep; now right).
    apply elem_of_cons in Hin as [->|Hin].
    + eapply (for_each_inv P xs body Hkeep' s1); eauto.
    + eapply IH; eauto.
Qed.

(** Two bodies that agree at every visited element run alike. *)
Lemma for_each_ext xs body body' :
  (forall x s, x ∈ xs -> body x s = body' x s) ->
  forall s, for_each xs body s = for_each xs body' s.
Proof.
  induction xs as [|x xs IH]; intros Heq s; simpl; [reflexivity|].
  rewrite <- (Heq x s) by left.
  destruct (body x s); [|reflexivity].
  apply IH. intros y t Hy. apply Heq. now right.
Qed.

(** A loop whose iterations never raise does not raise. *)
Lemma for_each_total (I : S -> Prop) xs body :
  (forall x s, x ∈ xs -> I s -> exists s', body x s = Ok s' /\ I s') ->
  forall s, I s -> exists s', for_each xs body s = Ok s' /\ I s'.
Proof.
  induction xs as [|x xs IH]; intros Hstep s Hs; simpl.
  - eauto.
  - destruct (Hstep x s) as (s1 & -> & Hs1); [left|assumption|].
    apply IH; [|assumption].
    intros y t Hy. apply Hstep. now right.
Qed.

(** An iteration that raises from every state makes the loop raise. *)
Lemma for_each_raises xs body x :
  x ∈ xs ->
  (forall s, is_ok (body x s) = false) ->
  forall s, is_ok (for_each xs body s) = false.
Proof.
  induction xs as [|y xs IH]; intros Hin Hbad s.
  - inversion Hin.
  - simpl. apply elem_of_cons in Hin as [->|Hin].
    + specialize (Hbad s). destruct (body y s); [discriminate|reflexivity].
    + destruct (body y s); [|reflexivity]. now apply IH.
Qed.

End ForEach.

Lemma elem_of_range (n i : nat) : i ∈ range n <-> i < n.
Proof. unfold range. rewrite list_elem_of_In, in_seq. lia. Qed.

(* ===================================================================== *)
(** * The error monad *)
(* ===================================================================== *)

Lemma bind_Ok {A B : Type} (m : result A) (k : A -> result B) (b : B) :
  bind m k = Ok b -> exists a, m = Ok a /\ k a = Ok b.
Proof. destruct m as [a|e]; simpl; [eauto|discriminate]. Qed.

Lemma if_in_Ok {K V S : Type} `{Countable K} (d : gmap K V) (k : K)
    (f : V -> S -> result S) (s s' : S) :
  if_in d k f s = Ok s' ->
  (d !! k = None /\ s' = s) \/ (exists v, d !! k = Some v /\ f v s = Ok s').
Proof.
  unfold if_in. destruct (d !! k) as [v|]; [eauto|].
  intros [= <-]. now left.
Qed.

(** Take apart the hypotheses that say a sequence of steps returned. *)
Ltac inv_ok :=
  repeat match goal with
  | H : bind _ _ = Ok _ |- _ =>
      let a := fresh "a" in
      let Ha := fresh "Ha" in
      apply bind_Ok in H as (a & Ha & H)
  | H : Ok _ = Ok _ |- _ => injection H as H; try subst
  | H : Raise _ = Ok _ |- _ => discriminate H
  end.

(* ===================================================================== *)
(** * Permutation orbits *)
(* ===================================================================== *)

(** The two swaps are involutions and their composite is the third
    position. *)
Lemma swap_within_involutive c : swap_within (swap_within c) = c.
Proof. now destruct c as [[[p q] r] s]. Qed.

Lemma swap_pairs_involutive c : swap_pairs (swap_pairs c) = c.
Proof. now destruct c as [[[p q] r] s]. Qed.

Lemma swap_both_within_pairs c : swap_both c = swap_within (swap_pairs c).
Proof. now destruct c as [[[p q] r] s]. Qed.

(** The orbit written for [c] is closed under the two generators. *)
Lemma in_orbit_swap_within c j : in_orbit c (swap_within j) <-> in_orbit c j.
Proof.
  destruct c as [[[p q] r] s], j as [[[p' q'] r'] s'].
  unfold in_orbit; simpl. split; intros [H|[H|[H|H]]];
    injection H as -> -> -> ->; auto.
Qed.

Lemma in_orbit_swap_pairs c j : in_orbit c (swap_pairs j) <-> in_orbit c j.
Proof.
  destruct c as [[[p q] r] s], j as [[[p' q'] r'] s'].
  unfold in_orbit; simpl. split; intros [H|[H|[H|H]]];
    injection H as -> -> -> ->; auto.
Qed.

(* ===================================================================== *)
(** * One term into one block *)
(* ===================================================================== *)

(** A real term is stored at the four positions of its orbit, and nowhere
    else. *)
Lemma fill4_real (t : tensor) (c : idx4) (x : float) :
  exists t', fill4 t c (PyFloat x) = Ok t' /\
    forall j, t' j = if decide (in_orbit c j) then x else t j.
Proof.
  eexists. split; [reflexivity|].
  intros j. unfold in_orbit. simpl.
  repeat case_decide; try reflexivity; exfalso; tauto.
Qed.

(** A complex term is refused by the first store. *)
Lemma fill4_complex (t : tensor) (c : idx4) (re im : float) :
  fill4 t c (PyComplex re im) = Raise TypeError.
Proof. reflexivity. Qed.

Lemma fill4_Ok (t t' : tensor) (c : idx4) (v : scalar) :
  fill4 t c v = Ok t' ->
  exists x, v = PyFloat x /\
    forall j, t' j = if decide (in_orbit c j) then x else t j.
Proof.
  destruct v as [x|re im]; [|rewrite fill4_complex; discriminate].
  destruct (fill4_real t c x) as (t1 & -> & Ht1).
  intros [= <-]. eauto.
Qed.

Lemma fill4_symmetric (t t' : tensor) (c : idx4) (v : scalar) :
  symmetric t -> fill4 t c v = Ok t' -> symmetric t'.
Proof.
  intros Hsym Hfill. apply fill4_Ok in Hfill as (x & _ & Ht').
  intros j. rewrite !Ht'. destruct (Hsym j) as [Hw Hp].
  split.
  - destruct (decide (in_orbit c j)) as [Hj|Hj];
      rewrite decide_bool_decide;
      [rewrite bool_decide_eq_true_2 | rewrite bool_decide_eq_false_2];
      auto; now rewrite in_orbit_swap_within.
  - destruct (decide (in_orbit c j)) as [Hj|Hj];
      rewrite decide_bool_decide;
      [rewrite bool_decide_eq_true_2 | rewrite bool_decide_eq_false_2];
      auto; now rewrite in_orbit_swap_pairs.
Qed.

(* ===================================================================== *)
(** * The two-body loop nest *)
(* ===================================================================== *)

Lemma fill_all_Ok c v st st' :
  fill_all c v st = Ok st' ->
  exists aa' bb' ab' ba',
    fill4 (two_body_coefficients_aa st) c v = Ok aa' /\
    fill4 (two_body_coefficients_bb st) c v = Ok bb' /\
    fill4 (two_body_coefficients_ab st) c v = Ok ab' /\
    fill4 (two_body_coefficients_ba st) c v = Ok ba' /\
    st' = Blocks aa' bb' ab' ba'.
Proof.
  unfold fill_all.
  destruct (fill4 (two_body_coefficients_aa st) c v) as [aa'|]; [|discriminate].
  destruct (fill4 (two_body_coefficients_ba st) c v) as [ba'|]; [|discriminate].
  destruct (fill4 (two_body_coefficients_ab st) c v) as [ab'|]; [|discriminate].
  destruct (fill4 (two_body_coefficients_bb st) c v) as [bb'|]; [|discriminate].
  simpl. intros [= <-]. eauto 10.
Qed.

Lemma fill_bb_Ok c v st st' :
  fill_bb c v st = Ok st' ->
  exists bb',
    fill4 (two_body_coefficients_bb st) c v = Ok bb' /\
    st' = Blocks (two_body_coefficients_aa st) bb'
                 (two_body_coefficients_ab st) (two_body_coefficients_ba st).
Proof.
  unfold fill_bb.
  destruct (fill4 (two_body_coefficients_bb st) c v) as [bb'|]; [|discriminate].
  simpl. intros [= <-]. eauto.
Qed.

Lemma fill_ab_Ok c v st st' :
  fill_ab c v st = Ok st' ->
  exists ab',
    fill4 (two_body_coefficients_ab st) c v = Ok ab' /\
    st' = Blocks (two_body_coefficients_aa st) (two_body_coefficients_bb st)
                 ab' (two_body_coefficients_ba st).
Proof.
  unfold fill_ab.
  destruct (fill4 (two_body_coefficients_ab st) c v) as [ab'|]; [|discriminate].
  simpl. intros [= <-]. eauto.
Qed.

Lemma fill_ba_Ok c v st st' :
  fill_ba c v st = Ok st' ->
  exists ba',
    fill4 (two_body_coefficients_ba st) c v = Ok ba' /\
    st' = Blocks (two_body_coefficients_aa st) (two_body_coefficients_bb st)
                 (two_body_coefficients_ab st) ba'.
Proof.
  unfold fill_ba.
  destruct (fill4 (two_body_coefficients_ba st) c v) as [ba'|]; [|discriminate].
  simpl. intros [= <-]. eauto.
Qed.

(** Whatever the four stores keep in one block, the loop body keeps in all
    four. *)
Lemma two_body_step_all_blocks (P : tensor -> Prop) :
  (forall t t' c v, P t -> fill4 t c v = Ok t' -> P t') ->
  forall tb c st st',
    all_blocks P st -> two_body_step tb c st = Ok st' -> all_blocks P st'.
Proof.
  intros Hfill tb c st st' Hst Hstep. unfold two_body_step in Hstep.
  inv_ok.
  assert (Hall : forall f : idx4 -> scalar -> blocks -> result blocks,
    (forall v s s', all_blocks P s -> f c v s = Ok s' -> all_blocks P s') ->
    forall k s s', all_blocks P s -> if_in tb k (f c) s = Ok s' ->
      all_blocks P s').
  { intros f Hf k s s' Hs Hin.
    apply if_in_Ok in Hin as [[_ ->]|(v & _ & Hv)]; eauto. }
  eapply (Hall fill_ba); [|eapply (Hall fill_ab); [|eapply (Hall fill_bb);
    [|eapply (Hall fill_all); [|exact Hst|exact Ha]|exact Ha0]|exact Ha1]
    |exact Hstep].
  - intros v s s' Hs H. apply fill_ba_Ok in H as (t' & Ht' & ->).
    intros [| | |]; simpl;
      [apply (Hs AA)|apply (Hs BB)|apply (Hs AB)|].
    apply (Hfill _ _ _ _ (Hs BA) Ht').
  - intros v s s' Hs H. apply fill_ab_Ok in H as (t' & Ht' & ->).
    intros [| | |]; simpl;
      [apply (Hs AA)|apply (Hs BB)| |apply (Hs BA)].
    apply (Hfill _ _ _ _ (Hs AB) Ht').
  - intros v s s' Hs H. apply fill_bb_Ok in H as (t' & Ht' & ->).
    intros [| | |]; simpl;
      [apply (Hs AA)| |apply (Hs AB)|apply (Hs BA)].
    apply (Hfill _ _ _ _ (Hs BB) Ht').
  - intros v s s' Hs H.
    apply fill_all_Ok in H as (t1 & t2 & t3 & t4 & H1 & H2 & H3 & H4 & ->).
    intros [| | |]; simpl.
    + apply (Hfill _ _ _ _ (Hs AA) H1).
    + apply (Hfill _ _ _ _ (Hs BB) H2).
    + apply (Hfill _ _ _ _ (Hs AB) H3).
    + apply (Hfill _ _ _ _ (Hs BA) H4).
Qed.

(** A property of the state kept by the loop body holds of the expanded
    blocks when it holds of the zero blocks. *)
Lemma expand_two_body_inv (I : blocks -> Prop) (nmo : nat) tb :
  (forall c st st', I st -> two_body_step tb c st = Ok st' -> I st') ->
  I (Blocks np_zeros np_zeros np_zeros np_zeros) ->
  forall st, expand_two_body nmo tb = Ok st -> I st.
Proof.
  intros Hstep H0 st Hrun. unfold expand_two_body in Hrun.
  revert Hrun. apply for_each_inv; [|exact H0].
  intros p s1 s1' _ Hs1. apply for_each_inv; [|exact Hs1].
  intros q s2 s2' _ Hs2. apply for_each_inv; [|exact Hs2].
  intros r s3 s3' _ Hs3. apply for_each_inv; [|exact Hs3].
  intros s s4 s4' _ Hs4. apply Hstep. exact Hs4.
Qed.

Lemma np_zeros_symmetric : symmetric np_zeros.
Proof. intros j. split; reflexivity. Qed.

Lemma truncate_symmetric (t : tensor) : symmetric t -> symmetric (truncate t).
Proof.
  intros Hsym j. unfold truncate. destruct (Hsym j) as [-> ->]. now split.
Qed.

Lemma expand_two_body_symmetric (nmo : nat) tb st :
  expand_two_body nmo tb = Ok st -> all_blocks symmetric st.
Proof.
  apply (expand_two_body_inv (all_blocks symmetric)).
  - intros c s s'. apply two_body_step_all_blocks.
    intros t t' c' v. apply fill4_symmetric.
  - intros [| | |]; apply np_zeros_symmetric.
Qed.

Lemma block_of_truncate_blocks name st j :
  block_of name (truncate_blocks st) j = truncate_cell (block_of name st j).
Proof. now destruct name. Qed.

Lemma save_wavefunction_Ok nmo ob tb w :
  save_wavefunction nmo ob tb = Ok w ->
  exists a b st,
    expand_one_body nmo ob = Ok (a, b) /\
    expand_two_body nmo tb = Ok st /\
    w = Dense (truncate a) (truncate b) (truncate_blocks st).
Proof.
  unfold save_wavefunction. intros H. inv_ok.
  destruct a as [a b]. eauto 6.
Qed.

(* ===================================================================== *)
(** * Real records are expanded *)
(* ===================================================================== *)

Lemma fill_all_real c x st : exists st', fill_all c (PyFloat x) st = Ok st'.
Proof.
  unfold fill_all.
  destruct (fill4_real (two_body_coefficients_aa st) c x) as (t1 & -> & _).
  destruct (fill4_real (two_body_coefficients_ba st) c x) as (t2 & -> & _).
  destruct (fill4_real (two_body_coefficients_ab st) c x) as (t3 & -> & _).
  destruct (fill4_real (two_body_coefficients_bb st) c x) as (t4 & -> & _).
  simpl. eauto.
Qed.

Lemma fill_bb_real c x st : exists st', fill_bb c (PyFloat x) st = Ok st'.
Proof.
  unfold fill_bb.
  destruct (fill4_real (two_body_coefficients_bb st) c x) as (t & -> & _).
  simpl. eauto.
Qed.

Lemma fill_ab_real c x st : exists st', fill_ab c (PyFloat x) st = Ok st'.
Proof.
  unfold fill_ab.
  destruct (fill4_real (two_body_coefficients_ab st) c x) as (t & -> & _).
  simpl. eauto.
Qed.

Lemma fill_ba_real c x st : exists st', fill_ba c (PyFloat x) st = Ok st'.
Proof.
  unfold fill_ba.
  destruct (fill4_real (two_body_coefficients_ba st) c x) as (t & -> & _).
  simpl. eauto.
Qed.

Lemma if_in_real (tb : gmap (Z * Z * Z * Z) scalar) k
    (f : scalar -> blocks -> result blocks) st :
  real_valued tb ->
  (forall x s, exists s', f (PyFloat x) s = Ok s') ->
  exists st', if_in tb k f st = Ok st'.
Proof.
  intros Hreal Hf. unfold if_in.
  destruct (tb !! k) as [v|] eqn:E; [|eauto].
  destruct (Hreal k v E) as [x ->]. apply Hf.
Qed.

Lemma two_body_step_real tb c st :
  real_valued tb -> exists st', two_body_step tb c st = Ok st'.
Proof.
  intros Hreal. unfold two_body_step.
  destruct (if_in_real tb (aa_key c) (fill_all c) st Hreal (fill_all_real c))
    as [s1 ->].
  destruct (if_in_real tb (bb_key c) (fill_bb c) s1 Hreal (fill_bb_real c))
    as [s2 E2].
  destruct (if_in_real tb (ab_key c) (fill_ab c) s2 Hreal (fill_ab_real c))
    as [s3 E3].
  destruct (if_in_real tb (ba_key c) (fill_ba c) s3 Hreal (fill_ba_real c))
    as [s4 E4].
  exists s4. simpl. rewrite E2. simpl. rewrite E3. simpl. exact E4.
Qed.

(** The two-body loops run to their end on every real-valued map. *)
Lemma expand_two_body_real nmo tb :
  real_valued tb -> exists st, expand_two_body nmo tb = Ok st.
Proof.
  intros Hreal. unfold expand_two_body.
  assert (Hloop : forall (A : Type) (xs : list A)
            (body : A -> blocks -> result blocks),
            (forall x s, exists s', body x s = Ok s') ->
            forall s, exists s', for_each xs body s = Ok s').
  { intros A xs body Hbody s.
    destruct (for_each_total (fun _ => True) xs body) with (s := s)
      as (s' & Hs' & _); [|exact I|eauto].
    intros x t _ _. destruct (Hbody x t) as [t' Ht']. eauto. }
  apply Hloop. intros p s1. apply Hloop. intros q s2.
  apply Hloop. intros r s3. apply Hloop. intros s s4.
  now apply two_body_step_real.
Qed.

(* ===================================================================== *)
(** * The one-body loop nest *)
(* ===================================================================== *)

(** One iteration returns when both keys are there with real values, and
    then stores the two values at [(p, q)]. *)
Lemma one_body_step_Ok ob p q st st' :
  one_body_step ob p q st = Ok st' ->
  exists x y,
    ob !! (alpha p, alpha q) = Some (PyFloat x) /\
    ob !! (beta p, beta q) = Some (PyFloat y) /\
    (forall j, fst st' j = if decide (j = (p, q)) then x else fst st j) /\
    (forall j, snd st' j = if decide (j = (p, q)) then y else snd st j).
Proof.
  unfold one_body_step, dict_getitem.
  destruct (ob !! (alpha p, alpha q)) as [[x|re im]|]; simpl;
    try discriminate.
  destruct (ob !! (beta p, beta q)) as [[y|re im]|]; simpl;
    try discriminate.
  intros [= <-]. exists x, y. simpl. auto.
Qed.

(** When the one-body loops return, every cell in range holds the value
    found at its doubled key. *)
Lemma expand_one_body_cells nmo ob a b :
  expand_one_body nmo ob = Ok (a, b) ->
  forall p q, p < nmo -> q < nmo ->
    ob !! (alpha p, alpha q) = Some (PyFloat (a (p, q))) /\
    ob !! (beta p, beta q) = Some (PyFloat (b (p, q))).
Proof.
  intros Hrun p q Hp Hq.
  set (P := fun st : matrix * matrix =>
    ob !! (alpha p, alpha q) = Some (PyFloat (fst st (p, q))) /\
    ob !! (beta p, beta q) = Some (PyFloat (snd st (p, q)))).
  change (P (a, b)).
  assert (Hkeep : forall p' q' st st',
            P st -> one_body_step ob p' q' st = Ok st' -> P st').
  { intros p' q' st st' [Ha Hb] Hstep.
    apply one_body_step_Ok in Hstep as (x & y & Hx & Hy & Hfst & Hsnd).
    unfold P. rewrite Hfst, Hsnd.
    destruct (decide ((p, q) = (p', q'))) as [[= <- <-]|Hne].
    - rewrite !decide_True by reflexivity. auto.
    - rewrite !decide_False by exact Hne. auto. }
  assert (Hset : forall st st', one_body_step ob p q st = Ok st' -> P st').
  { intros st st' Hstep.
    apply one_body_step_Ok in Hstep as (x & y & Hx & Hy & Hfst & Hsnd).
    unfold P. rewrite Hfst, Hsnd. rewrite !decide_True by reflexivity. auto. }
  revert Hrun. unfold expand_one_body.
  apply (for_each_establish P (range nmo) _ p).
  - now apply elem_of_range.
  - intros st st'.
    apply (for_each_establish P (range nmo) _ q); eauto.
    now apply elem_of_range.
  - intros p' st st' _ Hst. apply for_each_inv; eauto.
Qed.

(** An absent key in range makes the one-body loops raise. *)
Lemma expand_one_body_absent nmo ob p q :
  p < nmo -> q < nmo ->
  ob !! (alpha p, alpha q) = None \/ ob !! (beta p, beta q) = None ->
  is_ok (expand_one_body nmo ob) = false.
Proof.
  intros Hp Hq Hnone.
  destruct (expand_one_body nmo ob) as [[a b]|e] eqn:E; [|reflexivity].
  destruct (expand_one_body_cells nmo ob a b E p q Hp Hq) as [Ha Hb].
  destruct Hnone; congruence.
Qed.

(* ===================================================================== *)
(** * The sample record expanded *)
(* ===================================================================== *)

(** The arrays written out for the sample record, flattened as [save]
    flattens them.  The entry [(1,3,3,3) = 1e-12] and its three images are
    truncated to zero; [(1,3,1,3)] fills [(0,1,0,1)] and [(1,0,1,0)]. *)
Example h2_wavefunction :
  match save_wavefunction 2 h2_one_body h2_two_body with
  | Ok w =>
      flatten2 2 (one_body_coefficients_a w) = [-1.25; 0; 0; -0.47]%float /\
      flatten2 2 (one_body_coefficients_b w) = [-1.25; 0; 0; -0.47]%float /\
      flatten4 2 (two_body_coefficients_ab (two_body w))
      = [ 0.675; 0; 0; 0.664;   0; 0.181; 0; 0;
          0; 0; 0.181; 0;       0.664; 0; 0; 0.698 ]%float
  | Raise _ => False
  end.
Proof. vm_compute. repeat split; reflexivity. Qed.

(* ===================================================================== *)
(** * Symmetry of the expanded blocks *)
(* ===================================================================== *)

(** C4. After the two-body expansion and the truncation, every block
    reads the same at [(p,q,r,s)] and [(q,p,s,r)], and its value at
    [(p,q,r,s)] is the conjugate of its values at [(r,s,p,q)] and
    [(s,r,q,p)].  This holds at every cell, written or not; the blocks are
    float64 arrays, whose elements [np.conj] leaves as they are, and cells
    are compared as stored values. *)
Theorem two_body_symmetry nmo ob tb w :
  save_wavefunction nmo ob tb = Ok w ->
  forall (name : spin_block) (p q r s : nat),
    block_of name (two_body w) (p, q, r, s)
      = block_of name (two_body w) (q, p, s, r) /\
    PyFloat (block_of name (two_body w) (p, q, r, s))
      = np_conj (PyFloat (block_of name (two_body w) (r, s, p, q))) /\
    PyFloat (block_of name (two_body w) (p, q, r, s))
      = np_conj (PyFloat (block_of name (two_body w) (s, r, q, p))).
Proof.
  intros Hsave name p q r s.
  apply save_wavefunction_Ok in Hsave as (a & b & st & _ & Hst & ->).
  apply expand_two_body_symmetric in Hst. simpl.
  assert (Hsym : symmetric (block_of name (truncate_blocks st))).
  { pose proof (Hst name) as Hname.
    destruct name; apply truncate_symmetric; exact Hname. }
  destruct (Hsym (p, q, r, s)) as [Hw Hp]. simpl in Hw, Hp.
  destruct (Hsym (r, s, p, q)) as [Hb _]. simpl in Hb.
  split; [|split]; congruence.
Qed.

(** The symmetry at the sample record, which is expanded. *)
Lemma two_body_symmetry_witness :
  match save_wavefunction 2 h2_one_body h2_two_body with
  | Ok w =>
      forall (name : spin_block) (p q r s : nat),
        block_of name (two_body w) (p, q, r, s)
          = block_of name (two_body w) (q, p, s, r) /\
        PyFloat (block_of name (two_body w) (p, q, r, s))
          = np_conj (PyFloat (block_of name (two_body w) (r, s, p, q))) /\
        PyFloat (block_of name (two_body w) (p, q, r, s))
          = np_conj (PyFloat (block_of name (two_body w) (s, r, q, p)))
  | Raise _ => False
  end.
Proof.
  destruct (save_wavefunction 2 h2_one_body h2_two_body) as [w|e] eqn:E;
    [|vm_compute in E; discriminate E].
  exact (two_body_symmetry 2 h2_one_body h2_two_body w E).
Defined.

(* ===================================================================== *)
(** * Restricted records *)
(* ===================================================================== *)

Lemma is_alpha_alpha p : is_alpha (alpha p) = true.
Proof.
  unfold is_alpha, alpha. apply andb_true_intro. split.
  - apply Z.ltb_lt. lia.
  - rewrite Z.add_comm, Z.odd_add_mul_2. reflexivity.
Qed.

Lemma is_beta_beta p : is_beta (beta p) = true.
Proof.
  unfold is_beta, beta. apply andb_true_intro. split.
  - apply Z.ltb_lt. lia.
  - replace (2 * Z.of_nat p + 2)%Z with (0 + 2 * (Z.of_nat p + 1))%Z by lia.
    rewrite Z.even_add_mul_2. reflexivity.
Qed.

(** Odd positive indices are the alpha doublings, even positive ones the
    beta doublings. *)
Lemma is_alpha_iff i : is_alpha i = true <-> exists p, alpha p = i.
Proof.
  split.
  - unfold is_alpha, alpha. intros H. apply andb_prop in H as [Hpos Hodd].
    apply Z.ltb_lt in Hpos. apply Z.odd_spec in Hodd as [m ->].
    exists (Z.to_nat m). lia.
  - intros [p <-]. apply is_alpha_alpha.
Qed.

Lemma is_beta_iff i : is_beta i = true <-> exists p, beta p = i.
Proof.
  split.
  - unfold is_beta, beta. intros H. apply andb_prop in H as [Hpos Heven].
    apply Z.ltb_lt in Hpos. apply Z.even_spec in Heven as [m ->].
    exists (Z.to_nat (m - 1)). lia.
  - intros [p <-]. apply is_beta_beta.
Qed.

(** The three patterns are the keys the three tests look up. *)
Lemma bb_doubled_iff k : bb_doubled k = true <-> exists c, bb_key c = k.
Proof.
  destruct k as [[[a b] c] d]. unfold bb_doubled.
  rewrite !andb_true_iff, !is_beta_iff. split.
  - intros ((([p <-] & [q <-]) & [r <-]) & [s <-]). now exists (p, q, r, s).
  - intros ([[[p q] r] s] & [= <- <- <- <-]). eauto 10.
Qed.

Lemma ab_doubled_iff k : ab_doubled k = true <-> exists c, ab_key c = k.
Proof.
  destruct k as [[[a b] c] d]. unfold ab_doubled.
  rewrite !andb_true_iff, !is_beta_iff, !is_alpha_iff. split.
  - intros ((([p <-] & [q <-]) & [r <-]) & [s <-]). now exists (p, q, r, s).
  - intros ([[[p q] r] s] & [= <- <- <- <-]). eauto 10.
Qed.

Lemma ba_doubled_iff k : ba_doubled k = true <-> exists c, ba_key c = k.
Proof.
  destruct k as [[[a b] c] d]. unfold ba_doubled.
  rewrite !andb_true_iff, !is_beta_iff, !is_alpha_iff. split.
  - intros ((([p <-] & [q <-]) & [r <-]) & [s <-]). now exists (p, q, r, s).
  - intros ([[[p q] r] s] & [= <- <- <- <-]). eauto 10.
Qed.

Lemma restricted_lookups tb c :
  restricted tb ->
  tb !! bb_key c = None /\ tb !! ab_key c = None /\ tb !! ba_key c = None.
Proof.
  intros Hr. destruct c as [[[p q] r] s].
  repeat split.
  - destruct (tb !! bb_key (p, q, r, s)) as [v|] eqn:E; [|reflexivity].
    apply Hr in E as (E & _ & _). simpl in E.
    rewrite !is_beta_beta in E. discriminate.
  - destruct (tb !! ab_key (p, q, r, s)) as [v|] eqn:E; [|reflexivity].
    apply Hr in E as (_ & E & _). simpl in E.
    rewrite !is_beta_beta, !is_alpha_alpha in E. discriminate.
  - destruct (tb !! ba_key (p, q, r, s)) as [v|] eqn:E; [|reflexivity].
    apply Hr in E as (_ & _ & E). simpl in E.
    rewrite !is_beta_beta, !is_alpha_alpha in E. discriminate.
Qed.

(** On a restricted record only the alpha-alpha test can fire. *)
Lemma two_body_step_restricted tb c st :
  restricted tb ->
  two_body_step tb c st = if_in tb (aa_key c) (fill_all c) st.
Proof.
  intros Hr. destruct (restricted_lookups tb c Hr) as (Hbb & Hab & Hba).
  unfold two_body_step.
  destruct (if_in tb (aa_key c) (fill_all c) st) as [s1|e]; [|reflexivity].
  simpl. unfold if_in. rewrite Hbb. simpl. rewrite Hab. simpl.
  rewrite Hba. reflexivity.
Qed.

Lemma fill_all_same_blocks c v st st' :
  same_blocks st -> fill_all c v st = Ok st' -> same_blocks st'.
Proof.
  intros Hst H.
  apply fill_all_Ok in H as (t1 & t2 & t3 & t4 & H1 & H2 & H3 & H4 & ->).
  apply fill4_Ok in H1 as (x1 & -> & E1).
  apply fill4_Ok in H2 as (x2 & [= <-] & E2).
  apply fill4_Ok in H3 as (x3 & [= <-] & E3).
  apply fill4_Ok in H4 as (x4 & [= <-] & E4).
  intros name j. simpl.
  pose proof (Hst BB j) as Hbb. pose proof (Hst AB j) as Hab.
  pose proof (Hst BA j) as Hba. simpl in Hbb, Hab, Hba.
  destruct name; simpl; rewrite ?E1, ?E2, ?E3, ?E4;
    destruct (decide (in_orbit c j)); congruence.
Qed.

Lemma expand_two_body_same_blocks nmo tb st :
  restricted tb -> expand_two_body nmo tb = Ok st -> same_blocks st.
Proof.
  intros Hr. apply (expand_two_body_inv same_blocks).
  - intros c s s' Hs. rewrite (two_body_step_restricted _ _ _ Hr).
    intros H. apply if_in_Ok in H as [[_ ->]|(v & _ & Hv)]; [exact Hs|].
    eapply fill_all_same_blocks; eauto.
  - intros name j. now destruct name.
Qed.

(** C5. When the two-body map has no beta-beta, alpha-beta or beta-alpha
    doubled key, the four blocks the expansion returns are equal element
    by element. *)
Theorem restricted_blocks_identical nmo ob tb w :
  restricted tb ->
  save_wavefunction nmo ob tb = Ok w ->
  forall (c : idx4),
    two_body_coefficients_bb (two_body w) c
      = two_body_coefficients_aa (two_body w) c /\
    two_body_coefficients_ab (two_body w) c
      = two_body_coefficients_aa (two_body w) c /\
    two_body_coefficients_ba (two_body w) c
      = two_body_coefficients_aa (two_body w) c.
Proof.
  intros Hr Hsave c.
  apply save_wavefunction_Ok in Hsave as (a & b & st & _ & Hst & ->).
  apply (expand_two_body_same_blocks _ _ _ Hr) in Hst. simpl.
  unfold truncate.
  pose proof (Hst BB c) as Hbb. pose proof (Hst AB c) as Hab.
  pose proof (Hst BA c) as Hba. simpl in Hbb, Hab, Hba.
  now rewrite Hbb, Hab, Hba.
Qed.

Lemma h2_two_body_restricted : restricted h2_two_body.
Proof.
  unfold restricted. apply (bool_decide_unpack (map_Forall _ _)).
  vm_compute. exact I.
Defined.

(** The sample record is restricted, is expanded, and its four blocks
    agree. *)
Lemma restricted_blocks_identical_witness :
  restricted h2_two_body /\
  match save_wavefunction 2 h2_one_body h2_two_body with
  | Ok w =>
      forall (c : idx4),
        two_body_coefficients_bb (two_body w) c
          = two_body_coefficients_aa (two_body w) c /\
        two_body_coefficients_ab (two_body w) c
          = two_body_coefficients_aa (two_body w) c /\
        two_body_coefficients_ba (two_body w) c
          = two_body_coefficients_aa (two_body w) c
  | Raise _ => False
  end.
Proof.
  split; [exact h2_two_body_restricted|].
  destruct (save_wavefunction 2 h2_one_body h2_two_body) as [w|e] eqn:E;
    [|vm_compute in E; discriminate E].
  exact (restricted_blocks_identical 2 h2_one_body h2_two_body w
           h2_two_body_restricted E).
Defined.

(* ===================================================================== *)
(** * Truncation *)
(* ===================================================================== *)

Lemma below_tolerance_zero : below_tolerance 0 = true.
Proof. reflexivity. Qed.

Lemma truncate_cell_idempotent x :
  truncate_cell (truncate_cell x) = truncate_cell x.
Proof.
  unfold truncate_cell at 2 3.
  destruct (below_tolerance x) eqn:E.
  - unfold truncate_cell. now rewrite below_tolerance_zero.
  - unfold truncate_cell. now rewrite E.
Qed.

(** What is left in a truncated cell is zero or not below the tolerance. *)
Lemma truncate_cell_settled x :
  below_tolerance (truncate_cell x) = true -> truncate_cell x = 0%float.
Proof.
  unfold truncate_cell. destruct (below_tolerance x) eqn:E; [reflexivity|].
  rewrite E. discriminate.
Qed.

(** C6. Each of the six arrays [save] writes out is the expanded array
    with every element [x] such that [|x| < 1e-8] replaced by zero and
    every other element kept; so no element of the output has a magnitude
    below [1e-8] without being exactly zero.  The truncation step is this
    map on any array, and it is idempotent: applied once more, to any
    array and so to each of the six, it changes no element. *)
Theorem truncation_applied_and_idempotent nmo ob tb w :
  save_wavefunction nmo ob tb = Ok w ->
  (exists a b st,
     expand_one_body nmo ob = Ok (a, b) /\
     expand_two_body nmo tb = Ok st /\
     (forall i, one_body_coefficients_a w i
                = if (PrimFloat.abs (a i) <? 1e-8)%float then 0%float
                  else a i) /\
     (forall i, one_body_coefficients_b w i
                = if (PrimFloat.abs (b i) <? 1e-8)%float then 0%float
                  else b i) /\
     (forall name c, block_of name (two_body w) c
                = if (PrimFloat.abs (block_of name st c) <? 1e-8)%float
                  then 0%float else block_of name st c)) /\
  (forall i,
     (PrimFloat.abs (one_body_coefficients_a w i) <? 1e-8)%float = true ->
     one_body_coefficients_a w i = 0%float) /\
  (forall i,
     (PrimFloat.abs (one_body_coefficients_b w i) <? 1e-8)%float = true ->
     one_body_coefficients_b w i = 0%float) /\
  (forall name c,
     (PrimFloat.abs (block_of name (two_body w) c) <? 1e-8)%float = true ->
     block_of name (two_body w) c = 0%float) /\
  (forall (I : Type) (t : ndarray I) i,
     truncate t i
     = if (PrimFloat.abs (t i) <? 1e-8)%float then 0%float else t i) /\
  (forall (I : Type) (t : ndarray I) i,
     truncate (truncate t) i = truncate t i) /\
  (forall i, truncate (one_body_coefficients_a w) i
             = one_body_coefficients_a w i) /\
  (forall i, truncate (one_body_coefficients_b w) i
             = one_body_coefficients_b w i) /\
  (forall name c, block_of name (truncate_blocks (two_body w)) c
             = block_of name (two_body w) c).
Proof.
  intros Hsave.
  apply save_wavefunction_Ok in Hsave as (a & b & st & Hone & Htwo & ->).
  simpl. split; [|repeat split].
  - exists a, b, st. repeat split; try assumption; try reflexivity.
    intros name c. apply block_of_truncate_blocks.
  - intros i. apply truncate_cell_settled.
  - intros i. apply truncate_cell_settled.
  - intros name c. rewrite block_of_truncate_blocks.
    apply truncate_cell_settled.
  - intros I t i. apply truncate_cell_idempotent.
  - intros i. apply truncate_cell_idempotent.
  - intros i. apply truncate_cell_idempotent.
  - intros name c. rewrite !block_of_truncate_blocks.
    apply truncate_cell_idempotent.
Qed.

(** Truncation at a record with entries of magnitude [5e-9] and [3e-9]:
    they are expanded as they are and written out as zero, next to
    entries that are kept. *)
Lemma truncation_applied_and_idempotent_witness :
  match save_wavefunction 1 tiny_one_body tiny_two_body with
  | Ok w =>
      exists a b st,
        expand_one_body 1 tiny_one_body = Ok (a, b) /\
        expand_two_body 1 tiny_two_body = Ok st /\
        a (0, 0) = 5e-9%float /\
        one_body_coefficients_a w (0, 0) = 0%float /\
        b (0, 0) = (-0.5)%float /\
        one_body_coefficients_b w (0, 0) = (-0.5)%float /\
        block_of AA st (0, 0, 0, 0) = (-3e-9)%float /\
        block_of AA (two_body w) (0, 0, 0, 0) = 0%float /\
        block_of BB st (0, 0, 0, 0) = 0.25%float /\
        block_of BB (two_body w) (0, 0, 0, 0) = 0.25%float
  | Raise _ => False
  end.
Proof.
  destruct (save_wavefunction 1 tiny_one_body tiny_two_body)
    as [w|e] eqn:E; [|vm_compute in E; discriminate E].
  destruct (truncation_applied_and_idempotent 1 tiny_one_body
              tiny_two_body w E)
    as ((a & b & st & Hone & Htwo & Ha & Hb & Hblk) & _).
  exists a, b, st.
  assert (Ha0 : a (0, 0) = 5e-9%float).
  { vm_compute in Hone. injection Hone as <- _. reflexivity. }
  assert (Hb0 : b (0, 0) = (-0.5)%float).
  { vm_compute in Hone. injection Hone as _ <-. reflexivity. }
  assert (Haa : block_of AA st (0, 0, 0, 0) = (-3e-9)%float).
  { vm_compute in Htwo. injection Htwo as <-. reflexivity. }
  assert (Hbb : block_of BB st (0, 0, 0, 0) = 0.25%float).
  { vm_compute in Htwo. injection Htwo as <-. reflexivity. }
  split; [exact Hone|]. split; [exact Htwo|].
  split; [exact Ha0|]. split; [rewrite Ha, Ha0; reflexivity|].
  split; [exact Hb0|]. split; [rewrite Hb, Hb0; reflexivity|].
  split; [exact Haa|]. split; [rewrite Hblk, Haa; reflexivity|].
  split; [exact Hbb|]. rewrite Hblk, Hbb. reflexivity.
Defined.

(* ===================================================================== *)
(** * Entries beyond the requested orbitals *)
(* ===================================================================== *)

Lemma lookup_filter_key {K A : Type} `{Countable K} (P : K -> bool)
    (m : gmap K A) (k : K) :
  P k = true -> filter (fun kv => P (fst kv) = true) m !! k = m !! k.
Proof.
  intros Hk. apply option_eq. intros x.
  rewrite map_lookup_filter_Some. simpl. tauto.
Qed.

Lemma fits_alpha nmo p : p < nmo -> fits nmo (alpha p) = true.
Proof. intros Hp. unfold fits, alpha. apply Z.leb_le. lia. Qed.

Lemma fits_beta nmo p : p < nmo -> fits nmo (beta p) = true.
Proof. intros Hp. unfold fits, beta. apply Z.leb_le. lia. Qed.

(** The one-body loops read the store at fitting keys only. *)
Lemma expand_one_body_fitting nmo ob :
  expand_one_body nmo (fitting_one_body nmo ob) = expand_one_body nmo ob.
Proof.
  unfold expand_one_body.
  apply for_each_ext. intros p st Hp. apply elem_of_range in Hp.
  apply for_each_ext. intros q st' Hq. apply elem_of_range in Hq.
  unfold one_body_step, dict_getitem, fitting_one_body.
  rewrite !(lookup_filter_key (fits2 nmo)); [reflexivity| |];
    unfold fits2; simpl;
    rewrite ?fits_alpha, ?fits_beta by assumption; reflexivity.
Qed.

(** So do the two-body loops. *)
Lemma expand_two_body_fitting nmo tb :
  expand_two_body nmo (fitting_two_body nmo tb) = expand_two_body nmo tb.
Proof.
  unfold expand_two_body.
  apply for_each_ext. intros p s1 Hp. apply elem_of_range in Hp.
  apply for_each_ext. intros q s2 Hq. apply elem_of_range in Hq.
  apply for_each_ext. intros r s3 Hr. apply elem_of_range in Hr.
  apply for_each_ext. intros s s4 Hs. apply elem_of_range in Hs.
  unfold two_body_step, if_in, fitting_two_body.
  rewrite !(lookup_filter_key (fits4 nmo)); [reflexivity| | | |];
    unfold fits4; simpl;
    rewrite ?fits_alpha, ?fits_beta by assumption; reflexivity.
Qed.

(** C3 fails: with one spatial orbital requested and spin orbital 3 in
    both maps, the expansion returns, and returns what it returns without
    the entries at 3. *)
Lemma oversized_store_accepted :
  oversized_two_body !! (3, 3, 3, 3)%Z = Some (PyFloat 0.698) /\
  fits4 1 (3, 3, 3, 3)%Z = false /\
  is_ok (save_wavefunction 1 oversized_one_body oversized_two_body) = true /\
  (flatten4 1 <$>
     match save_wavefunction 1 oversized_one_body oversized_two_body with
     | Ok w => Some (two_body_coefficients_aa (two_body w))
     | Raise _ => None
     end) = Some [0.675%float].
Proof. vm_compute. repeat split; reflexivity. Qed.

(* ===================================================================== *)
(** * Absent one-body entries *)
(* ===================================================================== *)

(** C1 at the record with the single one-body entry [(1,1)]: the alpha
    lookup succeeds, the beta lookup [one_body_integrals[(2, 2)]] raises
    [KeyError]; no [beta_one[0,0] = 0] is returned. *)
Theorem lone_entry_raises_KeyError :
  expand_one_body 1 lone_one_body = Raise KeyError /\
  forall tb, save_wavefunction 1 lone_one_body tb = Raise KeyError.
Proof.
  assert (H : expand_one_body 1 lone_one_body = Raise KeyError)
    by (vm_compute; reflexivity).
  split; [exact H|]. intros tb. unfold save_wavefunction. now rewrite H.
Qed.

(* ===================================================================== *)
(** * Complex terms *)
(* ===================================================================== *)

(** The key [(1,2,2,1)] is the alpha-beta doubling of [(0,0,0,0)] and of
    no other quadruple, and no doubling of the three other kinds. *)
Lemma key_1221_doublings (c : idx4) :
  (ab_key c = (1, 2, 2, 1)%Z <-> c = (0, 0, 0, 0)) /\
  aa_key c <> (1, 2, 2, 1)%Z /\
  bb_key c <> (1, 2, 2, 1)%Z /\
  ba_key c <> (1, 2, 2, 1)%Z.
Proof.
  destruct c as [[[p q] r] s].
  unfold ab_key, aa_key, bb_key, ba_key, alpha, beta.
  repeat split.
  - intros [= Hp Hq Hr Hs]. repeat f_equal; lia.
  - intros [= -> -> -> ->]. reflexivity.
  - intros [= Hp Hq Hr Hs]. lia.
  - intros [= Hp Hq Hr Hs]. lia.
  - intros [= Hp Hq Hr Hs]. lia.
Qed.

(** The record of the complex scenario.  The key [(1,2,2,1)] is the
    alpha-beta doubling of the spatial quadruple [(0,0,0,0)], whose pair-swapped position is
    [(0,0,0,0)] again, so no block has [0.1+0.2i] at the one and [0.1-0.2i]
    at the other; and the expansion of the record returns no block at all:
    the float64 array refuses the complex term. *)
Lemma complex_entry_not_stored :
  ab_key (0, 0, 0, 0) = (1, 2, 2, 1)%Z /\
  swap_pairs (0, 0, 0, 0) = (0, 0, 0, 0) /\
  PyComplex 0.1 0.2 <> np_conj (PyComplex 0.1 0.2) /\
  expand_two_body 1 complex_two_body = Raise TypeError /\
  (forall ob, is_ok (save_wavefunction 1 ob complex_two_body) = false).
Proof.
  assert (H : expand_two_body 1 complex_two_body = Raise TypeError)
    by (vm_compute; reflexivity).
  repeat split; try reflexivity; try exact H.
  - simpl. discriminate.
  - intros ob. unfold save_wavefunction. rewrite H.
    now destruct (expand_one_body 1 ob).
Qed.

(* ===================================================================== *)
(** * The header *)
(* ===================================================================== *)

(** The counter and the lines left account for every line of the file. *)
Lemma skip_header_counts (f : list string) (k : nat) :
  fst (skip_header f k) + length (snd (skip_header f k)) = k + length f.
Proof.
  revert k. induction f as [|line f IH]; intros k; simpl; [lia|].
  destruct (contains "&END" line); simpl; [lia|].
  rewrite IH. lia.
Qed.

(** The loop stops right after the first line with the terminator. *)
Lemma skip_header_first_END (hdr : list string) (t : string)
    (rest : list string) (k : nat) :
  Forall (fun l => contains "&END" l = false) hdr ->
  contains "&END" t = true ->
  skip_header (hdr ++ t :: rest) k = (k + length hdr + 1, rest).
Proof.
  intros Hhdr Ht. revert k.
  induction Hhdr as [|l hdr Hl _ IH]; intros k; simpl.
  - rewrite Ht. f_equal. lia.
  - rewrite Hl, IH. f_equal. lia.
Qed.

(** Without a terminator the loop runs the file out. *)
Lemma skip_header_no_END (f : list string) (k : nat) :
  Forall (fun l => contains "&END" l = false) f ->
  skip_header f k = (k + length f, []).
Proof.
  intros Hf. revert k. induction Hf as [|l f Hl _ IH]; intros k; simpl.
  - f_equal. lia.
  - rewrite Hl, IH. f_equal. lia.
Qed.

Section Reading.

Variable py_int : string -> option Z.
Variable py_float : string -> option float.

(* ===================================================================== *)
(** * Rows by position and rows one by one *)
(* ===================================================================== *)

Lemma int_at_row lv row r k :
  lv !! row = Some r -> int_at py_int lv row k = int_at py_int [r] 0 k.
Proof. intros H. unfold int_at, list_getitem. now rewrite H. Qed.

Lemma float_at_row lv row r k :
  lv !! row = Some r ->
  float_at py_float lv row k = float_at py_float [r] 0 k.
Proof. intros H. unfold float_at, list_getitem. now rewrite H. Qed.

Lemma real_row_row lv row r st :
  lv !! row = Some r ->
  real_row py_int py_float lv row st = real_row py_int py_float [r] 0 st.
Proof.
  intros H. unfold real_row.
  now rewrite !(int_at_row lv row r _ H), (float_at_row lv row r _ H).
Qed.

Lemma complex_row_row lv row r st :
  lv !! row = Some r ->
  complex_row py_int py_float lv row st
  = complex_row py_int py_float [r] 0 st.
Proof.
  intros H. unfold complex_row.
  now rewrite !(int_at_row lv row r _ H), !(float_at_row lv row r _ H).
Qed.

(** A loop over the positions of a list, whose body depends on the
    position through the element there, is the loop over the elements. *)
Lemma for_each_positions {A S : Type} (body : nat -> S -> result S)
    (elem : A -> S -> result S) (pre rows : list A) :
  (forall i r s, ((pre ++ rows)%list : list A) !! i = Some r ->
                 body i s = elem r s) ->
  forall s, for_each (seq (length pre) (length rows)) body s
            = for_each rows elem s.
Proof.
  revert pre. induction rows as [|r rows IH]; intros pre Hbody s; simpl;
    [reflexivity|].
  rewrite (Hbody (length pre) r s)
    by (rewrite lookup_app_r, Nat.sub_diag by lia; reflexivity).
  destruct (elem r s) as [s'|e]; [|reflexivity].
  specialize (IH (pre ++ [r])%list).
  rewrite length_app, Nat.add_1_r in IH. apply IH.
  intros i r' s0. rewrite <- app_assoc. apply Hbody.
Qed.

(** [get_integrals] consumes the rows after the header one by one. *)
Lemma get_integrals_consume_rows (file : list string) :
  get_integrals py_int py_float file
  = consume_rows py_int py_float (data_rows file).
Proof.
  unfold get_integrals, consume_rows.
  assert (Hcount : length file - fst (skip_header file 0)
                   = length (data_rows file)).
  { unfold data_rows. rewrite length_map.
    pose proof (skip_header_counts file 0). lia. }
  rewrite Hcount.
  destruct (data_rows file) as [|first rows]; [reflexivity|].
  assert (Hc : forall s,
    for_each (range (length (first :: rows)))
             (complex_row py_int py_float (first :: rows)) s
    = for_each (first :: rows)
               (fun r => complex_row py_int py_float [r] 0) s).
  { apply (for_each_positions _ _ []). intros i r s. apply complex_row_row. }
  assert (Hr : forall s,
    for_each (range (length (first :: rows)))
             (real_row py_int py_float (first :: rows)) s
    = for_each (first :: rows)
               (fun r => real_row py_int py_float [r] 0) s).
  { apply (for_each_positions _ _ []). intros i r s. apply real_row_row. }
  unfold list_getitem.
  change ((first :: rows) !! 0) with (Some first).
  cbv beta iota delta [bind is_complex consume_row].
  destruct (length first =? 6)%nat; cbv beta iota delta [negb].
  - apply Hc.
  - rewrite Hr. destruct (for_each _ _ _); reflexivity.
Qed.

(* ===================================================================== *)
(** * One row *)
(* ===================================================================== *)

Lemma int_at_Ok r k z :
  int_at py_int [r] 0 k = Ok z ->
  exists tok, r !! k = Some tok /\ py_int tok = Some z.
Proof.
  unfold int_at, list_getitem. simpl.
  destruct (r !! k) as [tok|]; simpl; [|discriminate].
  destruct (py_int tok) as [z'|] eqn:E; [|discriminate].
  intros [= <-]. eauto.
Qed.

Lemma float_at_Ok r k x :
  float_at py_float [r] 0 k = Ok x ->
  exists tok, r !! k = Some tok /\ py_float tok = Some x.
Proof.
  unfold float_at, list_getitem. simpl.
  destruct (r !! k) as [tok|]; simpl; [|discriminate].
  destruct (py_float tok) as [x'|] eqn:E; [|discriminate].
  intros [= <-]. eauto.
Qed.

Lemma int_at_error r k e : int_at py_int [r] 0 k = Raise e -> parse_error e.
Proof.
  unfold int_at, list_getitem, parse_error. simpl.
  destruct (r !! k) as [tok|]; simpl; [|intros [= <-]; auto].
  destruct (py_int tok); [discriminate|intros [= <-]; auto].
Qed.

Lemma float_at_error r k e :
  float_at py_float [r] 0 k = Raise e -> parse_error e.
Proof.
  unfold float_at, list_getitem, parse_error. simpl.
  destruct (r !! k) as [tok|]; simpl; [|intros [= <-]; auto].
  destruct (py_float tok); [discriminate|intros [= <-]; auto].
Qed.

(** Tokens past the columns read play no part. *)
Lemma int_at_app r extra k :
  k < length r -> int_at py_int [(r ++ extra)%list] 0 k = int_at py_int [r] 0 k.
Proof.
  intros Hk. unfold int_at, list_getitem. simpl.
  now rewrite lookup_app_l.
Qed.

Lemma float_at_app r extra k :
  k < length r ->
  float_at py_float [(r ++ extra)%list] 0 k = float_at py_float [r] 0 k.
Proof.
  intros Hk. unfold float_at, list_getitem. simpl.
  now rewrite lookup_app_l.
Qed.

(** The value is converted in whichever branch is taken. *)
Lemma store_row_Ok a_1 a_2 a_3 a_4 value st st' :
  store_row a_1 a_2 a_3 a_4 value st = Ok st' ->
  exists v, value = Ok v /\ store_row a_1 a_2 a_3 a_4 (Ok v) st = Ok st'.
Proof.
  destruct value as [v|e]; [eauto|].
  unfold store_row.
  destruct ((a_4 =? 0)%Z && (a_3 =? 0)%Z), (a_2 =? 0)%Z, (a_1 =? 0)%Z;
    discriminate.
Qed.

Lemma store_row_error a_1 a_2 a_3 a_4 value st e :
  store_row a_1 a_2 a_3 a_4 value st = Raise e -> value = Raise e.
Proof.
  destruct value as [v|e'];
    unfold store_row;
    destruct ((a_4 =? 0)%Z && (a_3 =? 0)%Z), (a_2 =? 0)%Z, (a_1 =? 0)%Z;
    simpl; congruence.
Qed.

(** What one row can add to [one_body_int]. *)
Lemma store_row_one_body a_1 a_2 a_3 a_4 v st st' :
  store_row a_1 a_2 a_3 a_4 (Ok v) st = Ok st' ->
  forall k w, one_body_int st' !! k = Some w ->
    one_body_int st !! k = Some w \/
    (k = (a_1, a_2) /\ w = v /\ a_2 <> 0%Z /\ a_3 = 0%Z /\ a_4 = 0%Z).
Proof.
  unfold store_row.
  destruct (a_4 =? 0)%Z eqn:E4, (a_3 =? 0)%Z eqn:E3, (a_2 =? 0)%Z eqn:E2,
    (a_1 =? 0)%Z eqn:E1; simpl; intros [= <-] k w; simpl; auto.
  all: intros Hk; apply lookup_insert_Some in Hk as [[<- <-]|[_ Hk]]; auto.
  all: right; apply Z.eqb_eq in E4, E3; apply Z.eqb_neq in E2; auto.
Qed.

(** A row that is consumed has its four indices and its value. *)
Lemma consume_row_Ok cplx r st st' :
  consume_row py_int py_float cplx r st = Ok st' ->
  exists a_1 a_2 a_3 a_4 v,
    row_indices py_int (value_columns cplx) r = Ok (a_1, a_2, a_3, a_4) /\
    row_value py_float cplx r = Ok v /\
    store_row a_1 a_2 a_3 a_4 (Ok v) st = Ok st'.
Proof.
  unfold consume_row, row_indices, row_value.
  destruct cplx; unfold complex_row, real_row, value_columns; simpl Nat.add;
    intros H; inv_ok;
    apply store_row_Ok in H as (v & Hv & H);
    exists a, a0, a1, a2, v; rewrite Ha, Ha0, Ha1, Ha2; simpl; auto.
Qed.

Lemma consume_row_error cplx r st e :
  consume_row py_int py_float cplx r st = Raise e -> parse_error e.
Proof.
  unfold consume_row. intros H.
  destruct cplx; unfold complex_row, real_row in H;
    repeat match type of H with
    | bind (int_at ?f ?l ?i ?k) _ = _ =>
        let E := fresh "E" in
        destruct (int_at f l i k) eqn:E; cbn [bind] in H;
        [|injection H as <-; exact (int_at_error _ _ _ E)]
    end;
    apply store_row_error in H;
    repeat match type of H with
    | bind (float_at ?f ?l ?i ?k) _ = _ =>
        let E := fresh "E" in
        destruct (float_at f l i k) eqn:E; cbn [bind] in H;
        [|injection H as <-; exact (float_at_error _ _ _ E)]
    end;
    discriminate H.
Qed.

(* ===================================================================== *)
(** * The rows of a file *)
(* ===================================================================== *)

Lemma for_each_Raise {A S : Type} (xs : list A) (body : A -> S -> result S)
    (s : S) (e : py_error) :
  for_each xs body s = Raise e -> exists x s', x ∈ xs /\ body x s' = Raise e.
Proof.
  revert s. induction xs as [|x xs IH]; intros s; simpl; [discriminate|].
  destruct (body x s) as [s1|e1] eqn:Hx.
  - intros H. apply IH in H as (y & s' & Hy & H).
    exists y, s'. split; [now right|assumption].
  - intros [= <-]. exists x, s. split; [left|assumption].
Qed.

(** Reading raises nothing but [IndexError] and [ValueError]. *)
Lemma get_integrals_error file e :
  get_integrals py_int py_float file = Raise e -> parse_error e.
Proof.
  rewrite get_integrals_consume_rows. unfold consume_rows, list_getitem.
  destruct (data_rows file !! 0); simpl.
  - intros H. apply for_each_Raise in H as (r & st & _ & H).
    eapply consume_row_error; eauto.
  - intros [= <-]. now left.
Qed.

(** A consumed row is readable. *)
Lemma consume_row_readable cplx r st st' :
  consume_row py_int py_float cplx r st = Ok st' ->
  ~ unreadable py_int py_float cplx r.
Proof.
  intros H.
  apply consume_row_Ok in H as (a_1 & a_2 & a_3 & a_4 & v & Hidx & Hval & _).
  unfold row_indices in Hidx. inv_ok.
  apply int_at_Ok in Ha as (t1 & Ht1 & Hz1).
  apply int_at_Ok in Ha0 as (t2 & Ht2 & Hz2).
  apply int_at_Ok in Ha1 as (t3 & Ht3 & Hz3).
  apply int_at_Ok in Ha2 as (t4 & Ht4 & Hz4).
  intros [Hshort|[(k & tok & Hk & Htok & Hnone)|(k & tok & Hk & Htok & Hnone)]].
  - apply lookup_lt_Some in Ht4. unfold row_width in Hshort. lia.
  - assert (Hcases : k = 0 \/ k = 1 \/ k = 2 \/ k = 3) by lia.
    destruct Hcases as [-> | [-> | [-> | ->]]];
      rewrite ?Nat.add_0_r in Htok; congruence.
  - unfold row_value in Hval. destruct cplx; simpl in Hk; inv_ok.
    + apply float_at_Ok in Ha as (f1 & Hf1 & Hx1).
      apply float_at_Ok in Ha0 as (f2 & Hf2 & Hx2).
      assert (Hcases : k = 0 \/ k = 1) by lia.
      destruct Hcases as [-> | ->]; congruence.
    + apply float_at_Ok in Ha as (f1 & Hf1 & Hx1).
      assert (k = 0) as -> by lia. congruence.
Qed.

(* ===================================================================== *)
(** * Claims on the parser *)
(* ===================================================================== *)

(** C7, as the code has it.  Every entry of [one_body_int] comes from a
    data row whose third and fourth indices are zero and whose second
    index is not; its key is the pair of the row's first two indices and
    its value the row's value.  The first index is not tested. *)
Theorem one_body_entries_from_rows file st :
  get_integrals py_int py_float file = Ok st ->
  forall a_1 a_2 v,
    one_body_int st !! (a_1, a_2) = Some v ->
    a_2 <> 0%Z /\
    exists r,
      r ∈ data_rows file /\
      row_indices py_int (value_columns (is_complex (data_rows file))) r
        = Ok (a_1, a_2, 0%Z, 0%Z) /\
      row_value py_float (is_complex (data_rows file)) r = Ok v.
Proof.
  rewrite get_integrals_consume_rows. unfold consume_rows.
  set (rows := data_rows file). set (cplx := is_complex rows).
  intros H. apply bind_Ok in H as (first & _ & H).
  revert H.
  apply (for_each_inv (fun st => forall a_1 a_2 v,
    one_body_int st !! (a_1, a_2) = Some v ->
    a_2 <> 0%Z /\
    exists r, r ∈ rows /\
      row_indices py_int (value_columns cplx) r = Ok (a_1, a_2, 0%Z, 0%Z) /\
      row_value py_float cplx r = Ok v)).
  - intros r s s' Hr IH Hrow a_1 a_2 v Hlook.
    apply consume_row_Ok in Hrow as (b_1 & b_2 & b_3 & b_4 & w & Hi & Hv & Hs).
    destruct (store_row_one_body _ _ _ _ _ _ _ Hs _ _ Hlook)
      as [Hold|([= -> ->] & -> & Hne & -> & ->)]; [now apply IH|].
    split; [assumption|]. exists r. auto.
  - intros a_1 a_2 v. simpl. rewrite lookup_empty. discriminate.
Qed.

(** C8, as the code has it.  A data row with fewer tokens than the loop
    body reads, or with a token in an index column that [int()] refuses or
    in a value column that [float()] refuses, makes the whole reading
    raise [IndexError] or [ValueError].  Tokens after the columns read
    are never looked at: a longer row is consumed like its leading
    columns. *)
Theorem unreadable_row_aborts file :
  (forall r,
     r ∈ data_rows file ->
     unreadable py_int py_float (is_complex (data_rows file)) r ->
     exists e, get_integrals py_int py_float file = Raise e /\
               parse_error e) /\
  (forall cplx r extra st,
     row_width cplx <= length r ->
     consume_row py_int py_float cplx (r ++ extra)%list st
     = consume_row py_int py_float cplx r st).
Proof.
  split.
  - intros r Hr Hbad.
    destruct (get_integrals py_int py_float file) as [st|e] eqn:H.
    + exfalso. rewrite get_integrals_consume_rows in H.
      unfold consume_rows in H. apply bind_Ok in H as (first & _ & H).
      assert (Hnot : is_ok (for_each (data_rows file)
                (consume_row py_int py_float (is_complex (data_rows file)))
                (Integrals (PyInt 0) ∅ ∅ ∅)) = false).
      { apply (for_each_raises _ _ r Hr). intros s.
        destruct (consume_row _ _ _ r s) as [s'|] eqn:Hs; [|reflexivity].
        now apply consume_row_readable in Hs. }
      rewrite H in Hnot. discriminate.
    + exists e. split; [reflexivity|]. eapply get_integrals_error; eauto.
  - intros cplx r extra st Hlen. unfold row_width, value_columns in Hlen.
    unfold consume_row.
    destruct cplx; unfold complex_row, real_row;
      rewrite !int_at_app, !float_at_app by lia; reflexivity.
Qed.

(** C9. When [t] is the first line with ["&END"] somewhere in it, the
    header loop consumes the lines up to and including [t], the data rows
    are the lines after [t] split into tokens, and the reading is these
    rows consumed one by one in file order. *)
Theorem header_ends_at_first_END hdr t rest :
  Forall (fun l => contains "&END" l = false) hdr ->
  contains "&END" t = true ->
  skip_header (hdr ++ t :: rest)%list 0 = (length hdr + 1, rest) /\
  data_rows (hdr ++ t :: rest)%list = map split rest /\
  get_integrals py_int py_float (hdr ++ t :: rest)%list
  = consume_rows py_int py_float (map split rest).
Proof.
  intros Hhdr Ht.
  pose proof (skip_header_first_END hdr t rest 0 Hhdr Ht) as Hskip.
  simpl in Hskip.
  assert (Hrows : data_rows (hdr ++ t :: rest)%list = map split rest)
    by (unfold data_rows; now rewrite Hskip).
  repeat split; [exact Hskip|exact Hrows|].
  now rewrite get_integrals_consume_rows, Hrows.
Qed.

(** C10. A file with no line after the first terminator line, or with no
    terminator line at all, leaves no data row, and the test of the first
    row's length raises [IndexError]. *)
Theorem no_data_row_raises_IndexError file :
  (Forall (fun l => contains "&END" l = false) file \/
   exists hdr t,
     file = (hdr ++ [t])%list /\
     Forall (fun l => contains "&END" l = false) hdr /\
     contains "&END" t = true) ->
  data_rows file = [] /\
  get_integrals py_int py_float file = Raise IndexError.
Proof.
  intros H.
  assert (Hrows : data_rows file = []).
  { unfold data_rows. destruct H as [Hnone|(hdr & t & -> & Hhdr & Ht)].
    - now rewrite skip_header_no_END.
    - now rewrite (skip_header_first_END hdr t [] 0 Hhdr Ht). }
  split; [exact Hrows|].
  rewrite get_integrals_consume_rows, Hrows. reflexivity.
Qed.

End Reading.

(* ===================================================================== *)
(** * The claims at sample files *)
(* ===================================================================== *)

(** The entry [(3, 3)] of the sample file and the row it comes from. *)
Lemma one_body_entries_from_rows_witness :
  match get_integrals int_of_token float_of_token sample_file with
  | Ok st =>
      one_body_int st !! (3, 3)%Z = Some (PyFloat (-0.47)) /\
      (3 <> 0)%Z /\
      exists r,
        r ∈ data_rows sample_file /\
        row_indices int_of_token
          (value_columns (is_complex (data_rows sample_file))) r
          = Ok (3, 3, 0, 0)%Z /\
        row_value float_of_token (is_complex (data_rows sample_file)) r
          = Ok (PyFloat (-0.47))
  | Raise _ => False
  end.
Proof.
  destruct (get_integrals int_of_token float_of_token sample_file)
    as [st|e] eqn:E; [|vm_compute in E; discriminate E].
  assert (Hl : one_body_int st !! (3, 3)%Z = Some (PyFloat (-0.47))).
  { pose proof E as E'. vm_compute in E'. injection E' as <-.
    vm_compute. reflexivity. }
  split; [exact Hl|].
  exact (one_body_entries_from_rows int_of_token float_of_token
           sample_file st E 3%Z 3%Z (PyFloat (-0.47)) Hl).
Defined.

(** C7 fails: the row [1.5 0 5 0 0] has a zero first index and yet makes
    the entry [(0, 5)] of [one_body_int]. *)
Lemma zero_first_index_makes_entry :
  match get_integrals int_of_token float_of_token zero_first_index_file with
  | Ok st => one_body_int st !! (0, 5)%Z = Some (PyFloat 1.5)
  | Raise _ => False
  end.
Proof. vm_compute. reflexivity. Qed.

(** A four-token row in a real file stops the reading. *)
Lemma unreadable_row_aborts_witness :
  ["0.25"; "2"; "2"; "0"] ∈ data_rows short_row_file /\
  unreadable int_of_token float_of_token
    (is_complex (data_rows short_row_file)) ["0.25"; "2"; "2"; "0"] /\
  exists e,
    get_integrals int_of_token float_of_token short_row_file = Raise e /\
    parse_error e.
Proof.
  assert (Hin : ["0.25"; "2"; "2"; "0"] ∈ data_rows short_row_file).
  { replace (data_rows short_row_file)
      with [["0.5"; "1"; "1"; "0"; "0"]; ["0.25"; "2"; "2"; "0"]]
      by (vm_compute; reflexivity).
    right. left. }
  assert (Hbad : unreadable int_of_token float_of_token
            (is_complex (data_rows short_row_file)) ["0.25"; "2"; "2"; "0"]).
  { left. vm_compute. lia. }
  split; [exact Hin|]. split; [exact Hbad|].
  exact (proj1 (unreadable_row_aborts int_of_token float_of_token
                  short_row_file) _ Hin Hbad).
Defined.

(** C8 fails: in a real file the row [0.25 2 2 0 0 7 junk] has seven
    tokens, the last of them no number, and the reading goes through,
    with the row's entry in [one_body_int]. *)
Lemma long_row_accepted :
  length (split "0.25 2 2 0 0 7 junk") = 7 /\
  is_complex (data_rows long_row_file) = false /\
  match get_integrals int_of_token float_of_token long_row_file with
  | Ok st => one_body_int st !! (2, 2)%Z = Some (PyFloat 0.25)
  | Raise _ => False
  end.
Proof. vm_compute. repeat split; reflexivity. Qed.

(** The sample file, whose terminator line has text on both sides of
    ["&END"]. *)
Lemma header_ends_at_first_END_witness :
  Forall (fun l => contains "&END" l = false) sample_header /\
  contains "&END" sample_terminator = true /\
  skip_header sample_file 0 = (length sample_header + 1, sample_rows) /\
  data_rows sample_file = map split sample_rows /\
  get_integrals int_of_token float_of_token sample_file
  = consume_rows int_of_token float_of_token (map split sample_rows).
Proof.
  assert (Hhdr : Forall (fun l => contains "&END" l = false) sample_header)
    by (repeat constructor).
  assert (Ht : contains "&END" sample_terminator = true) by reflexivity.
  split; [exact Hhdr|]. split; [exact Ht|].
  exact (header_ends_at_first_END int_of_token float_of_token
           sample_header sample_terminator sample_rows Hhdr Ht).
Defined.

(** A file that stops at its terminator line. *)
Lemma no_data_row_raises_IndexError_witness :
  (exists hdr t,
     header_only_file = (hdr ++ [t])%list /\
     Forall (fun l => contains "&END" l = false) hdr /\
     contains "&END" t = true) /\
  data_rows header_only_file = [] /\
  get_integrals int_of_token float_of_token header_only_file
  = Raise IndexError.
Proof.
  assert (H : exists hdr t,
     header_only_file = (hdr ++ [t])%list /\
     Forall (fun l => contains "&END" l = false) hdr /\
     contains "&END" t = true).
  { exists ["&FCI NORB=2,NELEC=2,MS2=0,"], " ORBSYM=1,1, &END".
    split; [reflexivity|]. split; [repeat constructor|reflexivity]. }
  split; [exact H|].
  exact (no_data_row_raises_IndexError int_of_token float_of_token
           header_only_file (or_intror H)).
Defined.

(* ===================================================================== *)
(** * The loop nest as one loop *)
(* ===================================================================== *)

Lemma for_each_concat {A S : Type} (xs ys : list A)
    (body : A -> S -> result S) (s : S) :
  for_each (xs ++ ys)%list body s
  = bind (for_each xs body s) (for_each ys body).
Proof.
  revert s. induction xs as [|x xs IH]; intros s; simpl; [reflexivity|].
  destruct (body x s); [apply IH|reflexivity].
Qed.

(** A loop inside a loop is the loop over the pairs in visiting order. *)
Lemma for_each_nested {A B S : Type} (xs : list A) (inner : A -> list B)
    (body : B -> S -> result S) (s : S) :
  for_each xs (fun x => for_each (inner x) body) s
  = for_each (x ← xs; inner x) body s.
Proof.
  revert s. induction xs as [|x xs IH]; intros s; [reflexivity|].
  cbn [for_each mbind list_bind]. rewrite for_each_concat.
  destruct (for_each (inner x) body s); simpl; [apply IH|reflexivity].
Qed.

Lemma expand_two_body_quadruples nmo tb :
  expand_two_body nmo tb
  = for_each (quadruples nmo) (two_body_step tb)
             (Blocks np_zeros np_zeros np_zeros np_zeros).
Proof.
  unfold expand_two_body, quadruples.
  rewrite <- for_each_nested. apply for_each_ext. intros p s1 _.
  rewrite <- for_each_nested. apply for_each_ext. intros q s2 _.
  rewrite <- for_each_nested. apply for_each_ext. intros r s3 _.
  rewrite <- for_each_nested. apply for_each_ext. intros s s4 _.
  simpl. now destruct (two_body_step tb (p, q, r, s) s4).
Qed.

Lemma elem_of_quadruples nmo c : c ∈ quadruples nmo <-> in_shape nmo c.
Proof.
  destruct c as [[[p q] r] s]. unfold quadruples, in_shape.
  repeat setoid_rewrite list_elem_of_bind.
  setoid_rewrite list_elem_of_singleton.
  setoid_rewrite elem_of_range. split.
  - intros (p' & (q' & (r' & (s' & [= -> -> -> ->] & Hs) & Hr) & Hq) & Hp).
    auto.
  - intros (Hp & Hq & Hr & Hs). eauto 12.
Qed.

Lemma for_each_establish_from {A S : Type} (I P : S -> Prop) (xs : list A)
    (body : A -> S -> result S) (x : A) :
  x ∈ xs ->
  (forall y s s', y ∈ xs -> I s -> body y s = Ok s' -> I s') ->
  (forall s s', I s -> body x s = Ok s' -> P s') ->
  (forall y s s', y ∈ xs -> I s -> P s -> body y s = Ok s' -> P s') ->
  forall s s', I s -> for_each xs body s = Ok s' -> P s'.
Proof.
  induction xs as [|y xs IH]; intros Hin HI Hset Hkeep s s' Hs Hrun.
  - inversion Hin.
  - simpl in Hrun. destruct (body y s) as [s1|e] eqn:Hy; [|discriminate].
    assert (Hs1 : I s1) by (eapply (HI y); eauto; left).
    apply elem_of_cons in Hin as [->|Hin].
    + assert (HP : P s1) by eauto.
      revert Hrun.
      apply (for_each_inv (fun t => I t /\ P t)); [|now split].
      intros z t t' Hz [Ht HPt] Hstep.
      split; [eapply (HI z); eauto; now right|].
      eapply (Hkeep z); eauto. now right.
    + eapply IH; eauto.
      * intros z t t' Hz. apply HI. now right.
      * intros z t t' Hz. apply Hkeep. now right.
Qed.

(* ===================================================================== *)
(** * One iteration of the two-body loops, cell by cell *)
(* ===================================================================== *)

Lemma in_orbit_sym c j : in_orbit c j <-> in_orbit j c.
Proof.
  destruct c as [[[p q] r] s], j as [[[p' q'] r'] s'].
  unfold in_orbit; simpl. split; intros [H|[H|[H|H]]];
    injection H as -> -> -> ->; auto.
Qed.

Lemma in_orbit_trans a b c : in_orbit a b -> in_orbit b c -> in_orbit a c.
Proof.
  destruct a as [[[p q] r] s].
  intros [-> | [-> | [-> | ->]]] [-> | [-> | [-> | ->]]];
    unfold in_orbit; simpl; auto 6.
Qed.

Lemma in_orbit_in_shape nmo c j :
  in_orbit c j -> in_shape nmo c -> in_shape nmo j.
Proof.
  destruct c as [[[p q] r] s].
  intros [-> | [-> | [-> | ->]]]; simpl; tauto.
Qed.

Lemma put_None c j old : put None c j old = old.
Proof. unfold put. now destruct (decide (in_orbit c j)). Qed.

Lemma put_outside o c j old : ~ in_orbit c j -> put o c j old = old.
Proof. intros H. unfold put. now rewrite decide_False. Qed.

Lemma put_inside o c j old : in_orbit c j -> put o c j old = term_or o old.
Proof. intros H. unfold put. now rewrite decide_True. Qed.

Lemma put_twice o c j old : put o c j (put o c j old) = put o c j old.
Proof.
  unfold put. destruct (decide (in_orbit c j)); [|reflexivity].
  now destruct o as [[x|re im]|].
Qed.

Lemma fill4_put t t' c v :
  fill4 t c v = Ok t' -> forall j, t' j = put (Some v) c j (t j).
Proof.
  intros H j. apply fill4_Ok in H as (x & -> & Ht'). apply Ht'.
Qed.

(** The alpha-alpha test writes its term to all four blocks. *)
Lemma aa_stage_cells tb c st st' :
  if_in tb (aa_key c) (fill_all c) st = Ok st' ->
  forall name j,
    block_of name st' j = put (tb !! aa_key c) c j (block_of name st j).
Proof.
  intros H name j. apply if_in_Ok in H as [[-> ->]|(v & -> & H)].
  - now rewrite put_None.
  - apply fill_all_Ok in H as (t1 & t2 & t3 & t4 & H1 & H2 & H3 & H4 & ->).
    destruct name; simpl; eauto using fill4_put.
Qed.

(** Each of the three other tests writes to its own block only. *)
Lemma bb_stage_cells tb c st st' :
  if_in tb (bb_key c) (fill_bb c) st = Ok st' ->
  forall name j,
    block_of name st' j
    = match name with
      | BB => put (tb !! bb_key c) c j (block_of name st j)
      | _ => block_of name st j
      end.
Proof.
  intros H name j. apply if_in_Ok in H as [[-> ->]|(v & -> & H)].
  - rewrite put_None. now destruct name.
  - apply fill_bb_Ok in H as (t & Ht & ->).
    destruct name; simpl; eauto using fill4_put.
Qed.

Lemma ab_stage_cells tb c st st' :
  if_in tb (ab_key c) (fill_ab c) st = Ok st' ->
  forall name j,
    block_of name st' j
    = match name with
      | AB => put (tb !! ab_key c) c j (block_of name st j)
      | _ => block_of name st j
      end.
Proof.
  intros H name j. apply if_in_Ok in H as [[-> ->]|(v & -> & H)].
  - rewrite put_None. now destruct name.
  - apply fill_ab_Ok in H as (t & Ht & ->).
    destruct name; simpl; eauto using fill4_put.
Qed.

Lemma ba_stage_cells tb c st st' :
  if_in tb (ba_key c) (fill_ba c) st = Ok st' ->
  forall name j,
    block_of name st' j
    = match name with
      | BA => put (tb !! ba_key c) c j (block_of name st j)
      | _ => block_of name st j
      end.
Proof.
  intros H name j. apply if_in_Ok in H as [[-> ->]|(v & -> & H)].
  - rewrite put_None. now destruct name.
  - apply fill_ba_Ok in H as (t & Ht & ->).
    destruct name; simpl; eauto using fill4_put.
Qed.

(** One iteration: in every block, first the alpha-alpha term, then the
    block's own term, at the four positions of the orbit. *)
Lemma two_body_step_cells tb c st st' :
  two_body_step tb c st = Ok st' ->
  forall name j,
    block_of name st' j
    = put (tb !! own_key name c) c j
        (put (tb !! aa_key c) c j (block_of name st j)).
Proof.
  unfold two_body_step. intros H name j.
  apply bind_Ok in H as (s1 & H1 & H).
  apply bind_Ok in H as (s2 & H2 & H).
  apply bind_Ok in H as (s3 & H3 & H4).
  pose proof (ba_stage_cells _ _ _ _ H4 name j) as E4.
  pose proof (ab_stage_cells _ _ _ _ H3 name j) as E3.
  pose proof (bb_stage_cells _ _ _ _ H2 name j) as E2.
  pose proof (aa_stage_cells _ _ _ _ H1 name j) as E1.
  destruct name; simpl in *; rewrite E4, E3, E2, E1, ?put_twice;
    reflexivity.
Qed.

(* ===================================================================== *)
(** * When an iteration returns and when it raises *)
(* ===================================================================== *)

Lemma for_each_Ok_each {A S : Type} (xs : list A) (body : A -> S -> result S)
    (x : A) (s s' : S) :
  x ∈ xs -> for_each xs body s = Ok s' ->
  exists t t', body x t = Ok t'.
Proof.
  revert s. induction xs as [|y xs IH]; intros s Hin Hrun.
  - inversion Hin.
  - simpl in Hrun. destruct (body y s) as [s1|e] eqn:Hy; [|discriminate].
    apply elem_of_cons in Hin as [->|Hin]; eauto.
Qed.

Lemma if_in_Raise {K V S : Type} `{Countable K} (d : gmap K V) (k : K)
    (f : V -> S -> result S) (s : S) (e : py_error) :
  if_in d k f s = Raise e -> exists v, d !! k = Some v /\ f v s = Raise e.
Proof. unfold if_in. destruct (d !! k) as [v|]; [eauto|discriminate]. Qed.

Lemma fill_all_Raise c v st e :
  fill_all c v st = Raise e ->
  e = TypeError /\ exists re im, v = PyComplex re im.
Proof.
  destruct v as [x|re im].
  - destruct (fill_all_real c x st) as [st' ->]. discriminate.
  - intros [= <-]. eauto.
Qed.

Lemma fill_bb_Raise c v st e :
  fill_bb c v st = Raise e ->
  e = TypeError /\ exists re im, v = PyComplex re im.
Proof.
  destruct v as [x|re im].
  - destruct (fill_bb_real c x st) as [st' ->]. discriminate.
  - intros [= <-]. eauto.
Qed.

Lemma fill_ab_Raise c v st e :
  fill_ab c v st = Raise e ->
  e = TypeError /\ exists re im, v = PyComplex re im.
Proof.
  destruct v as [x|re im].
  - destruct (fill_ab_real c x st) as [st' ->]. discriminate.
  - intros [= <-]. eauto.
Qed.

Lemma fill_ba_Raise c v st e :
  fill_ba c v st = Raise e ->
  e = TypeError /\ exists re im, v = PyComplex re im.
Proof.
  destruct v as [x|re im].
  - destruct (fill_ba_real c x st) as [st' ->]. discriminate.
  - intros [= <-]. eauto.
Qed.

(** An iteration of the two-body loops raises only [TypeError], and only
    over a complex term at one of its four keys. *)
Lemma two_body_step_Raise tb c st e :
  two_body_step tb c st = Raise e ->
  e = TypeError /\
  exists name re im, tb !! own_key name c = Some (PyComplex re im).
Proof.
  unfold two_body_step.
  destruct (if_in tb (aa_key c) (fill_all c) st) as [s1|e1] eqn:H1; simpl.
  2:{ intros [= <-]. apply if_in_Raise in H1 as (v & Hv & H1).
      apply fill_all_Raise in H1 as (-> & re & im & ->).
      split; [reflexivity|]. now exists AA, re, im. }
  destruct (if_in tb (bb_key c) (fill_bb c) s1) as [s2|e2] eqn:H2; simpl.
  2:{ intros [= <-]. apply if_in_Raise in H2 as (v & Hv & H2).
      apply fill_bb_Raise in H2 as (-> & re & im & ->).
      split; [reflexivity|]. now exists BB, re, im. }
  destruct (if_in tb (ab_key c) (fill_ab c) s2) as [s3|e3] eqn:H3; simpl.
  2:{ intros [= <-]. apply if_in_Raise in H3 as (v & Hv & H3).
      apply fill_ab_Raise in H3 as (-> & re & im & ->).
      split; [reflexivity|]. now exists AB, re, im. }
  intros H4. apply if_in_Raise in H4 as (v & Hv & H4).
  apply fill_ba_Raise in H4 as (-> & re & im & ->).
  split; [reflexivity|]. now exists BA, re, im.
Qed.

(** An iteration that returns met real terms only. *)
Lemma two_body_step_Ok_real tb c st st' :
  two_body_step tb c st = Ok st' ->
  forall name v, tb !! own_key name c = Some v -> exists x, v = PyFloat x.
Proof.
  unfold two_body_step. intros H name v Hv.
  apply bind_Ok in H as (s1 & H1 & H).
  apply bind_Ok in H as (s2 & H2 & H).
  apply bind_Ok in H as (s3 & H3 & H4).
  destruct name; simpl in Hv.
  - apply if_in_Ok in H1 as [[E _]|(v' & E & H1)]; [congruence|].
    assert (v' = v) as -> by congruence.
    apply fill_all_Ok in H1 as (t1 & _ & _ & _ & H1 & _).
    apply fill4_Ok in H1 as (x & -> & _). eauto.
  - apply if_in_Ok in H2 as [[E _]|(v' & E & H2)]; [congruence|].
    assert (v' = v) as -> by congruence.
    apply fill_bb_Ok in H2 as (t1 & H2 & _).
    apply fill4_Ok in H2 as (x & -> & _). eauto.
  - apply if_in_Ok in H3 as [[E _]|(v' & E & H3)]; [congruence|].
    assert (v' = v) as -> by congruence.
    apply fill_ab_Ok in H3 as (t1 & H3 & _).
    apply fill4_Ok in H3 as (x & -> & _). eauto.
  - apply if_in_Ok in H4 as [[E _]|(v' & E & H4)]; [congruence|].
    assert (v' = v) as -> by congruence.
    apply fill_ba_Ok in H4 as (t1 & H4 & _).
    apply fill4_Ok in H4 as (x & -> & _). eauto.
Qed.

(** An iteration of the one-body loops raises [KeyError] over an absent
    key and [TypeError] over a complex value. *)
Lemma one_body_step_Raise ob p q st e :
  one_body_step ob p q st = Raise e ->
  (e = KeyError /\
   (ob !! (alpha p, alpha q) = None \/ ob !! (beta p, beta q) = None)) \/
  (e = TypeError /\
   exists re im,
     ob !! (alpha p, alpha q) = Some (PyComplex re im) \/
     ob !! (beta p, beta q) = Some (PyComplex re im)).
Proof.
  unfold one_body_step, dict_getitem.
  destruct (ob !! (alpha p, alpha q)) as [[x|re im]|]; simpl.
  - destruct (ob !! (beta p, beta q)) as [[y|re im]|]; simpl.
    + discriminate.
    + intros [= <-]. right. eauto.
    + intros [= <-]. left. auto.
  - intros [= <-]. right. eauto.
  - intros [= <-]. left. auto.
Qed.

(* ===================================================================== *)
(** * Further properties of the expansion *)
(* ===================================================================== *)

(** X1. When [save] gets through the expansion, every one-body cell in
    range holds the truncated value found at its doubled key: the alpha
    matrix from [(2p+1, 2q+1)], the beta matrix from [(2p+2, 2q+2)], both
    keys being present with real values. *)
Theorem one_body_cells_from_keys nmo ob tb w :
  save_wavefunction nmo ob tb = Ok w ->
  forall p q, p < nmo -> q < nmo ->
    exists x y,
      ob !! (alpha p, alpha q) = Some (PyFloat x) /\
      ob !! (beta p, beta q) = Some (PyFloat y) /\
      one_body_coefficients_a w (p, q) = truncate_cell x /\
      one_body_coefficients_b w (p, q) = truncate_cell y.
Proof.
  intros Hsave p q Hp Hq.
  apply save_wavefunction_Ok in Hsave as (a & b & st & Hone & _ & ->).
  destruct (expand_one_body_cells nmo ob a b Hone p q Hp Hq) as [Ha Hb].
  exists (a (p, q)), (b (p, q)). auto.
Qed.

(** The one-body loops return exactly when every doubled key in range is
    present with a real value. *)
Lemma expand_one_body_returns_iff nmo ob :
  is_ok (expand_one_body nmo ob) = true <->
  (forall p q, p < nmo -> q < nmo ->
     exists x y, ob !! (alpha p, alpha q) = Some (PyFloat x) /\
                 ob !! (beta p, beta q) = Some (PyFloat y)).
Proof.
  split.
  - intros Hok p q Hp Hq.
    destruct (expand_one_body nmo ob) as [[a b]|] eqn:E; [|discriminate].
    destruct (expand_one_body_cells nmo ob a b E p q Hp Hq). eauto.
  - intros Hall. unfold expand_one_body.
    destruct (for_each_total (fun _ => True) (range nmo)
      (fun p => for_each (range nmo) (fun q => one_body_step ob p q)))
      with (s := (@np_zeros idx2, @np_zeros idx2)) as (s' & -> & _);
      [|exact I|reflexivity].
    intros p s Hp _. apply elem_of_range in Hp.
    apply (for_each_total (fun _ => True)); [|exact I].
    intros q t Hq _. apply elem_of_range in Hq.
    destruct (Hall p q Hp Hq) as (x & y & Hx & Hy).
    unfold one_body_step, dict_getitem. rewrite Hx, Hy. simpl. eauto.
Qed.

(** The two-body loops return exactly when every key they test in range
    is absent or holds a real value. *)
Lemma expand_two_body_returns_iff nmo tb :
  is_ok (expand_two_body nmo tb) = true <->
  (forall c name v, in_shape nmo c -> tb !! own_key name c = Some v ->
     exists x, v = PyFloat x).
Proof.
  rewrite expand_two_body_quadruples. split.
  - intros Hok c name v Hc Hv.
    destruct (for_each _ _ _) as [st|] eqn:E; [|discriminate].
    apply elem_of_quadruples in Hc.
    destruct (for_each_Ok_each _ _ c _ _ Hc E) as (t & t' & Ht).
    eapply two_body_step_Ok_real; eauto.
  - intros Hall.
    destruct (for_each_total (fun _ => True) (quadruples nmo)
      (two_body_step tb))
      with (s := Blocks np_zeros np_zeros np_zeros np_zeros)
      as (s' & -> & _); [|exact I|reflexivity].
    intros c s Hc _. apply elem_of_quadruples in Hc.
    destruct (two_body_step tb c s) as [s'|e] eqn:E; [eauto|].
    apply two_body_step_Raise in E as (_ & name & re & im & Hv).
    destruct (Hall c name _ Hc Hv) as [x [=]].
Qed.

(** X2. The expansion of [save] returns its six arrays exactly when every
    doubled one-body key in range is present with a real value and every
    two-body key tested in range is absent or holds a real value. *)
Theorem save_wavefunction_returns_iff nmo ob tb :
  is_ok (save_wavefunction nmo ob tb) = true <->
  (forall p q, p < nmo -> q < nmo ->
     exists x y, ob !! (alpha p, alpha q) = Some (PyFloat x) /\
                 ob !! (beta p, beta q) = Some (PyFloat y)) /\
  (forall c name v, in_shape nmo c -> tb !! own_key name c = Some v ->
     exists x, v = PyFloat x).
Proof.
  rewrite <- expand_one_body_returns_iff, <- expand_two_body_returns_iff.
  unfold save_wavefunction.
  destruct (expand_one_body nmo ob) as [ab|]; simpl;
    [|split; [discriminate|intros [[=] _]]].
  destruct (expand_two_body nmo tb) as [st|]; simpl; intuition discriminate.
Qed.

(** X3. The expansion raises nothing but [KeyError], over an absent
    one-body key in range, and [TypeError], over a complex value at a
    one-body key in range or at a two-body key tested in range. *)
Theorem save_wavefunction_errors nmo ob tb e :
  save_wavefunction nmo ob tb = Raise e ->
  (e = KeyError /\
   exists p q, p < nmo /\ q < nmo /\
     (ob !! (alpha p, alpha q) = None \/ ob !! (beta p, beta q) = None)) \/
  (e = TypeError /\
   ((exists p q re im, p < nmo /\ q < nmo /\
       (ob !! (alpha p, alpha q) = Some (PyComplex re im) \/
        ob !! (beta p, beta q) = Some (PyComplex re im))) \/
    (exists c name re im, in_shape nmo c /\
       tb !! own_key name c = Some (PyComplex re im)))).
Proof.
  unfold save_wavefunction.
  destruct (expand_one_body nmo ob) as [ab|e1] eqn:Hone; simpl.
  - rewrite expand_two_body_quadruples.
    destruct (for_each _ _ _) as [st|e2] eqn:Htwo; simpl; [discriminate|].
    intros [= <-]. apply for_each_Raise in Htwo as (c & s & Hc & Hstep).
    apply elem_of_quadruples in Hc.
    apply two_body_step_Raise in Hstep as (-> & name & re & im & Hv).
    right. split; [reflexivity|]. right. eauto 8.
  - intros [= <-]. unfold expand_one_body in Hone.
    apply for_each_Raise in Hone as (p & s & Hp & Hone).
    apply for_each_Raise in Hone as (q & s' & Hq & Hstep).
    apply elem_of_range in Hp, Hq.
    apply one_body_step_Raise in Hstep
      as [(-> & Hnone)|(-> & re & im & Hcplx)].
    + left. eauto 8.
    + right. split; [reflexivity|]. left. eauto 10.
Qed.

Lemma one_body_outside_zero nmo ob a b :
  expand_one_body nmo ob = Ok (a, b) ->
  forall p q, ~ (p < nmo /\ q < nmo) ->
    a (p, q) = 0%float /\ b (p, q) = 0%float.
Proof.
  intros Hrun p q Hout.
  change (fst (a, b) (p, q) = 0%float /\ snd (a, b) (p, q) = 0%float).
  revert Hrun. unfold expand_one_body.
  apply (for_each_inv (fun st : matrix * matrix =>
           fst st (p, q) = 0%float /\ snd st (p, q) = 0%float));
    [|split; reflexivity].
  intros p' s1 s1' Hp' Hs1. apply elem_of_range in Hp'.
  apply (for_each_inv (fun st : matrix * matrix =>
           fst st (p, q) = 0%float /\ snd st (p, q) = 0%float));
    [|exact Hs1].
  intros q' s2 s2' Hq' [Ha Hb] Hstep. apply elem_of_range in Hq'.
  apply one_body_step_Ok in Hstep as (x & y & _ & _ & Hfst & Hsnd).
  rewrite Hfst, Hsnd, !decide_False; [auto| |];
    intros [= -> ->]; tauto.
Qed.

Lemma two_body_outside_zero nmo tb st :
  expand_two_body nmo tb = Ok st ->
  forall name c, ~ in_shape nmo c -> block_of name st c = 0%float.
Proof.
  rewrite expand_two_body_quadruples. intros Hrun name c Hout. revert Hrun.
  apply (for_each_inv (fun st => block_of name st c = 0%float));
    [|now destruct name].
  intros c' s s' Hc' Hs Hstep. apply elem_of_quadruples in Hc'.
  rewrite (two_body_step_cells _ _ _ _ Hstep), !put_outside; [exact Hs| |];
    intros Hin; apply Hout; eapply in_orbit_in_shape; eauto.
Qed.

(** X4. The expansion writes inside the shape only: a cell with an index
    at or beyond [nmo] is zero in all six arrays. *)
Theorem cells_outside_shape_zero nmo ob tb w :
  save_wavefunction nmo ob tb = Ok w ->
  (forall p q, ~ (p < nmo /\ q < nmo) ->
     one_body_coefficients_a w (p, q) = 0%float /\
     one_body_coefficients_b w (p, q) = 0%float) /\
  (forall name c, ~ in_shape nmo c ->
     block_of name (two_body w) c = 0%float).
Proof.
  intros Hsave.
  apply save_wavefunction_Ok in Hsave as (a & b & st & Hone & Htwo & ->).
  simpl. split.
  - intros p q Hout.
    destruct (one_body_outside_zero nmo ob a b Hone p q Hout) as [Ha Hb].
    unfold truncate. now rewrite Ha, Hb.
  - intros name c Hout. rewrite block_of_truncate_blocks.
    now rewrite (two_body_outside_zero nmo tb st Htwo name c Hout).
Qed.

(** X5. A cell of a block is zero when no position of its orbit carries
    the alpha-alpha key or the block's own key. *)
Theorem orbit_without_key_zero nmo ob tb w name j :
  save_wavefunction nmo ob tb = Ok w ->
  (forall c, in_orbit j c ->
     tb !! aa_key c = None /\ tb !! own_key name c = None) ->
  block_of name (two_body w) j = 0%float.
Proof.
  intros Hsave Hnone.
  apply save_wavefunction_Ok in Hsave as (a & b & st & _ & Htwo & ->).
  simpl. rewrite block_of_truncate_blocks.
  enough (block_of name st j = 0%float) as -> by reflexivity.
  revert Htwo. rewrite expand_two_body_quadruples.
  apply (for_each_inv (fun st => block_of name st j = 0%float));
    [|now destruct name].
  intros c s s' _ Hs Hstep.
  rewrite (two_body_step_cells _ _ _ _ Hstep).
  destruct (decide (in_orbit c j)) as [Hin|Hout].
  - apply in_orbit_sym in Hin. destruct (Hnone c Hin) as [-> ->].
    now rewrite !put_None.
  - now rewrite !put_outside.
Qed.

(** X6. When [c] is the only position of its orbit that carries any of
    the four keys, every block holds on the whole orbit its own term at
    [c], or failing that the alpha-alpha term at [c], or failing that
    zero, truncated: the block's own term overrides the alpha-alpha fill. *)
Theorem lone_key_fills_orbit nmo ob tb w c :
  save_wavefunction nmo ob tb = Ok w ->
  in_shape nmo c ->
  (forall j name, in_orbit c j -> j <> c -> tb !! own_key name j = None) ->
  forall name j, in_orbit c j ->
    block_of name (two_body w) j
    = truncate_cell
        (term_or (tb !! own_key name c) (term_or (tb !! aa_key c) 0)).
Proof.
  intros Hsave Hc Hlone name j Hj.
  apply save_wavefunction_Ok in Hsave as (a & b & st & _ & Htwo & ->).
  simpl. rewrite block_of_truncate_blocks. f_equal.
  set (final := term_or (tb !! own_key name c) (term_or (tb !! aa_key c) 0)).
  revert j Hj Htwo.
  enough (Hall : expand_two_body nmo tb = Ok st ->
            forall j, in_orbit c j -> block_of name st j = final)
    by (intros j Hj Htwo; now apply Hall).
  rewrite expand_two_body_quadruples.
  (* other iterations leave the orbit of [c] as it is *)
  assert (Hother : forall c' s s', c' <> c ->
            two_body_step tb c' s = Ok s' ->
            forall j, in_orbit c j -> block_of name s' j = block_of name s j).
  { intros c' s s' Hne Hstep j Hj.
    rewrite (two_body_step_cells _ _ _ _ Hstep).
    destruct (decide (in_orbit c' j)) as [Hin|Hout].
    - assert (Hc' : in_orbit c c')
        by (eapply in_orbit_trans; [exact Hj|now apply in_orbit_sym]).
      pose proof (Hlone c' AA Hc' Hne) as Haa. simpl in Haa.
      rewrite (Hlone c' name Hc' Hne), Haa.
      now rewrite !put_None.
    - now rewrite !put_outside. }
  (* the iteration at [c] sets it from zero, and resets it to the same *)
  assert (Hat : forall s s', two_body_step tb c s = Ok s' ->
            forall j, in_orbit c j ->
              block_of name s j = 0%float \/ block_of name s j = final ->
              block_of name s' j = final).
  { intros s s' Hstep j Hj Hbefore.
    rewrite (two_body_step_cells _ _ _ _ Hstep), !put_inside by exact Hj.
    subst final.
    destruct (tb !! own_key name c) as [[y|re im]|];
      destruct (tb !! aa_key c) as [[x|re' im']|]; simpl in *;
      destruct Hbefore; congruence. }
  apply (for_each_establish_from
           (fun s => forall j, in_orbit c j ->
              block_of name s j = 0%float \/ block_of name s j = final)
           (fun s => forall j, in_orbit c j -> block_of name s j = final)
           (quadruples nmo) (two_body_step tb) c).
  - now apply elem_of_quadruples.
  - intros c' s s' _ Hs Hstep j Hj.
    destruct (decide (c' = c)) as [->|Hne].
    + right. eapply Hat; eauto.
    + rewrite (Hother c' s s' Hne Hstep j Hj). auto.
  - intros s s' Hs Hstep j Hj. eapply Hat; eauto.
  - intros c' s s' _ _ Hs Hstep j Hj.
    destruct (decide (c' = c)) as [->|Hne].
    + eapply Hat; eauto.
    + rewrite (Hother c' s s' Hne Hstep j Hj). auto.
  - intros j _. left. now destruct name.
Qed.
(* ===================================================================== *)
(** * Complex terms and float64 arrays *)
(* ===================================================================== *)

(** The two-body loops raise nothing but [TypeError]. *)
Lemma expand_two_body_Raise nmo tb e :
  expand_two_body nmo tb = Raise e -> e = TypeError.
Proof.
  rewrite expand_two_body_quadruples. intros H.
  apply for_each_Raise in H as (c & s & _ & H).
  now apply two_body_step_Raise in H as [-> _].
Qed.

(** C2, as the code has it.  A complex term is never stored, as it is or
    conjugated: when the two-body map holds a complex value under a key
    that one of the four tests meets for a quadruple in range, the first
    assignment of that term to a float64 block raises [TypeError], so the
    two-body loops raise [TypeError] and [save] returns no array at all,
    whatever the one-body map. *)
Theorem complex_term_raises_TypeError nmo tb c name re im :
  in_shape nmo c ->
  tb !! own_key name c = Some (PyComplex re im) ->
  expand_two_body nmo tb = Raise TypeError /\
  (forall ob, is_ok (save_wavefunction nmo ob tb) = false).
Proof.
  intros Hc Hv.
  assert (H : expand_two_body nmo tb = Raise TypeError).
  { destruct (expand_two_body nmo tb) as [st|e] eqn:E.
    - exfalso.
      assert (Hok : is_ok (expand_two_body nmo tb) = true) by now rewrite E.
      destruct (proj1 (expand_two_body_returns_iff nmo tb) Hok
                  c name _ Hc Hv) as [x Hx].
      discriminate Hx.
    - f_equal. exact (expand_two_body_Raise _ _ _ E). }
  split; [exact H|].
  intros ob. unfold save_wavefunction. rewrite H.
  now destruct (expand_one_body nmo ob).
Qed.

(** The entry [(1,2,2,1) = 0.1+0.2i] on one spatial orbital: met by the
    alpha-beta test at [(0,0,0,0)], refused by [block_ab]. *)
Lemma complex_term_raises_TypeError_witness :
  own_key AB (0, 0, 0, 0) = (1, 2, 2, 1)%Z /\
  expand_two_body 1 complex_two_body = Raise TypeError /\
  (forall ob, is_ok (save_wavefunction 1 ob complex_two_body) = false).
Proof.
  split; [reflexivity|].
  apply (complex_term_raises_TypeError 1 complex_two_body (0, 0, 0, 0) AB
           0.1 0.2).
  - unfold in_shape. lia.
  - vm_compute. reflexivity.
Defined.

(* ===================================================================== *)
(** * Entries beyond the requested orbitals, and the shape *)
(* ===================================================================== *)

(** C3, as the code has it.  [save] makes no check of [nmo] against the
    indices of the store: an entry with a spin-orbital index above
    [2 * nmo] is never looked up, and the outcome, returned arrays or
    raised error, is that of the store with all such entries removed.
    Nothing is stored out of range either: in the arrays returned, every
    cell with an index at or above [nmo] still holds the zero of its
    allocation. *)
Theorem oversized_entries_ignored nmo ob tb :
  save_wavefunction nmo ob tb
  = save_wavefunction nmo (fitting_one_body nmo ob)
      (fitting_two_body nmo tb) /\
  (forall w,
     save_wavefunction nmo ob tb = Ok w ->
     (forall p q, ~ (p < nmo /\ q < nmo) ->
        one_body_coefficients_a w (p, q) = 0%float /\
        one_body_coefficients_b w (p, q) = 0%float) /\
     (forall name c, ~ in_shape nmo c ->
        block_of name (two_body w) c = 0%float)).
Proof.
  split.
  - unfold save_wavefunction.
    now rewrite expand_one_body_fitting, expand_two_body_fitting.
  - intros w Hsave.
    apply save_wavefunction_Ok in Hsave as (a & b & st & Hone & Htwo & ->).
    simpl. split.
    + intros p q Hpq.
      destruct (one_body_outside_zero _ _ _ _ Hone p q Hpq) as [Ha Hb].
      unfold truncate. rewrite Ha, Hb. split; reflexivity.
    + intros name c Hc. rewrite block_of_truncate_blocks.
      now rewrite (two_body_outside_zero _ _ _ Htwo name c Hc).
Qed.

(** The record that mentions spin orbital 3, on one spatial orbital: the
    expansion returns, and has stored nothing at the spatial index 1 that
    spin orbital 3 would double to. *)
Lemma oversized_entries_ignored_witness :
  match save_wavefunction 1 oversized_one_body oversized_two_body with
  | Ok w =>
      save_wavefunction 1 (fitting_one_body 1 oversized_one_body)
        (fitting_two_body 1 oversized_two_body) = Ok w /\
      one_body_coefficients_a w (1, 1) = 0%float /\
      block_of AA (two_body w) (1, 1, 1, 1) = 0%float
  | Raise _ => False
  end.
Proof.
  destruct (save_wavefunction 1 oversized_one_body oversized_two_body)
    as [w|e] eqn:E; [|vm_compute in E; discriminate E].
  destruct (oversized_entries_ignored 1 oversized_one_body
              oversized_two_body) as [Hsame Hzero].
  destruct (Hzero w E) as [Hone Htwo].
  split; [now rewrite <- Hsame|]. split.
  - apply (Hone 1 1). lia.
  - apply (Htwo AA (1, 1, 1, 1)). unfold in_shape. lia.
Defined.

(* ===================================================================== *)
(** * What one row does to each part of the record *)
(* ===================================================================== *)

(** With its value converted, a row is always stored. *)
Lemma store_row_value_Ok a_1 a_2 a_3 a_4 v st :
  exists st', store_row a_1 a_2 a_3 a_4 (Ok v) st = Ok st'.
Proof.
  unfold store_row.
  destruct ((a_4 =? 0)%Z && (a_3 =? 0)%Z), (a_2 =? 0)%Z, (a_1 =? 0)%Z;
    simpl; eauto.
Qed.

(** The four places a row can go to, by its indices. *)
Lemma store_row_cases a_1 a_2 a_3 a_4 v st st' :
  store_row a_1 a_2 a_3 a_4 (Ok v) st = Ok st' ->
  (a_1 = 0%Z /\ a_2 = 0%Z /\ a_3 = 0%Z /\ a_4 = 0%Z /\
   st' = Integrals (PyScalar v) (spinor st) (one_body_int st)
                   (two_body_int st)) \/
  (a_1 <> 0%Z /\ a_2 = 0%Z /\ a_3 = 0%Z /\ a_4 = 0%Z /\
   st' = Integrals (e_core st) (<[a_1 := v]> (spinor st))
                   (one_body_int st) (two_body_int st)) \/
  (a_2 <> 0%Z /\ a_3 = 0%Z /\ a_4 = 0%Z /\
   st' = Integrals (e_core st) (spinor st)
                   (<[(a_1, a_2) := v]> (one_body_int st))
                   (two_body_int st)) \/
  ((a_3 <> 0%Z \/ a_4 <> 0%Z) /\
   st' = Integrals (e_core st) (spinor st) (one_body_int st)
                   (<[(a_1, a_2, a_3, a_4) := v]> (two_body_int st))).
Proof.
  unfold store_row.
  destruct (a_4 =? 0)%Z eqn:E4, (a_3 =? 0)%Z eqn:E3, (a_2 =? 0)%Z eqn:E2,
    (a_1 =? 0)%Z eqn:E1; simpl; intros [= <-];
    rewrite ?Z.eqb_eq, ?Z.eqb_neq in *; tauto.
Qed.

Section MoreReading.

Variable py_int : string -> option Z.
Variable py_float : string -> option float.

(* ===================================================================== *)
(** * Why a row is not consumed *)
(* ===================================================================== *)

Lemma int_at_Raise r k e :
  int_at py_int [r] 0 k = Raise e ->
  (e = IndexError /\ length r <= k) \/
  (e = ValueError /\ exists tok, r !! k = Some tok /\ py_int tok = None).
Proof.
  unfold int_at, list_getitem. simpl.
  destruct (r !! k) as [tok|] eqn:E; simpl.
  - destruct (py_int tok) eqn:Etok; [discriminate|].
    intros [= <-]. right. eauto.
  - intros [= <-]. left. split; [reflexivity|]. now apply lookup_ge_None.
Qed.

Lemma float_at_Raise r k e :
  float_at py_float [r] 0 k = Raise e ->
  (e = IndexError /\ length r <= k) \/
  (e = ValueError /\ exists tok, r !! k = Some tok /\ py_float tok = None).
Proof.
  unfold float_at, list_getitem. simpl.
  destruct (r !! k) as [tok|] eqn:E; simpl.
  - destruct (py_float tok) eqn:Etok; [discriminate|].
    intros [= <-]. right. eauto.
  - intros [= <-]. left. split; [reflexivity|]. now apply lookup_ge_None.
Qed.

(** A row raises [IndexError] for a missing column and [ValueError] for a
    token that is no number in a column it reads. *)
Lemma consume_row_Raise cplx r st e :
  consume_row py_int py_float cplx r st = Raise e ->
  (e = IndexError /\ length r < row_width cplx) \/
  (e = ValueError /\
   ((exists k tok, k < 4 /\ r !! (value_columns cplx + k) = Some tok /\
                   py_int tok = None) \/
    (exists k tok, k < value_columns cplx /\ r !! k = Some tok /\
                   py_float tok = None))).
Proof.
  assert (Hint : forall k e', k < 4 ->
    int_at py_int [r] 0 (value_columns cplx + k) = Raise e' ->
    (e' = IndexError /\ length r < row_width cplx) \/
    (e' = ValueError /\
     ((exists k tok, k < 4 /\ r !! (value_columns cplx + k) = Some tok /\
                     py_int tok = None) \/
      (exists k tok, k < value_columns cplx /\ r !! k = Some tok /\
                     py_float tok = None)))).
  { intros k e' Hk H.
    apply int_at_Raise in H as [[-> Hlen]|(-> & tok & Htok & Hnone)].
    - left. split; [reflexivity|]. unfold row_width. lia.
    - right. split; [reflexivity|]. left. eauto. }
  assert (Hfloat : forall k e', k < value_columns cplx ->
    float_at py_float [r] 0 k = Raise e' ->
    (e' = IndexError /\ length r < row_width cplx) \/
    (e' = ValueError /\
     ((exists k tok, k < 4 /\ r !! (value_columns cplx + k) = Some tok /\
                     py_int tok = None) \/
      (exists k tok, k < value_columns cplx /\ r !! k = Some tok /\
                     py_float tok = None)))).
  { intros k e' Hk H.
    apply float_at_Raise in H as [[-> Hlen]|(-> & tok & Htok & Hnone)].
    - left. split; [reflexivity|]. unfold row_width. lia.
    - right. split; [reflexivity|]. right. eauto. }
  unfold consume_row. intros H.
  destruct cplx; unfold complex_row, real_row in H; simpl in Hint, Hfloat.
  - destruct (int_at py_int [r] 0 2) eqn:E1; cbn [bind] in H;
      [|injection H as <-; apply (Hint 0); [lia|exact E1]].
    destruct (int_at py_int [r] 0 3) eqn:E2; cbn [bind] in H;
      [|injection H as <-; apply (Hint 1); [lia|exact E2]].
    destruct (int_at py_int [r] 0 4) eqn:E3; cbn [bind] in H;
      [|injection H as <-; apply (Hint 2); [lia|exact E3]].
    destruct (int_at py_int [r] 0 5) eqn:E4; cbn [bind] in H;
      [|injection H as <-; apply (Hint 3); [lia|exact E4]].
    apply store_row_error in H.
    destruct (float_at py_float [r] 0 0) eqn:F1; cbn [bind] in H;
      [|injection H as <-; apply (Hfloat 0); [lia|exact F1]].
    destruct (float_at py_float [r] 0 1) eqn:F2; cbn [bind] in H;
      [discriminate|injection H as <-; apply (Hfloat 1); [lia|exact F2]].
  - destruct (int_at py_int [r] 0 1) eqn:E1; cbn [bind] in H;
      [|injection H as <-; apply (Hint 0); [lia|exact E1]].
    destruct (int_at py_int [r] 0 2) eqn:E2; cbn [bind] in H;
      [|injection H as <-; apply (Hint 1); [lia|exact E2]].
    destruct (int_at py_int [r] 0 3) eqn:E3; cbn [bind] in H;
      [|injection H as <-; apply (Hint 2); [lia|exact E3]].
    destruct (int_at py_int [r] 0 4) eqn:E4; cbn [bind] in H;
      [|injection H as <-; apply (Hint 3); [lia|exact E4]].
    apply store_row_error in H.
    destruct (float_at py_float [r] 0 0) eqn:F1; cbn [bind] in H;
      [discriminate|injection H as <-; apply (Hfloat 0); [lia|exact F1]].
Qed.

(** A readable row is consumed from every state. *)
Lemma consume_row_total cplx r st :
  ~ unreadable py_int py_float cplx r ->
  exists st', consume_row py_int py_float cplx r st = Ok st'.
Proof.
  intros Hread.
  destruct (consume_row py_int py_float cplx r st) as [st'|e] eqn:E;
    [eauto|].
  exfalso. apply Hread. unfold unreadable.
  apply consume_row_Raise in E as [[_ H]|[_ [H|H]]]; auto.
Qed.


(* ===================================================================== *)
(** * Further properties of the reading *)
(* ===================================================================== *)

(** The reading returns a record exactly when there is a data row and
    every data row has the columns the loop body reads, with ints in the
    index columns and floats in the value columns. *)
Lemma reading_returns_iff file :
  is_ok (get_integrals py_int py_float file) = true <->
  data_rows file <> [] /\
  forall r, r ∈ data_rows file ->
    ~ unreadable py_int py_float (is_complex (data_rows file)) r.
Proof.
  rewrite get_integrals_consume_rows. unfold consume_rows, list_getitem.
  set (rows := data_rows file). split.
  - intros Hok. destruct rows as [|first rows'] eqn:Hrows; [discriminate|].
    split; [discriminate|]. intros r Hr.
    change ((first :: rows') !! 0) with (Some first) in Hok.
    cbn [bind] in Hok.
    destruct (for_each _ _ _) as [st|] eqn:E; [|discriminate].
    destruct (for_each_Ok_each _ _ r _ _ Hr E) as (t & t' & Ht).
    eapply consume_row_readable; eauto.
  - intros [Hne Hall]. destruct rows as [|first rows'] eqn:Hrows;
      [congruence|].
    change ((first :: rows') !! 0) with (Some first). cbn [bind].
    destruct (for_each_total (fun _ => True) (first :: rows')
      (consume_row py_int py_float (is_complex (first :: rows'))))
      with (s := Integrals (PyInt 0) ∅ ∅ ∅) as (s' & -> & _);
      [|exact I|reflexivity].
    intros r s Hr _.
    destruct (consume_row_total (is_complex (first :: rows')) r s)
      as [s' Hs']; eauto.
Qed.

(** The reading raises [IndexError] when there is no data row or a row
    is shorter than the columns read, and [ValueError] when a token in an
    index column is no int or one in a value column is no float; it
    raises nothing else. *)
Lemma reading_raises file e :
  get_integrals py_int py_float file = Raise e ->
  (e = IndexError /\
   (data_rows file = [] \/
    exists r, r ∈ data_rows file /\
              length r < row_width (is_complex (data_rows file)))) \/
  (e = ValueError /\
   exists r, r ∈ data_rows file /\
     ((exists k tok,
         k < 4 /\
         r !! (value_columns (is_complex (data_rows file)) + k) = Some tok /\
         py_int tok = None) \/
      (exists k tok,
         k < value_columns (is_complex (data_rows file)) /\
         r !! k = Some tok /\ py_float tok = None))).
Proof.
  rewrite get_integrals_consume_rows. unfold consume_rows, list_getitem.
  destruct (data_rows file !! 0) as [first|] eqn:Hfirst; simpl.
  - intros H. apply for_each_Raise in H as (r & st & Hr & H).
    apply consume_row_Raise in H as [[-> H]|[-> H]].
    + left. split; [reflexivity|]. right. eauto.
    + right. split; [reflexivity|]. eauto.
  - intros [= <-]. left. split; [reflexivity|]. left.
    now destruct (data_rows file).
Qed.

(** X7. [get_integrals] returns a record exactly when the exporter was
    started and exited with code 0, FCIDUMP could be opened and read,
    there is a data row after its header, and every data row has the columns the
    loop body reads, with ints in the index columns and floats in the
    value columns. *)
Theorem get_integrals_returns_iff env :
  (exists st, DIRAC_get_integrals py_int py_float env = inr st) <->
  exporter env = Some 0%Z /\
  exists file,
    fcidump env = Some file /\
    data_rows file <> [] /\
    forall r, r ∈ data_rows file ->
      ~ unreadable py_int py_float (is_complex (data_rows file)) r.
Proof.
  unfold DIRAC_get_integrals. split.
  - intros [st H].
    destruct (exporter env) as [errorcode|]; [|discriminate].
    destruct (errorcode =? 0)%Z eqn:Hcode; [|discriminate].
    apply Z.eqb_eq in Hcode as ->. split; [reflexivity|].
    destruct (fcidump env) as [file|]; [|discriminate].
    exists file. split; [reflexivity|].
    apply reading_returns_iff.
    now destruct (get_integrals py_int py_float file).
  - intros (-> & file & -> & Hrows). simpl.
    apply reading_returns_iff in Hrows.
    destruct (get_integrals py_int py_float file) as [st|e];
      [eauto|discriminate].
Qed.

(** X8. The exceptions of [get_integrals]: [EnvironmentError] when the
    exporter could not be started, [CalculationFailed] when it exited
    with a non-zero code, whatever FCIDUMP holds, an I/O error when
    FCIDUMP cannot be opened or read, and from the reading [IndexError]
    when there is no data row or a row is shorter than the columns read
    and [ValueError] when a token in an index column is no int or one in
    a value column is no float. *)
Theorem get_integrals_raises env e :
  DIRAC_get_integrals py_int py_float env = inl e ->
  (e = EnvironmentError /\ exporter env = None) \/
  (exists errorcode,
     e = CalculationFailed errorcode /\
     exporter env = Some errorcode /\ errorcode <> 0%Z) \/
  (e = OpenError /\ exporter env = Some 0%Z /\ fcidump env = None) \/
  (exists file,
     exporter env = Some 0%Z /\ fcidump env = Some file /\
     ((e = ReadingError IndexError /\
       (data_rows file = [] \/
        exists r, r ∈ data_rows file /\
                  length r < row_width (is_complex (data_rows file)))) \/
      (e = ReadingError ValueError /\
       exists r, r ∈ data_rows file /\
         ((exists k tok,
             k < 4 /\
             r !! (value_columns (is_complex (data_rows file)) + k)
             = Some tok /\
             py_int tok = None) \/
          (exists k tok,
             k < value_columns (is_complex (data_rows file)) /\
             r !! k = Some tok /\ py_float tok = None))))).
Proof.
  unfold DIRAC_get_integrals.
  destruct (exporter env) as [errorcode|];
    [|intros [= <-]; left; split; reflexivity].
  destruct (errorcode =? 0)%Z eqn:Hcode.
  - apply Z.eqb_eq in Hcode as ->.
    destruct (fcidump env) as [file|];
      [|intros [= <-]; right; right; left; split; [|split]; reflexivity].
    destruct (get_integrals py_int py_float file) as [st|e'] eqn:Hread;
      [discriminate|].
    intros [= <-]. right. right. right. exists file.
    split; [reflexivity|]. split; [reflexivity|].
    apply reading_raises in Hread as [[-> H] | [-> H]].
    + left. split; [reflexivity|exact H].
    + right. split; [reflexivity|exact H].
  - apply Z.eqb_neq in Hcode. intros [= <-]. right. left.
    exists errorcode. split; [reflexivity|]. split; [reflexivity|].
    exact Hcode.
Qed.

Lemma row_value_kind cplx r v :
  row_value py_float cplx r = Ok v -> of_kind cplx v.
Proof.
  unfold row_value. destruct cplx; intros H; inv_ok; reflexivity.
Qed.

(** Rows of one kind leave values of that kind. *)
Lemma consume_rows_kinds cplx rows st :
  for_each rows (consume_row py_int py_float cplx)
           (Integrals (PyInt 0) ∅ ∅ ∅) = Ok st ->
  map_Forall (fun _ v => of_kind cplx v) (spinor st) /\
  map_Forall (fun _ v => of_kind cplx v) (one_body_int st) /\
  map_Forall (fun _ v => of_kind cplx v) (two_body_int st) /\
  (e_core st = PyInt 0 \/
   exists v, e_core st = PyScalar v /\ of_kind cplx v).
Proof.
  apply (for_each_inv (fun st =>
    map_Forall (fun _ v => of_kind cplx v) (spinor st) /\
    map_Forall (fun _ v => of_kind cplx v) (one_body_int st) /\
    map_Forall (fun _ v => of_kind cplx v) (two_body_int st) /\
    (e_core st = PyInt 0 \/
     exists v, e_core st = PyScalar v /\ of_kind cplx v))).
  - intros r s s' _ (Hsp & Hone & Htwo & Hcore) Hrow.
    apply consume_row_Ok in Hrow as (a_1 & a_2 & a_3 & a_4 & v & _ & Hv & Hs).
    apply row_value_kind in Hv.
    apply store_row_cases in Hs
      as [(_ & _ & _ & _ & ->)|[(_ & _ & _ & _ & ->)|[(_ & _ & _ & ->)
         |(_ & ->)]]]; simpl; repeat split; eauto;
      apply map_Forall_insert_2; assumption.
  - simpl. repeat split; try apply map_Forall_empty. now left.
Qed.

Lemma get_integrals_Ok_rows file st :
  get_integrals py_int py_float file = Ok st ->
  for_each (data_rows file)
           (consume_row py_int py_float (is_complex (data_rows file)))
           (Integrals (PyInt 0) ∅ ∅ ∅) = Ok st.
Proof.
  rewrite get_integrals_consume_rows. unfold consume_rows.
  intros H. now apply bind_Ok in H as (first & _ & H).
Qed.

(** X9. The scalars of a record are of one kind: after a real-classified
    file every stored value is a Python float, after a complex-classified
    one every stored value is a Python complex; [e_core] is of that kind
    too unless it is still the initial int [0]. *)
Theorem record_of_one_kind file st :
  get_integrals py_int py_float file = Ok st ->
  (is_complex (data_rows file) = false ->
     (forall k v, spinor st !! k = Some v -> exists x, v = PyFloat x) /\
     (forall k v, one_body_int st !! k = Some v -> exists x, v = PyFloat x) /\
     (forall k v, two_body_int st !! k = Some v -> exists x, v = PyFloat x) /\
     (e_core st = PyInt 0 \/ exists x, e_core st = PyScalar (PyFloat x))) /\
  (is_complex (data_rows file) = true ->
     (forall k v, spinor st !! k = Some v ->
        exists re im, v = PyComplex re im) /\
     (forall k v, one_body_int st !! k = Some v ->
        exists re im, v = PyComplex re im) /\
     (forall k v, two_body_int st !! k = Some v ->
        exists re im, v = PyComplex re im) /\
     (e_core st = PyInt 0 \/
      exists re im, e_core st = PyScalar (PyComplex re im))).
Proof.
  intros H. apply get_integrals_Ok_rows, consume_rows_kinds in H.
  destruct H as (Hsp & Hone & Htwo & Hcore).
  assert (Hreal : forall v, of_kind false v -> exists x, v = PyFloat x)
    by (intros [x|re im] Hv; [eauto|discriminate Hv]).
  assert (Hcplx : forall v, of_kind true v -> exists re im, v = PyComplex re im)
    by (intros [x|re im] Hv; [discriminate Hv|eauto]).
  split; intros E; rewrite E in *; repeat split.
  - intros k v Hk. apply Hreal, (Hsp k v Hk).
  - intros k v Hk. apply Hreal, (Hone k v Hk).
  - intros k v Hk. apply Hreal, (Htwo k v Hk).
  - destruct Hcore as [?|(v & Hv & Hkind)]; [now left|].
    right. destruct (Hreal v Hkind) as [x ->]. eauto.
  - intros k v Hk. apply Hcplx, (Hsp k v Hk).
  - intros k v Hk. apply Hcplx, (Hone k v Hk).
  - intros k v Hk. apply Hcplx, (Htwo k v Hk).
  - destruct Hcore as [?|(v & Hv & Hkind)]; [now left|].
    right. destruct (Hcplx v Hkind) as (re & im & ->). eauto.
Qed.

(** X10. Every entry of [spinor] comes from a data row whose first index
    is not zero and whose other three are, every entry of [two_body_int]
    from a row whose third or fourth index is not zero, and [e_core] is
    the initial int [0] or the value of a row with four zero indices:
    each part of the record holds rows of one index pattern only. *)
Theorem entries_from_rows_by_pattern file st :
  get_integrals py_int py_float file = Ok st ->
  (forall a_1 v,
     spinor st !! a_1 = Some v ->
     a_1 <> 0%Z /\
     exists r,
       r ∈ data_rows file /\
       row_indices py_int (value_columns (is_complex (data_rows file))) r
         = Ok (a_1, 0%Z, 0%Z, 0%Z) /\
       row_value py_float (is_complex (data_rows file)) r = Ok v) /\
  (forall a_1 a_2 a_3 a_4 v,
     two_body_int st !! (a_1, a_2, a_3, a_4) = Some v ->
     (a_3 <> 0%Z \/ a_4 <> 0%Z) /\
     exists r,
       r ∈ data_rows file /\
       row_indices py_int (value_columns (is_complex (data_rows file))) r
         = Ok (a_1, a_2, a_3, a_4) /\
       row_value py_float (is_complex (data_rows file)) r = Ok v) /\
  (e_core st = PyInt 0 \/
   exists r v,
     r ∈ data_rows file /\
     row_indices py_int (value_columns (is_complex (data_rows file))) r
       = Ok (0%Z, 0%Z, 0%Z, 0%Z) /\
     row_value py_float (is_complex (data_rows file)) r = Ok v /\
     e_core st = PyScalar v).
Proof.
  rewrite get_integrals_consume_rows. unfold consume_rows.
  set (rows := data_rows file). set (cplx := is_complex rows).
  intros H. apply bind_Ok in H as (first & _ & H). revert H.
  apply (for_each_inv (fun st =>
    (forall a_1 v,
       spinor st !! a_1 = Some v ->
       a_1 <> 0%Z /\
       exists r, r ∈ rows /\
         row_indices py_int (value_columns cplx) r
           = Ok (a_1, 0%Z, 0%Z, 0%Z) /\
         row_value py_float cplx r = Ok v) /\
    (forall a_1 a_2 a_3 a_4 v,
       two_body_int st !! (a_1, a_2, a_3, a_4) = Some v ->
       (a_3 <> 0%Z \/ a_4 <> 0%Z) /\
       exists r, r ∈ rows /\
         row_indices py_int (value_columns cplx) r
           = Ok (a_1, a_2, a_3, a_4) /\
         row_value py_float cplx r = Ok v) /\
    (e_core st = PyInt 0 \/
     exists r v, r ∈ rows /\
       row_indices py_int (value_columns cplx) r
         = Ok (0%Z, 0%Z, 0%Z, 0%Z) /\
       row_value py_float cplx r = Ok v /\
       e_core st = PyScalar v))).
  - intros r s s' Hr (Hsp & Htwo & Hcore) Hrow.
    apply consume_row_Ok in Hrow as (b_1 & b_2 & b_3 & b_4 & w & Hi & Hv & Hs).
    apply store_row_cases in Hs
      as [(-> & -> & -> & -> & ->)|[(Hne & -> & -> & -> & ->)
         |[(_ & _ & _ & ->)|(Hne & ->)]]]; simpl;
      (split; [|split]); auto.
    + right. eauto 6.
    + intros a_1 v Hl.
      apply lookup_insert_Some in Hl as [[<- <-]|[_ Hl]]; eauto.
    + intros a_1 a_2 a_3 a_4 v Hl.
      apply lookup_insert_Some in Hl as [[[= <- <- <- <-] <-]|[_ Hl]]; eauto.
  - simpl. split; [|split].
    + intros a_1 v Hl. rewrite lookup_empty in Hl. discriminate.
    + intros a_1 a_2 a_3 a_4 v Hl. rewrite lookup_empty in Hl.
      discriminate.
    + now left.
Qed.


(** Storing a row and reading the record back at an index quadruple. *)
Lemma store_row_entry b_1 b_2 b_3 b_4 w st st' :
  store_row b_1 b_2 b_3 b_4 (Ok w) st = Ok st' ->
  forall idx,
    entry_of st' idx
    = if decide (idx = (b_1, b_2, b_3, b_4)) then Some w
      else entry_of st idx.
Proof.
  intros Hs [[[a_1 a_2] a_3] a_4].
  apply store_row_cases in Hs
    as [(-> & -> & -> & -> & ->)|[(Hne & -> & -> & -> & ->)
       |[(Hne & -> & -> & ->)|(Hne & ->)]]];
    unfold entry_of; simpl;
    destruct (a_4 =? 0)%Z eqn:E4, (a_3 =? 0)%Z eqn:E3,
      (a_2 =? 0)%Z eqn:E2, (a_1 =? 0)%Z eqn:E1; simpl;
    rewrite ?Z.eqb_eq, ?Z.eqb_neq in *; subst;
    rewrite ?lookup_insert;
    repeat case_decide; simplify_eq; try reflexivity; try lia;
    exfalso; intuition congruence.
Qed.

(** X11. Last write wins, in every part of the record: for the last data
    row that carries a given index quadruple, the record holds that row's
    value at the quadruple ([e_core] for four zeros, [spinor] for one
    index, [one_body_int] for two, [two_body_int] otherwise). *)
Theorem last_row_wins file pre r post idx v st :
  data_rows file = (pre ++ r :: post)%list ->
  row_indices py_int (value_columns (is_complex (data_rows file))) r
    = Ok idx ->
  row_value py_float (is_complex (data_rows file)) r = Ok v ->
  (forall r', r' ∈ post ->
     row_indices py_int (value_columns (is_complex (data_rows file))) r'
       <> Ok idx) ->
  get_integrals py_int py_float file = Ok st ->
  entry_of st idx = Some v.
Proof.
  intros Hrows Hidx Hval Hpost H. apply get_integrals_Ok_rows in H.
  set (cplx := is_complex (data_rows file)) in *.
  rewrite Hrows, for_each_concat in H.
  apply bind_Ok in H as (s1 & _ & H). simpl in H.
  destruct (consume_row py_int py_float cplx r s1) as [s2|] eqn:Hr;
    [|discriminate].
  apply consume_row_Ok in Hr as (b_1 & b_2 & b_3 & b_4 & w & Hi & Hv & Hs).
  assert (idx = (b_1, b_2, b_3, b_4)) as -> by congruence.
  assert (w = v) as -> by congruence.
  revert H.
  apply (for_each_inv (fun s => entry_of s (b_1, b_2, b_3, b_4) = Some v)).
  - intros r' s s' Hr' IH Hrow.
    apply consume_row_Ok in Hrow as (c_1 & c_2 & c_3 & c_4 & w & Hi' & _ & Hs').
    rewrite (store_row_entry _ _ _ _ _ _ _ Hs'), decide_False; [exact IH|].
    intros E. apply (Hpost r' Hr'). now rewrite Hi', E.
  - rewrite (store_row_entry _ _ _ _ _ _ _ Hs). now rewrite decide_True.
Qed.

(** X12. A record read from a complex-classified file is never expanded:
    for one spatial orbital or more the expansion raises, [KeyError] or
    [TypeError], before any array is returned. *)
Theorem complex_record_not_expanded file st nmo :
  get_integrals py_int py_float file = Ok st ->
  is_complex (data_rows file) = true ->
  0 < nmo ->
  exists e,
    save_wavefunction nmo (one_body_int st) (two_body_int st) = Raise e /\
    (e = KeyError \/ e = TypeError).
Proof.
  intros H Hcplx Hnmo.
  apply get_integrals_Ok_rows, consume_rows_kinds in H.
  rewrite Hcplx in H. destruct H as (_ & Hone & _ & _).
  unfold save_wavefunction.
  destruct (expand_one_body nmo (one_body_int st)) as [[a b]|e] eqn:E.
  - exfalso.
    destruct (expand_one_body_cells _ _ a b E 0 0 Hnmo Hnmo) as [Ha _].
    apply Hone in Ha. discriminate Ha.
  - exists e. split; [reflexivity|]. unfold expand_one_body in E.
    apply for_each_Raise in E as (p & s & _ & E).
    apply for_each_Raise in E as (q & s' & _ & E).
    apply one_body_step_Raise in E as [[-> _]|[-> _]]; auto.
Qed.

(** X13. A record read from a real-classified file always gets through
    the two-body loops, and the only error its expansion can raise is the
    [KeyError] of a one-body key that the file did not write. *)
Theorem real_record_expansion file st nmo :
  get_integrals py_int py_float file = Ok st ->
  is_complex (data_rows file) = false ->
  (exists blocks, expand_two_body nmo (two_body_int st) = Ok blocks) /\
  (forall e,
     save_wavefunction nmo (one_body_int st) (two_body_int st) = Raise e ->
     e = KeyError /\
     exists p q, p < nmo /\ q < nmo /\
       (one_body_int st !! (alpha p, alpha q) = None \/
        one_body_int st !! (beta p, beta q) = None)).
Proof.
  intros H Hreal.
  apply get_integrals_Ok_rows, consume_rows_kinds in H.
  rewrite Hreal in H. destruct H as (_ & Hone & Htwo & _).
  assert (Hfloat : forall v, of_kind false v -> exists x, v = PyFloat x)
    by (intros [x|re im] Hv; [eauto|discriminate Hv]).
  assert (Hblocks : exists blocks,
            expand_two_body nmo (two_body_int st) = Ok blocks).
  { apply expand_two_body_real. intros k v Hk. apply Hfloat, (Htwo k v Hk). }
  split; [exact Hblocks|]. intros e. unfold save_wavefunction.
  destruct Hblocks as [blocks ->].
  destruct (expand_one_body nmo (one_body_int st)) as [ab|e1] eqn:E; simpl;
    [discriminate|].
  intros [= <-]. unfold expand_one_body in E.
  apply for_each_Raise in E as (p & s & Hp & E).
  apply for_each_Raise in E as (q & s' & Hq & E).
  apply elem_of_range in Hp, Hq.
  apply one_body_step_Raise in E as [[-> Hnone]|(_ & re & im & [Hc|Hc])].
  - split; [reflexivity|]. eauto 8.
  - apply Hone in Hc. discriminate Hc.
  - apply Hone in Hc. discriminate Hc.
Qed.

End MoreReading.

(* ===================================================================== *)
(** * Electron counts *)
(* ===================================================================== *)

(** X14. The two counts [save] records add up to the number of electrons,
    and alpha exceeds beta by one for an odd number and by nothing for an
    even one; the counts are those of a singlet or a doublet whatever the
    molecule. *)
Theorem electron_counts_split nuc_charge_sum molecular_charge :
  let nelec := (nuc_charge_sum - molecular_charge)%Z in
  let calcinfo_nalpha :=
    fst (electron_counts nuc_charge_sum molecular_charge) in
  let calcinfo_nbeta :=
    snd (electron_counts nuc_charge_sum molecular_charge) in
  (calcinfo_nalpha + calcinfo_nbeta = nelec)%Z /\
  (calcinfo_nalpha - calcinfo_nbeta = nelec mod 2)%Z /\
  (0 <= calcinfo_nalpha - calcinfo_nbeta <= 1)%Z /\
  (0 <= nelec -> 0 <= calcinfo_nbeta <= calcinfo_nalpha)%Z.
Proof.
  unfold electron_counts. simpl.
  pose proof (Z.div_mod (nuc_charge_sum - molecular_charge) 2) as Hdm.
  pose proof (Z.mod_pos_bound (nuc_charge_sum - molecular_charge) 2) as Hb.
  repeat split; lia.
Qed.

(* ===================================================================== *)
(** * The further properties at sample records and files *)
(* ===================================================================== *)

(** The cell [(1, 1)] of the sample record. *)
Lemma one_body_cells_from_keys_witness :
  match save_wavefunction 2 h2_one_body h2_two_body with
  | Ok w =>
      exists x y,
        h2_one_body !! (alpha 1, alpha 1) = Some (PyFloat x) /\
        h2_one_body !! (beta 1, beta 1) = Some (PyFloat y) /\
        one_body_coefficients_a w (1, 1) = truncate_cell x /\
        one_body_coefficients_b w (1, 1) = truncate_cell y
  | Raise _ => False
  end.
Proof.
  destruct (save_wavefunction 2 h2_one_body h2_two_body) as [w|e] eqn:E;
    [|vm_compute in E; discriminate E].
  apply (one_body_cells_from_keys 2 h2_one_body h2_two_body w E 1 1); lia.
Defined.

(** The record with the single one-body entry raises [KeyError]. *)
Lemma save_wavefunction_errors_witness :
  save_wavefunction 1 lone_one_body ∅ = Raise KeyError /\
  ((KeyError = KeyError /\
    exists p q, p < 1 /\ q < 1 /\
      (lone_one_body !! (alpha p, alpha q) = None \/
       lone_one_body !! (beta p, beta q) = None)) \/
   (KeyError = TypeError /\
    ((exists p q re im, p < 1 /\ q < 1 /\
        (lone_one_body !! (alpha p, alpha q) = Some (PyComplex re im) \/
         lone_one_body !! (beta p, beta q) = Some (PyComplex re im))) \/
     (exists c name re im, in_shape 1 c /\
        (∅ : gmap (Z * Z * Z * Z) scalar) !! own_key name c
        = Some (PyComplex re im))))).
Proof.
  assert (H : save_wavefunction 1 lone_one_body ∅ = Raise KeyError)
    by (vm_compute; reflexivity).
  split; [exact H|].
  exact (save_wavefunction_errors 1 lone_one_body ∅ KeyError H).
Defined.

(** The sample record outside its shape. *)
Lemma cells_outside_shape_zero_witness :
  match save_wavefunction 2 h2_one_body h2_two_body with
  | Ok w =>
      (forall p q, ~ (p < 2 /\ q < 2) ->
         one_body_coefficients_a w (p, q) = 0%float /\
         one_body_coefficients_b w (p, q) = 0%float) /\
      (forall name c, ~ in_shape 2 c ->
         block_of name (two_body w) c = 0%float)
  | Raise _ => False
  end.
Proof.
  destruct (save_wavefunction 2 h2_one_body h2_two_body) as [w|e] eqn:E;
    [|vm_compute in E; discriminate E].
  exact (cells_outside_shape_zero 2 h2_one_body h2_two_body w E).
Defined.

Lemma h2_orbit_0110_empty (c : idx4) :
  in_orbit (0, 1, 1, 0) c ->
  h2_two_body !! aa_key c = None /\ h2_two_body !! own_key AA c = None.
Proof.
  intros [-> | [-> | [-> | ->]]]; vm_compute; split; reflexivity.
Defined.

(** The sample record has no key on the orbit of [(0,1,1,0)]. *)
Lemma orbit_without_key_zero_witness :
  (forall c, in_orbit (0, 1, 1, 0) c ->
     h2_two_body !! aa_key c = None /\
     h2_two_body !! own_key AA c = None) /\
  match save_wavefunction 2 h2_one_body h2_two_body with
  | Ok w => block_of AA (two_body w) (0, 1, 1, 0) = 0%float
  | Raise _ => False
  end.
Proof.
  split; [exact h2_orbit_0110_empty|].
  destruct (save_wavefunction 2 h2_one_body h2_two_body) as [w|e] eqn:E;
    [|vm_compute in E; discriminate E].
  exact (orbit_without_key_zero 2 h2_one_body h2_two_body w AA (0, 1, 1, 0)
           E h2_orbit_0110_empty).
Defined.

Lemma override_lone (j : idx4) (name : spin_block) :
  in_orbit (0, 0, 0, 0) j -> j <> (0, 0, 0, 0) ->
  override_two_body !! own_key name j = None.
Proof.
  intros [-> | [-> | [-> | ->]]] Hne; exfalso; now apply Hne.
Defined.

(** With [(1,1,1,1) = 0.675] and [(2,2,2,2) = 0.5] the beta-beta block
    holds [0.5] and the other three [0.675]. *)
Lemma lone_key_fills_orbit_witness :
  in_shape 1 (0, 0, 0, 0) /\
  (forall j name, in_orbit (0, 0, 0, 0) j -> j <> (0, 0, 0, 0) ->
     override_two_body !! own_key name j = None) /\
  match save_wavefunction 1 oversized_one_body override_two_body with
  | Ok w =>
      block_of AA (two_body w) (0, 0, 0, 0) = 0.675%float /\
      block_of BB (two_body w) (0, 0, 0, 0) = 0.5%float /\
      block_of AB (two_body w) (0, 0, 0, 0) = 0.675%float /\
      block_of BA (two_body w) (0, 0, 0, 0) = 0.675%float
  | Raise _ => False
  end.
Proof.
  assert (Hc : in_shape 1 (0, 0, 0, 0)) by (simpl; lia).
  split; [exact Hc|]. split; [exact override_lone|].
  destruct (save_wavefunction 1 oversized_one_body override_two_body)
    as [w|e] eqn:E; [|vm_compute in E; discriminate E].
  pose proof (lone_key_fills_orbit 1 oversized_one_body override_two_body w
                (0, 0, 0, 0) E Hc override_lone) as H.
  assert (H0 : in_orbit (0, 0, 0, 0) (0, 0, 0, 0)) by (left; reflexivity).
  repeat split.
  - exact (H AA _ H0).
  - exact (H BB _ H0).
  - exact (H AB _ H0).
  - exact (H BA _ H0).
Defined.

(** The exporter fails although the file in place is readable. *)
Lemma get_integrals_raises_witness :
  is_ok (get_integrals int_of_token float_of_token sample_file) = true /\
  DIRAC_get_integrals int_of_token float_of_token failed_exporter
  = inl (CalculationFailed 1) /\
  exists errorcode,
    CalculationFailed 1 = CalculationFailed errorcode /\
    exporter failed_exporter = Some errorcode /\ errorcode <> 0%Z.
Proof.
  assert (H : DIRAC_get_integrals int_of_token float_of_token
                failed_exporter = inl (CalculationFailed 1))
    by reflexivity.
  split; [vm_compute; reflexivity|]. split; [exact H|].
  destruct (get_integrals_raises int_of_token float_of_token
              failed_exporter (CalculationFailed 1) H)
    as [[Habs _] | [Hcode | [[Habs _] | (file & _ & _ & Hread)]]].
  - discriminate Habs.
  - exact Hcode.
  - discriminate Habs.
  - destruct Hread as [[Habs _] | [Habs _]]; discriminate Habs.
Defined.

(** The sample file is real and so are its values. *)
Lemma record_of_one_kind_witness :
  is_complex (data_rows sample_file) = false /\
  match get_integrals int_of_token float_of_token sample_file with
  | Ok st =>
      (forall k v, spinor st !! k = Some v -> exists x, v = PyFloat x) /\
      (forall k v, one_body_int st !! k = Some v ->
         exists x, v = PyFloat x) /\
      (forall k v, two_body_int st !! k = Some v ->
         exists x, v = PyFloat x) /\
      (e_core st = PyInt 0 \/ exists x, e_core st = PyScalar (PyFloat x))
  | Raise _ => False
  end.
Proof.
  assert (Hreal : is_complex (data_rows sample_file) = false)
    by (vm_compute; reflexivity).
  split; [exact Hreal|].
  destruct (get_integrals int_of_token float_of_token sample_file)
    as [st|e] eqn:E; [|vm_compute in E; discriminate E].
  exact (proj1 (record_of_one_kind int_of_token float_of_token
                  sample_file st E) Hreal).
Defined.

(** The parts of the sample record and the rows behind them. *)
Lemma entries_from_rows_by_pattern_witness :
  match get_integrals int_of_token float_of_token sample_file with
  | Ok st =>
      (forall a_1 a_2 a_3 a_4 v,
         two_body_int st !! (a_1, a_2, a_3, a_4) = Some v ->
         (a_3 <> 0%Z \/ a_4 <> 0%Z)) /\
      (forall a_1 v, spinor st !! a_1 = Some v -> a_1 <> 0%Z)
  | Raise _ => False
  end.
Proof.
  destruct (get_integrals int_of_token float_of_token sample_file)
    as [st|e] eqn:E; [|vm_compute in E; discriminate E].
  destruct (entries_from_rows_by_pattern int_of_token float_of_token
              sample_file st E) as (Hsp & Htwo & _).
  split.
  - intros a_1 a_2 a_3 a_4 v Hl. exact (proj1 (Htwo _ _ _ _ _ Hl)).
  - intros a_1 v Hl. exact (proj1 (Hsp _ _ Hl)).
Defined.

(** The key [(1, 1)] is written twice; the later value [0.75] stays. *)
Lemma last_row_wins_witness :
  match get_integrals int_of_token float_of_token repeated_key_file with
  | Ok st =>
      entry_of st (1, 1, 0, 0)%Z = Some (PyFloat 0.75) /\
      one_body_int st !! (1, 1)%Z = Some (PyFloat 0.75)
  | Raise _ => False
  end.
Proof.
  destruct (get_integrals int_of_token float_of_token repeated_key_file)
    as [st|e] eqn:E; [|vm_compute in E; discriminate E].
  assert (H : entry_of st (1, 1, 0, 0)%Z = Some (PyFloat 0.75)).
  { apply (last_row_wins int_of_token float_of_token repeated_key_file
             [["0.5"; "1"; "1"; "0"; "0"]; ["0.25"; "2"; "2"; "0"; "0"]]
             ["0.75"; "1"; "1"; "0"; "0"] []).
    - vm_compute; reflexivity.
    - vm_compute; reflexivity.
    - vm_compute; reflexivity.
    - intros r' Hr'. inversion Hr'.
    - exact E. }
  split; [exact H|exact H].
Defined.

(** The complex sample file is read and then refused by the expansion. *)
Lemma complex_record_not_expanded_witness :
  is_complex (data_rows complex_file) = true /\
  match get_integrals int_of_token float_of_token complex_file with
  | Ok st =>
      exists e,
        save_wavefunction 1 (one_body_int st) (two_body_int st) = Raise e /\
        (e = KeyError \/ e = TypeError)
  | Raise _ => False
  end.
Proof.
  assert (Hcplx : is_complex (data_rows complex_file) = true)
    by (vm_compute; reflexivity).
  split; [exact Hcplx|].
  destruct (get_integrals int_of_token float_of_token complex_file)
    as [st|e] eqn:E; [|vm_compute in E; discriminate E].
  apply (complex_record_not_expanded int_of_token float_of_token
           complex_file st 1 E Hcplx). lia.
Defined.

(** The real sample file: its two-body map is always expanded. *)
Lemma real_record_expansion_witness :
  is_complex (data_rows sample_file) = false /\
  match get_integrals int_of_token float_of_token sample_file with
  | Ok st => exists blocks, expand_two_body 2 (two_body_int st) = Ok blocks
  | Raise _ => False
  end.
Proof.
  assert (Hreal : is_complex (data_rows sample_file) = false)
    by (vm_compute; reflexivity).
  split; [exact Hreal|].
  destruct (get_integrals int_of_token float_of_token sample_file)
    as [st|e] eqn:E; [|vm_compute in E; discriminate E].
  exact (proj1 (real_record_expansion int_of_token float_of_token
                  sample_file st 2 E Hreal)).
Defined.

(* ===================================================================== *)
(** * Dicts as item lists *)
(* ===================================================================== *)

Lemma d_get_set_eq k v d : d_get k (d_set k v d) = Some v.
Proof.
  induction d as [|[k' v'] d IH]; simpl.
  - now rewrite String.eqb_refl.
  - destruct (String.eqb k' k) eqn:E; simpl; now rewrite E.
Qed.

Lemma d_get_set_ne k k' v d :
  k' <> k -> d_get k' (d_set k v d) = d_get k' d.
Proof.
  intros Hne. induction d as [|[k0 v0] d IH]; simpl.
  - apply String.eqb_neq in Hne. rewrite String.eqb_sym. now rewrite Hne.
  - destruct (String.eqb k0 k) eqn:E; simpl.
    + apply String.eqb_eq in E as ->.
      assert (String.eqb k k' = false) as ->
        by (apply String.eqb_neq; congruence).
      reflexivity.
    + now rewrite IH.
Qed.

Lemma d_get_set k k' v d :
  d_get k' (d_set k v d) = if String.eqb k k' then Some v else d_get k' d.
Proof.
  destruct (String.eqb k k') eqn:E.
  - apply String.eqb_eq in E as ->. apply d_get_set_eq.
  - apply String.eqb_neq in E. apply d_get_set_ne. congruence.
Qed.

(** Setting a key to the value it has changes nothing. *)
Lemma d_set_same k v d : d_get k d = Some v -> d_set k v d = d.
Proof.
  induction d as [|[k' v'] d IH]; simpl; [discriminate|].
  destruct (String.eqb k' k) eqn:E.
  - now intros [= ->].
  - intros H. now rewrite IH.
Qed.


Lemma d_mem_get k d : d_mem k d = true <-> exists v, d_get k d = Some v.
Proof.
  unfold d_mem. destruct (d_get k d); split; eauto.
  - discriminate.
  - intros [v Hv]. discriminate Hv.
Qed.

Lemma d_mem_false k d : d_mem k d = false <-> d_get k d = None.
Proof. unfold d_mem. destruct (d_get k d); split; congruence. Qed.

Lemma set_default_get k v k' d :
  d_get k' (set_default k v d)
  = match d_get k' d with
    | Some v' => Some v'
    | None => if String.eqb k k' then Some v else None
    end.
Proof.
  unfold set_default. destruct (d_mem k d) eqn:E.
  - destruct (d_get k' d) eqn:E'; [reflexivity|].
    destruct (String.eqb k k') eqn:Ek; [|reflexivity].
    apply String.eqb_eq in Ek as ->.
    apply d_mem_get in E as [v' Hv']. congruence.
  - rewrite d_get_set. apply d_mem_false in E.
    destruct (String.eqb k k') eqn:Ek.
    + apply String.eqb_eq in Ek as <-. now rewrite E.
    + now destruct (d_get k' d).
Qed.

(** The first element that fails a test. *)
Lemma find_Some_split {A : Type} (f : A -> bool) (l : list A) (x : A) :
  find f l = Some x <->
  exists pre post,
    l = (pre ++ x :: post)%list /\
    Forall (fun y => f y = false) pre /\ f x = true.
Proof.
  induction l as [|y l IH]; simpl.
  - split; [discriminate|]. intros (pre & post & H & _).
    now destruct pre.
  - destruct (f y) eqn:E.
    + split.
      * intros [= <-]. exists [], l. auto.
      * intros (pre & post & H & Hpre & Hx).
        destruct pre as [|z pre]; simpl in H; injection H as -> ->;
          [reflexivity|].
        inversion Hpre; congruence.
    + rewrite IH. split.
      * intros (pre & post & -> & Hpre & Hx).
        exists (y :: pre), post. auto.
      * intros (pre & post & H & Hpre & Hx).
        destruct pre as [|z pre]; simpl in H; injection H as -> ->;
          [congruence|].
        inversion Hpre; eauto.
Qed.

Lemma find_None_Forall {A : Type} (f : A -> bool) (l : list A) :
  find f l = None <-> Forall (fun y => f y = false) l.
Proof.
  induction l as [|y l IH]; simpl.
  - split; auto.
  - destruct (f y) eqn:E.
    + split; [discriminate|]. intros H. inversion H; congruence.
    + rewrite IH. split; [auto|]. intros H. now inversion H.
Qed.

(* ===================================================================== *)
(** * The steps of the check, by lookup *)
(* ===================================================================== *)

Lemma in_value_with_option name value sec :
  in_value name sec = true -> with_option name value sec = sec.
Proof. destruct sec as [s|d]; simpl; [reflexivity|]. now intros ->. Qed.

Lemma default_charge_get p p' :
  default_charge p = Done p' ->
  forall k,
    d_get k p'
    = if String.eqb "molecule" k
      then with_option "*charge" (VDict [(".charge", VStr "0")]) <$> d_get k p
      else d_get k p.
Proof.
  unfold default_charge.
  destruct (d_get "molecule" p) as [mol|] eqn:Hmol; [|discriminate].
  destruct (in_value "*charge" mol) eqn:Hin.
  - intros [= <-] k. destruct (String.eqb "molecule" k) eqn:E; [|reflexivity].
    apply String.eqb_eq in E as <-. rewrite Hmol. simpl.
    now rewrite in_value_with_option.
  - destruct mol as [s|m]; [discriminate|]. intros [= <-] k.
    rewrite d_get_set. destruct (String.eqb "molecule" k) eqn:E;
      [|reflexivity].
    apply String.eqb_eq in E as <-. rewrite Hmol. simpl in *.
    now rewrite Hin.
Qed.

Lemma default_4index_get p p' :
  default_4index p = Done p' ->
  forall k,
    d_get k p'
    = if String.eqb "dirac" k
      then with_option ".4index" (VStr "") <$> d_get k p
      else d_get k p.
Proof.
  unfold default_4index.
  destruct (d_get "dirac" p) as [dir|] eqn:Hdir; [|discriminate].
  destruct (in_value ".4index" dir) eqn:Hin.
  - intros [= <-] k. destruct (String.eqb "dirac" k) eqn:E; [|reflexivity].
    apply String.eqb_eq in E as <-. rewrite Hdir. simpl.
    now rewrite in_value_with_option.
  - destruct dir as [s|m]; [discriminate|]. intros [= <-] k.
    rewrite d_get_set. destruct (String.eqb "dirac" k) eqn:E;
      [|reflexivity].
    apply String.eqb_eq in E as <-. rewrite Hdir. simpl in *.
    now rewrite Hin.
Qed.

(** After the [.4index] step the DIRAC heading has the option. *)
Lemma default_4index_has p p' :
  default_4index p = Done p' ->
  exists dirac, d_get "dirac" p' = Some dirac /\
                in_value ".4index" dirac = true.
Proof.
  unfold default_4index.
  destruct (d_get "dirac" p) as [dir|] eqn:Hdir; [|discriminate].
  destruct (in_value ".4index" dir) eqn:Hin.
  - intros [= <-]. eauto.
  - destruct dir as [s|m]; [discriminate|]. intros [= <-].
    rewrite d_get_set_eq. eexists. split; [reflexivity|].
    simpl. unfold d_mem. now rewrite d_get_set_eq.
Qed.

Lemma default_charge_has p p' :
  default_charge p = Done p' ->
  exists molecule, d_get "molecule" p' = Some molecule /\
                   in_value "*charge" molecule = true.
Proof.
  unfold default_charge.
  destruct (d_get "molecule" p) as [mol|] eqn:Hmol; [|discriminate].
  destruct (in_value "*charge" mol) eqn:Hin.
  - intros [= <-]. eauto.
  - destruct mol as [s|m]; [discriminate|]. intros [= <-].
    rewrite d_get_set_eq. eexists. split; [reflexivity|].
    simpl. unfold d_mem. now rewrite d_get_set_eq.
Qed.

Lemma default_moltra_get p p' dirac :
  d_get "dirac" p = Some dirac ->
  in_value ".4index" dirac = true ->
  default_moltra p = Done p' ->
  forall k,
    d_get k p'
    = match d_get k p with
      | Some v => Some v
      | None => if String.eqb "moltra" k
                then Some (VDict [(".active", VStr "all")]) else None
      end.
Proof.
  intros Hdir Hin. unfold default_moltra. rewrite Hdir, Hin. simpl.
  intros H k.
  assert (H' : p' = set_default "moltra" (VDict [(".active", VStr "all")]) p).
  { unfold set_default. destruct (d_mem "moltra" p); simpl in H; congruence. }
  rewrite H'. apply set_default_get.
Qed.

Lemma default_charge_Abort p e :
  default_charge p = Abort e ->
  (e = ParamKeyError /\ d_get "molecule" p = None) \/
  (e = ParamTypeError /\
   exists s, d_get "molecule" p = Some (VStr s) /\
             contains "*charge" s = false).
Proof.
  unfold default_charge.
  destruct (d_get "molecule" p) as [mol|]; [|intros [= <-]; auto].
  destruct (in_value "*charge" mol) eqn:Hin; [discriminate|].
  destruct mol as [s|m]; [|discriminate].
  intros [= <-]. right. eauto.
Qed.

Lemma default_4index_Abort p e :
  default_4index p = Abort e ->
  (e = ParamKeyError /\ d_get "dirac" p = None) \/
  (e = ParamAttributeError /\
   exists s, d_get "dirac" p = Some (VStr s) /\
             contains ".4index" s = false).
Proof.
  unfold default_4index.
  destruct (d_get "dirac" p) as [dir|]; [|intros [= <-]; auto].
  destruct (in_value ".4index" dir) eqn:Hin; [discriminate|].
  destruct dir as [s|m]; [|discriminate].
  intros [= <-]. right. eauto.
Qed.

Lemma default_moltra_Abort p e :
  default_moltra p = Abort e -> e = ParamKeyError /\ d_get "dirac" p = None.
Proof.
  unfold default_moltra.
  destruct (d_get "dirac" p) as [dir|]; [|intros [= <-]; auto].
  destruct (_ && _); discriminate.
Qed.




Section CheckFacts.

Variable _update_dict :
  list (string * pyval) -> string -> pyval -> list (string * pyval).

(** What is used of [_update_dict]: on a dict without the key, the result
    maps the key to the value and every other key as before. *)
Hypothesis update_dict_get : forall d k v k',
  d_mem k d = false ->
  d_get k' (_update_dict d k v)
  = if String.eqb k k' then Some v else d_get k' d.

Lemma fill_sections_get p k :
  d_get k (fill_sections _update_dict p)
  = match d_get k p with
    | Some v => Some v
    | None => section_default k
    end.
Proof.
  unfold fill_sections. rewrite !set_default_get.
  assert (H1 : d_get k
            (if d_mem "dirac" p then p
             else _update_dict p "dirac"
                    (VDict [ (".title", VStr "DIRAC-ASE calculation");
                             (".wave function", VStr "") ]))
          = match d_get k p with
            | Some v => Some v
            | None =>
                if String.eqb "dirac" k
                then Some (VDict [ (".title", VStr "DIRAC-ASE calculation");
                                   (".wave function", VStr "") ])
                else None
            end).
  { destruct (d_mem "dirac" p) eqn:E.
    - destruct (d_get k p) eqn:Ek; [reflexivity|].
      destruct (String.eqb "dirac" k) eqn:E'; [|reflexivity].
      apply String.eqb_eq in E' as <-. apply d_mem_get in E as [v Hv].
      congruence.
    - rewrite update_dict_get by exact E.
      destruct (String.eqb "dirac" k) eqn:E'.
      + apply String.eqb_eq in E' as <-. apply d_mem_false in E.
        now rewrite E.
      + now destruct (d_get k p). }
  rewrite H1. unfold section_default.
  destruct (d_get k p); [reflexivity|].
  rewrite !(String.eqb_sym k).
  destruct (String.eqb "dirac" k) eqn:E1; [reflexivity|].
  destruct (String.eqb "hamiltonian" k) eqn:E2; [reflexivity|].
  destruct (String.eqb "wave_function" k) eqn:E3; [reflexivity|].
  destruct (String.eqb "molecule" k) eqn:E4; [reflexivity|].
  reflexivity.
Qed.

(** The check taken apart, when it returns. *)
Lemma check_Done p p' :
  check_dirac_attributes _update_dict p = Done p' ->
  Forall (fun key => recognized key = true) (map fst p) /\
  exists p6 p7,
    default_charge (fill_sections _update_dict p) = Done p6 /\
    default_4index p6 = Done p7 /\
    default_moltra p7 = Done p'.
Proof.
  unfold check_dirac_attributes.
  destruct (find _ _) as [key|] eqn:Hfind; [discriminate|].
  apply find_None_Forall in Hfind.
  destruct (default_charge _) as [p6|] eqn:H6; [|discriminate].
  destruct (default_4index p6) as [p7|] eqn:H7; [|discriminate].
  intros H. split; [|eauto].
  eapply Forall_impl; [exact Hfind|]. simpl. intros k Hk.
  now apply negb_false_iff in Hk.
Qed.

(** Every lookup in the checked parameters. *)
Lemma check_get p p' :
  check_dirac_attributes _update_dict p = Done p' ->
  forall k, d_get k p' = checked_get p k.
Proof.
  intros H k. apply check_Done in H as (_ & p6 & p7 & H6 & H7 & H8).
  destruct (default_4index_has _ _ H7) as (dirac & Hdir & Hin).
  rewrite (default_moltra_get _ _ _ Hdir Hin H8),
    (default_4index_get _ _ H7), (default_charge_get _ _ H6),
    fill_sections_get.
  unfold checked_get. rewrite !(String.eqb_sym k).
  destruct (String.eqb "molecule" k) eqn:E1.
  { apply String.eqb_eq in E1 as <-. simpl.
    now destruct (d_get "molecule" p). }
  destruct (String.eqb "dirac" k) eqn:E2.
  { apply String.eqb_eq in E2 as <-. simpl.
    now destruct (d_get "dirac" p). }
  destruct (String.eqb "moltra" k) eqn:E3.
  { apply String.eqb_eq in E3 as <-. simpl.
    now destruct (d_get "moltra" p). }
  destruct (d_get k p); [reflexivity|].
  now destruct (section_default k).
Qed.

(** The options the check leaves in place. *)
Lemma check_options p p' :
  check_dirac_attributes _update_dict p = Done p' ->
  (exists molecule, d_get "molecule" p' = Some molecule /\
                    in_value "*charge" molecule = true) /\
  (exists dirac, d_get "dirac" p' = Some dirac /\
                 in_value ".4index" dirac = true) /\
  d_mem "moltra" p' = true.
Proof.
  intros H. apply check_Done in H as (_ & p6 & p7 & H6 & H7 & H8).
  destruct (default_charge_has _ _ H6) as (mol & Hmol & Hc).
  destruct (default_4index_has _ _ H7) as (dirac & Hdir & Hin).
  pose proof (default_moltra_get _ _ _ Hdir Hin H8) as G8.
  pose proof (default_4index_get _ _ H7) as G7.
  split; [|split].
  - exists mol. split; [|exact Hc].
    rewrite G8, G7. simpl. now rewrite Hmol.
  - exists dirac. split; [|exact Hin]. rewrite G8. now rewrite Hdir.
  - apply d_mem_get. rewrite G8. simpl. destruct (d_get "moltra" p7); eauto.
Qed.

Lemma checked_get_sections p k :
  k ∈ ["dirac"; "hamiltonian"; "wave_function"; "molecule"; "integrals";
       "moltra"] ->
  exists v, checked_get p k = Some v.
Proof.
  rewrite !elem_of_cons, elem_of_nil.
  intros [-> | [-> | [-> | [-> | [-> | [-> | []]]]]]];
    unfold checked_get; simpl;
    match goal with |- context [d_get ?k p] => destruct (d_get k p) end;
    simpl; eauto.
Qed.




(** The check returns on recognized keys and accepted sections. *)
Lemma check_accepted_returns p :
  Forall (fun key => recognized key = true) (map fst p) ->
  accepts "*charge" (d_get "molecule" p) ->
  accepts ".4index" (d_get "dirac" p) ->
  exists p', check_dirac_attributes _update_dict p = Done p'.
Proof.
  intros Hall Hm Hd. unfold check_dirac_attributes.
  assert (Hfind : find (fun key => negb (recognized key)) (map fst p)
                  = None).
  { apply find_None_Forall. eapply Forall_impl; [exact Hall|].
    simpl. intros k Hk. now rewrite Hk. }
  rewrite Hfind.
  destruct (default_charge _) as [p6|e6] eqn:H6.
  - destruct (default_4index p6) as [p7|e7] eqn:H7.
    + destruct (default_moltra p7) as [p8|e8] eqn:H8; [eauto|].
      exfalso. apply default_moltra_Abort in H8 as [_ H8].
      destruct (default_4index_has _ _ H7) as (dirac & Hdir & _).
      congruence.
    + exfalso.
      pose proof (default_charge_get _ _ H6 "dirac") as G.
      rewrite fill_sections_get in G. simpl in G.
      apply default_4index_Abort in H7 as [[_ H7] | [_ (s & H7 & Hs)]];
        rewrite H7 in G; destruct (d_get "dirac" p) as [v|];
        try discriminate G.
      injection G as <-. simpl in Hd. congruence.
  - exfalso.
    pose proof (fill_sections_get p "molecule") as G.
    apply default_charge_Abort in H6 as [[_ H6] | [_ (s & H6 & Hs)]];
      rewrite H6 in G; destruct (d_get "molecule" p) as [v|];
      try discriminate G.
    injection G as <-. simpl in Hm. congruence.
Qed.

End CheckFacts.

Lemma update_dict_front_get d k v k' :
  d_mem k d = false ->
  d_get k' (update_dict_front d k v)
  = if String.eqb k k' then Some v else d_get k' d.
Proof. reflexivity. Qed.

(* ===================================================================== *)
(** * DIRAC.check_dirac_attributes *)
(* ===================================================================== *)

(** X15.  [check_dirac_attributes] raises [InputError] for a keyword
    exactly when that keyword is the first key of the parameters, in
    their order, that is not a recognized section; no later step of the
    check raises this exception. *)
Theorem first_unrecognized_key_raises
    (_update_dict :
       list (string * pyval) -> string -> pyval -> list (string * pyval))
    (p : list (string * pyval)) (key : string) :
  check_dirac_attributes _update_dict p = Abort (InputError key) <->
  exists pre post,
    map fst p = (pre ++ key :: post)%list /\
    Forall (fun k => recognized k = true) pre /\
    recognized key = false.
Proof.
  unfold check_dirac_attributes.
  destruct (find _ _) as [k0|] eqn:Hfind.
  - split.
    + intros [= ->]. apply find_Some_split in Hfind
        as (pre & post & Hsplit & Hpre & Hkey).
      exists pre, post. split; [exact Hsplit|]. split.
      * eapply Forall_impl; [exact Hpre|]. simpl. intros k Hk.
        now apply negb_false_iff in Hk.
      * now apply negb_true_iff in Hkey.
    + intros (pre & post & Hsplit & Hpre & Hkey).
      assert (Hk : find (fun k => negb (recognized k)) (map fst p)
                   = Some key).
      { apply find_Some_split. exists pre, post. split; [exact Hsplit|].
        split.
        - eapply Forall_impl; [exact Hpre|]. simpl. intros k Hk.
          now rewrite Hk.
        - now rewrite Hkey. }
      congruence.
  - split.
    + intros H. exfalso.
      destruct (default_charge _) as [p6|e6] eqn:H6.
      * destruct (default_4index p6) as [p7|e7] eqn:H7.
        -- apply default_moltra_Abort in H as [H _]. discriminate H.
        -- injection H as ->.
           apply default_4index_Abort in H7 as [[H7 _] | [H7 _]];
             discriminate H7.
      * injection H as ->.
        apply default_charge_Abort in H6 as [[H6 _] | [H6 _]];
          discriminate H6.
    + intros (pre & post & Hsplit & Hpre & Hkey). exfalso.
      apply find_None_Forall in Hfind. rewrite Hsplit in Hfind.
      apply Forall_app in Hfind as [_ Hfind].
      inversion Hfind as [|? ? Hk _]. simpl in Hk.
      rewrite Hkey in Hk. discriminate Hk.
Qed.

Section CheckTheorems.

Variable _update_dict :
  list (string * pyval) -> string -> pyval -> list (string * pyval).

Hypothesis update_dict_get : forall d k v k',
  d_mem k d = false ->
  d_get k' (_update_dict d k v)
  = if String.eqb k k' then Some v else d_get k' d.

(** X16.  When the check returns, the parameters have the sections
    [dirac], [hamiltonian], [wave_function], [molecule], [integrals] and
    [moltra], the molecule section contains [*charge] and the DIRAC
    heading contains [.4index]. *)
Theorem checked_parameters_complete (p p' : list (string * pyval)) :
  check_dirac_attributes _update_dict p = Done p' ->
  (forall k,
     k ∈ ["dirac"; "hamiltonian"; "wave_function"; "molecule";
          "integrals"; "moltra"] ->
     d_mem k p' = true) /\
  (exists molecule, d_get "molecule" p' = Some molecule /\
                    in_value "*charge" molecule = true) /\
  (exists dirac, d_get "dirac" p' = Some dirac /\
                 in_value ".4index" dirac = true).
Proof.
  intros H. split.
  - intros k Hk. apply d_mem_get.
    rewrite (check_get _ update_dict_get _ _ H).
    now apply checked_get_sections.
  - destruct (check_options _ _ _ H) as (Hm & Hd & _).
    now split.
Qed.



(** X19.  On parameters whose sections are strings or dicts, the check
    returns exactly when every key is a recognized section, a molecule
    section given as a string has [*charge] in it, and a DIRAC heading
    given as a string has [.4index] in it. *)
Theorem check_returns_iff (p : list (string * pyval)) :
  (exists p', check_dirac_attributes _update_dict p = Done p') <->
  Forall (fun key => recognized key = true) (map fst p) /\
  accepts "*charge" (d_get "molecule" p) /\
  accepts ".4index" (d_get "dirac" p).
Proof.
  split.
  - intros [p' H].
    destruct (check_Done _ _ _ H) as (Hall & p6 & p7 & H6 & H7 & H8).
    split; [exact Hall|]. split.
    + destruct (d_get "molecule" p) as [[s|m]|] eqn:Hm; simpl; [|exact I..].
      revert H6. unfold default_charge.
      rewrite (fill_sections_get _ update_dict_get), Hm. simpl.
      destruct (contains "*charge" s); [reflexivity|discriminate].
    + destruct (d_get "dirac" p) as [[s|m]|] eqn:Hd; simpl; [|exact I..].
      revert H7. unfold default_4index.
      rewrite (default_charge_get _ _ H6),
        (fill_sections_get _ update_dict_get), Hd. simpl.
      destruct (contains ".4index" s); [reflexivity|discriminate].
  - intros (Hall & Hm & Hd).
    now apply (check_accepted_returns _ update_dict_get).
Qed.

(** X20.  The exceptions of the check on parameters whose sections are
    strings or dicts: [InputError] for a key that is not a recognized
    section, [TypeError] for a molecule section given
    as a string without [*charge] in it (the item assignment on a
    string), [AttributeError] for a DIRAC heading given as a string
    without [.4index] in it ([update] on a string); it raises no
    [KeyError]. *)
Theorem check_exceptions (p : list (string * pyval)) (e : param_error) :
  check_dirac_attributes _update_dict p = Abort e ->
  (exists key, e = InputError key /\ key ∈ map fst p /\
               recognized key = false) \/
  (e = ParamTypeError /\
   exists s, d_get "molecule" p = Some (VStr s) /\
             contains "*charge" s = false) \/
  (e = ParamAttributeError /\
   exists s, d_get "dirac" p = Some (VStr s) /\
             contains ".4index" s = false).
Proof.
  unfold check_dirac_attributes.
  destruct (find _ _) as [k0|] eqn:Hfind.
  - intros [= <-]. left. exists k0. split; [reflexivity|].
    apply find_Some_split in Hfind as (pre & post & Hsplit & _ & Hkey).
    split.
    + rewrite Hsplit. apply elem_of_app. right. left.
    + now apply negb_true_iff in Hkey.
  - destruct (default_charge _) as [p6|e6] eqn:H6.
    + destruct (default_4index p6) as [p7|e7] eqn:H7.
      * intros H8. exfalso. apply default_moltra_Abort in H8 as [_ H8].
        destruct (default_4index_has _ _ H7) as (dirac & Hdir & _).
        congruence.
      * intros [= <-]. right. right.
        pose proof (default_charge_get _ _ H6 "dirac") as G.
        rewrite (fill_sections_get _ update_dict_get) in G. simpl in G.
        apply default_4index_Abort in H7 as [[_ H7] | [-> (s & H7 & Hs)]];
          rewrite H7 in G; destruct (d_get "dirac" p) as [v|];
          try discriminate G.
        injection G as <-. eauto.
    + intros [= <-]. right. left.
      pose proof (fill_sections_get _ update_dict_get p "molecule") as G.
      apply default_charge_Abort in H6 as [[_ H6] | [-> (s & H6 & Hs)]];
        rewrite H6 in G; destruct (d_get "molecule" p) as [v|];
        try discriminate G.
      injection G as <-. eauto.
Qed.

(* ===================================================================== *)
(** * DIRAC.save on checked parameters *)
(* ===================================================================== *)



End CheckTheorems.

(* ===================================================================== *)
(** * The parameter facts on sample parameters *)
(* ===================================================================== *)

(** The user's two sections are completed to the full set. *)
Lemma checked_parameters_complete_witness :
  match check_dirac_attributes update_dict_front user_parameters with
  | Done p' =>
      (forall k,
         k ∈ ["dirac"; "hamiltonian"; "wave_function"; "molecule";
              "integrals"; "moltra"] ->
         d_mem k p' = true) /\
      (exists molecule, d_get "molecule" p' = Some molecule /\
                        in_value "*charge" molecule = true) /\
      (exists dirac, d_get "dirac" p' = Some dirac /\
                     in_value ".4index" dirac = true)
  | Abort _ => False
  end.
Proof.
  destruct (check_dirac_attributes update_dict_front user_parameters)
    as [p'|e] eqn:E; [|vm_compute in E; discriminate E].
  exact (checked_parameters_complete update_dict_front
           update_dict_front_get user_parameters p' E).
Defined.



(** The user's parameters are accepted; a molecule given as a string
    without the option is not. *)
Lemma check_returns_iff_witness :
  (exists p',
     check_dirac_attributes update_dict_front user_parameters = Done p') /\
  ~ (exists p',
       check_dirac_attributes update_dict_front string_molecule_parameters
       = Done p').
Proof.
  split.
  - apply (check_returns_iff update_dict_front update_dict_front_get
             user_parameters).
    split; [repeat constructor|]. split; exact I.
  - intros H.
    apply (check_returns_iff update_dict_front update_dict_front_get
             string_molecule_parameters) in H as (_ & H & _).
    vm_compute in H. discriminate H.
Defined.

Lemma check_exceptions_witness :
  (exists key, ParamTypeError = InputError key /\
               key ∈ map fst string_molecule_parameters /\
               recognized key = false) \/
  (ParamTypeError = ParamTypeError /\
   exists s, d_get "molecule" string_molecule_parameters = Some (VStr s) /\
             contains "*charge" s = false) \/
  (ParamTypeError = ParamAttributeError /\
   exists s, d_get "dirac" string_molecule_parameters = Some (VStr s) /\
             contains ".4index" s = false).
Proof.
  apply (check_exceptions update_dict_front update_dict_front_get
           string_molecule_parameters ParamTypeError).
  vm_compute. reflexivity.
Defined.


